(** * JACI budget tracker: the data and behavioural contract, verified

    A shallow embedding of the two variants of the budget application:

    - variant 1 ([src/App.js]): e-mail/anonymous sessions, transactions with a
      status ([actual] or [forecasted]), the derived totals and the two
      30-day cash-flow windows;
    - variant 2 (the second [App] component): anonymous sessions, items, the
      running summary document and the remote forecast.

    JavaScript numbers are IEEE 754 doubles and are modelled by Rocq's
    primitive floats; instants ([Date] values, [Date.now()]) are integral
    numbers of milliseconds since the epoch and are modelled by [Z].
    What the host provides (number and date parsing, [JSON.parse], the
    local time zone) is the interface [Platform]; the statements hold for
    every platform, and [Ref.platform] is one that computes. *)

From Stdlib Require Import ZArith List String Ascii Bool Floats DecimalString Lia.
From Stdlib Require Import Sorted Permutation.
Import ListNotations.

Local Open Scope string_scope.
Local Open Scope Z_scope.

Set Implicit Arguments.
Set Warnings "-register-all".

(** ** JavaScript values used by both variants *)

Module JS.

(** The values [response.json()] and [JSON.parse] can produce, together
    with [undefined] (what a missing property reads as). *)
Inductive value : Type :=
| VUndefined
| VNull
| VBool (b : bool)
| VNum (x : float)
| VStr (s : string)
| VArr (items : list value)
| VObj (fields : list (string * value)).

(** [x] is NaN: the only number that differs from itself. *)
Definition isNaN (x : float) : bool := negb (PrimFloat.eqb x x).

(** ToBoolean on numbers: [0], [-0] and [NaN] are falsy. *)
Definition truthy_num (x : float) : bool :=
  negb (PrimFloat.eqb x 0%float) && negb (isNaN x).

(** ToBoolean on strings: only the empty string is falsy. *)
Definition truthy_str (s : string) : bool :=
  match s with EmptyString => false | String _ _ => true end.

(** ToBoolean. *)
Definition truthy (v : value) : bool :=
  match v with
  | VUndefined | VNull => false
  | VBool b => b
  | VNum x => truthy_num x
  | VStr s => truthy_str s
  | VArr _ | VObj _ => true
  end.

(** Own-property lookup in an object literal; of two equal keys the later
    one wins, as in [JSON.parse]. *)
Fixpoint lookup (k : string) (fields : list (string * value)) : option value :=
  match fields with
  | [] => None
  | (k', v) :: rest =>
      match lookup k rest with
      | Some w => Some w
      | None => if String.eqb k k' then Some v else None
      end
  end.

(** JavaScript strings are modelled by their UTF-8 encoding. The white
    space [String.prototype.trim], [Number] and [parseFloat] skip: in one
    byte, tab, line feed, vertical tab, form feed, carriage return and space. *)
Definition is_space (c : ascii) : bool :=
  let n := nat_of_ascii c in
  (Nat.eqb n 32 || (Nat.leb 9 n && Nat.leb n 13))%bool.

(** In two bytes: U+00A0. *)
Definition is_space2 (c1 c2 : ascii) : bool :=
  (Nat.eqb (nat_of_ascii c1) 194 && Nat.eqb (nat_of_ascii c2) 160)%bool.

(** In three bytes: U+1680, U+2000 to U+200A, U+2028, U+2029, U+202F,
    U+205F, U+3000 and U+FEFF. *)
Definition is_space3 (c1 c2 c3 : ascii) : bool :=
  let a := nat_of_ascii c1 in
  let b := nat_of_ascii c2 in
  let c := nat_of_ascii c3 in
  ((Nat.eqb a 225 && Nat.eqb b 154 && Nat.eqb c 128)
   || (Nat.eqb a 226 && Nat.eqb b 128
       && ((Nat.leb 128 c && Nat.leb c 138) || Nat.eqb c 168 || Nat.eqb c 169
           || Nat.eqb c 175))
   || (Nat.eqb a 226 && Nat.eqb b 129 && Nat.eqb c 159)
   || (Nat.eqb a 227 && Nat.eqb b 128 && Nat.eqb c 128)
   || (Nat.eqb a 239 && Nat.eqb b 187 && Nat.eqb c 191))%bool.

(** Drops leading white space; [sp2] and [sp3] recognise the longer
    sequences in the order the bytes are met. *)
Fixpoint dropSpaces (sp2 : ascii -> ascii -> bool) (sp3 : ascii -> ascii -> ascii -> bool)
    (l : list ascii) : list ascii :=
  match l with
  | c1 :: r1 =>
      if is_space c1 then dropSpaces sp2 sp3 r1
      else
        match r1 with
        | c2 :: r2 =>
            if sp2 c1 c2 then dropSpaces sp2 sp3 r2
            else
              match r2 with
              | c3 :: r3 => if sp3 c1 c2 c3 then dropSpaces sp2 sp3 r3 else l
              | [] => l
              end
        | [] => l
        end
  | [] => []
  end.

Definition trim_start (s : string) : string :=
  string_of_list_ascii (dropSpaces is_space2 is_space3 (list_ascii_of_string s)).

(** Trailing white space is leading white space of the reversed string. *)
Definition trim_end (s : string) : string :=
  string_of_list_ascii
    (rev (dropSpaces (fun a b => is_space2 b a) (fun a b c => is_space3 c b a)
            (rev (list_ascii_of_string s)))).

Definition trim (s : string) : string := trim_end (trim_start s).

End JS.

(** ** The host platform *)

(** The built-in functions the two components call. [LocalTZA t true] is the
    offset of local time at the UTC instant [t], [LocalTZA t false] the offset
    at the local time value [t] (ECMAScript's LocalTZA); [Date_parse] is
    [None] for an invalid date. *)
Class Platform : Type := {
  Number_of_string : string -> float;
  parseFloat : string -> float;
  Date_parse : string -> option Z;
  JSON_parse : JS.value -> option JS.value;
  LocalTZA : Z -> bool -> Z
}.

(** ** Dates and Firestore timestamps *)

Definition msPerDay : Z := 24 * 60 * 60 * 1000.

(** A Firestore [Timestamp]. *)
Record Timestamp : Type := mkTimestamp {
  seconds : Z;
  nanoseconds : Z
}.

(** [Timestamp.fromDate(date)] for the date at instant [ms]. *)
Definition Timestamp_fromDate (ms : Z) : Timestamp :=
  let s := ms / 1000 in
  {| seconds := s; nanoseconds := (ms - s * 1000) * 1000000 |}.

(** [ts.toDate()]: the instant [seconds * 1000 + nanoseconds / 1e6], cut to
    whole milliseconds by the [Date] constructor (the sum is exact in doubles
    for the microsecond precision Firestore stores). *)
Definition Timestamp_toDate (ts : Timestamp) : Z :=
  Z.quot (seconds ts * 1000000000 + nanoseconds ts) 1000000.

(** What the [date] field of a stored record reads as. *)
Inductive DateField : Type :=
| DateMissing                      (* undefined, or null: a pending server timestamp *)
| DateTimestamp (ts : Timestamp)   (* a Firestore Timestamp: it has toDate *)
| DateText (s : string).           (* a plain string: no toDate *)

(** [t.date && t.date.toDate && t.date.toDate()]: the instant of a date that
    can be converted, [None] when the guard stops the evaluation. *)
Definition convertible (d : DateField) : option Z :=
  match d with
  | DateTimestamp ts => Some (Timestamp_toDate ts)
  | DateMissing | DateText _ => None
  end.

Section LocalTime.
Context {P : Platform}.

(** ECMAScript's LocalTime and UTC. *)
Definition LocalTime (t : Z) : Z := t + LocalTZA t true.
Definition UTC (t : Z) : Z := t - LocalTZA t false.

(** [d.setHours(h, m, s, ms)] with the time within the day given in
    milliseconds: the same local day, at that time. *)
Definition setHours (timeInDay : Z) (t : Z) : Z :=
  UTC ((LocalTime t / msPerDay) * msPerDay + timeInDay).

(** [setHours(0, 0, 0, 0)] and [setHours(23, 59, 59, 999)]. *)
Definition startOfLocalDay (t : Z) : Z := setHours 0 t.
Definition endOfLocalDay (t : Z) : Z :=
  setHours (23 * 3600000 + 59 * 60000 + 59 * 1000 + 999) t.
End LocalTime.

(** ** Handlers: state, remote calls and exceptions *)

(** An asynchronous handler is run to completion against a world [W] (the
    component's state and the log of calls made to the collaborators); it
    returns normally or throws. *)
Module Eff.

Inductive result (A : Type) : Type :=
| Returned (a : A)
| Thrown (message : string).
Arguments Returned {A} a.
Arguments Thrown {A} message.

Definition t (W A : Type) : Type := W -> result A * W.

Definition ret {W A} (a : A) : t W A := fun w => (Returned a, w).

Definition bind {W A B} (c : t W A) (k : A -> t W B) : t W B :=
  fun w =>
    match c w with
    | (Returned a, w') => k a w'
    | (Thrown e, w') => (Thrown e, w')
    end.

Definition throw {W A} (message : string) : t W A := fun w => (Thrown message, w).

(** A state setter. *)
Definition modify {W} (f : W -> W) : t W unit := fun w => (Returned tt, f w).

Definition get {W} : t W W := fun w => (Returned w, w).

(** [try { body } catch (e) { handler(e) } finally { cleanup }]. *)
Definition try_catch_finally {W A} (body : t W A) (handler : string -> t W A)
    (cleanup : t W unit) : t W A :=
  fun w =>
    let '(r, w1) :=
      match body w with
      | (Returned a, w') => (Returned a, w')
      | (Thrown e, w') => handler e w'
      end in
    match cleanup w1 with
    | (Returned _, w2) => (r, w2)
    | (Thrown e, w2) => (Thrown e, w2)
    end.

(** The world a handler leaves behind. *)
Definition exec {W A} (c : t W A) (w : W) : W := snd (c w).

End Eff.

Declare Scope eff_scope.
Delimit Scope eff_scope with eff.
Notation "x <- c ;; k" := (Eff.bind c (fun x => k))
  (at level 61, c at next level, right associativity) : eff_scope.
Notation "c ;; k" := (Eff.bind c (fun _ => k))
  (at level 61, right associativity) : eff_scope.

(** The global configuration both files read at load time. *)
Record Config : Type := mkConfig {
  appId : string;
  initialAuthToken : option string
}.

(** The automatic sign-in both authentication listeners perform:
    [if (initialAuthToken) signInWithCustomToken(...) else signInAnonymously(...)]. *)
Inductive SignIn : Type :=
| SignInWithCustomToken (token : string)
| SignInAnonymously.

Definition autoSignIn (cfg : Config) : SignIn :=
  match initialAuthToken cfg with
  | Some token => if JS.truthy_str token then SignInWithCustomToken token else SignInAnonymously
  | None => SignInAnonymously
  end.

(** What the identity provider notifies, and the settling of a pending
    sign-in promise (resolved or rejected). *)
Record User : Type := mkUser {
  uid : string;
  email : option string
}.

Inductive AuthEvent : Type :=
| AuthStateChanged (user : option User)
| SignInSettled (resolved : bool).

(** ** Variant 1: transactions and the derived metrics *)

Module V1.

(** A transaction as a snapshot delivers it. A field the document lacks
    reads as [None] (amount), [DateMissing] (dates) or a string that equals
    none of the expected ones (type, status). *)
Record Transaction : Type := mkTransaction {
  id : string;
  amount : option float;
  category : string;
  type : string;
  status : string;
  date : DateField;
  createdAt : DateField
}.

(** [t.amount || 0]. *)
Definition amountOr0 (t : Transaction) : float :=
  match amount t with
  | Some x => if JS.truthy_num x then x else 0%float
  | None => 0%float
  end.

(** [.reduce((acc, t) => acc + (t.amount || 0), 0)]. *)
Definition sumAmountsFrom (acc : float) (l : list Transaction) : float :=
  fold_left (fun acc t => (acc + amountOr0 t)%float) l acc.

Definition sumAmounts (l : list Transaction) : float := sumAmountsFrom 0%float l.

Definition isActualIncome (t : Transaction) : bool :=
  String.eqb (type t) "income" && String.eqb (status t) "actual".

Definition isActualExpense (t : Transaction) : bool :=
  String.eqb (type t) "expense" && String.eqb (status t) "actual".

Definition totalIncome (transactions : list Transaction) : float :=
  sumAmounts (filter isActualIncome transactions).

Definition totalExpenses (transactions : list Transaction) : float :=
  sumAmounts (filter isActualExpense transactions).

Definition balance (transactions : list Transaction) : float :=
  (totalIncome transactions - totalExpenses transactions)%float.

(** The object both cash-flow functions return. *)
Record CashFlow : Type := mkCashFlow {
  income : float;
  expenses : float;
  net : float
}.

(** The two accumulators of a [forEach] loop, and the final object. *)
Definition tally (acc : float * float) (t : Transaction) : float * float :=
  if String.eqb (type t) "income" then ((fst acc + amountOr0 t)%float, snd acc)
  else if String.eqb (type t) "expense" then (fst acc, (snd acc + amountOr0 t)%float)
  else acc.

Definition cashFlowOf (acc : float * float) : CashFlow :=
  {| income := fst acc; expenses := snd acc; net := (fst acc - snd acc)%float |}.

(** The loop body of [getActualCashFlowForLast30Days]. *)
Definition actualStep (thirtyDaysAgo : Timestamp) (acc : float * float)
    (t : Transaction) : float * float :=
  if String.eqb (status t) "actual" then
    match convertible (date t) with
    | Some d =>
        if Timestamp_toDate thirtyDaysAgo <=? d then tally acc t else acc
    | None => acc
    end
  else acc.

(** [getActualCashFlowForLast30Days], with [now] the value of [Date.now()]
    (a clock reading: [now - 30d] is an instant a [Timestamp] can hold). *)
Definition getActualCashFlowForLast30Days (now : Z)
    (transactions : list Transaction) : CashFlow :=
  let thirtyDaysAgo := Timestamp_fromDate (now - 30 * 24 * 60 * 60 * 1000) in
  cashFlowOf (fold_left (actualStep thirtyDaysAgo) transactions (0%float, 0%float)).

Section Forecast.
Context {P : Platform}.

(** The loop body of [getForecastCashFlowForNext30Days]. *)
Definition forecastStep (today thirtyDaysFromNow : Z) (acc : float * float)
    (t : Transaction) : float * float :=
  if String.eqb (status t) "forecasted" then
    match convertible (date t) with
    | Some forecastDate =>
        if (today <=? forecastDate) && (forecastDate <=? thirtyDaysFromNow)
        then tally acc t else acc
    | None => acc
    end
  else acc.

(** [getForecastCashFlowForNext30Days]: the clock is read twice, [t0] by
    [new Date()] and then [t1] by [Date.now()]. *)
Definition getForecastCashFlowForNext30Days (t0 t1 : Z)
    (transactions : list Transaction) : CashFlow :=
  let today := startOfLocalDay t0 in
  let thirtyDaysFromNow := endOfLocalDay (t1 + 30 * 24 * 60 * 60 * 1000) in
  cashFlowOf
    (fold_left (forecastStep today thirtyDaysFromNow) transactions (0%float, 0%float)).
End Forecast.

(** *** The session listener (variant 1) *)

(** The part of the component's state the listener writes, the one-shot
    flag [isInitialAuthAttempt], the sign-ins requested so far (oldest
    first) and how many of them are still awaited. *)
Record Session : Type := mkSession {
  userId : option string;
  userEmail : option string;
  isAuthReady : bool;
  loading : bool;
  authError : option string;
  isInitialAuthAttempt : bool;
  signIns : list SignIn;
  awaited : nat
}.

(** The state at mount: [useState] and [useRef] initial values. *)
Definition initialSession : Session :=
  {| userId := None; userEmail := None; isAuthReady := false; loading := true;
     authError := None; isInitialAuthAttempt := true; signIns := []; awaited := 0 |}.

(** The callback given to [onAuthStateChanged], up to its [await]. *)
Definition onAuthStateChanged (cfg : Config) (user : option User) (s : Session) : Session :=
  match user with
  | Some u =>
      {| userId := Some (uid u); userEmail := email u; isAuthReady := true;
         loading := false; authError := None;
         isInitialAuthAttempt := isInitialAuthAttempt s;
         signIns := signIns s; awaited := awaited s |}
  | None =>
      let s' :=
        {| userId := None; userEmail := None; isAuthReady := false; loading := false;
           authError := authError s;
           isInitialAuthAttempt := isInitialAuthAttempt s;
           signIns := signIns s; awaited := awaited s |} in
      if isInitialAuthAttempt s then
        {| userId := userId s'; userEmail := userEmail s'; isAuthReady := isAuthReady s';
           loading := loading s'; authError := authError s';
           isInitialAuthAttempt := isInitialAuthAttempt s';
           signIns := signIns s' ++ [autoSignIn cfg];
           awaited := S (awaited s') |}
      else s'
  end.

(** The rest of the callback, run when the awaited sign-in settles: the
    [catch] block on rejection, then the [finally] block. *)
Definition afterSignIn (resolved : bool) (s : Session) : Session :=
  match awaited s with
  | O => s
  | S n =>
      {| userId := userId s; userEmail := userEmail s; isAuthReady := false;
         loading := false;
         authError :=
           if resolved then authError s
           else Some "Failed to auto-sign in. Please log in or register.";
         isInitialAuthAttempt := false;
         signIns := signIns s; awaited := n |}
  end.

Definition sessionStep (cfg : Config) (s : Session) (e : AuthEvent) : Session :=
  match e with
  | AuthStateChanged user => onAuthStateChanged cfg user s
  | SignInSettled resolved => afterSignIn resolved s
  end.

(** The session after a sequence of events, from the state at mount. *)
Definition runSession (cfg : Config) (events : list AuthEvent) : Session :=
  fold_left (sessionStep cfg) events initialSession.

(** *** Adding a transaction (variant 1) *)

Module Add.

(** The [date] and [createdAt] a new document is written with: a client
    [Timestamp.fromDate(new Date(...))] ([None] inside: the date was invalid,
    the timestamp holds NaN) or the [serverTimestamp()] sentinel. *)
Inductive DateToWrite : Type :=
| ClientTimestamp (ts : option Timestamp)
| ServerTimestamp.

(** The object literal [transactionData]. *)
Record TransactionData : Type := mkTransactionData {
  amount : float;
  category : string;
  type : string;
  status : string;
  date : DateToWrite;
  createdAt : DateToWrite
}.

(** Calls to the document store. *)
Inductive StoreCall : Type :=
| AddDoc (path : string) (data : TransactionData).

(** The state [handleAddTransaction] reads and writes ([db] is whether the
    Firestore handle is set; [amountInput], [categoryInput] and [typeInput]
    are the state variables [amount], [category] and [type], which hold the
    text of the form), and the calls made to the store, oldest first. *)
Record State : Type := mkState {
  db : bool;
  userId : option string;
  amountInput : string;
  categoryInput : string;
  typeInput : string;
  transactionStatus : string;
  transactionDate : string;
  loading : bool;
  error : option string;
  showModal : bool;
  modalMessage : string;
  calls : list StoreCall
}.

Definition setForm (a c ty st d : string) (s : State) : State :=
  {| db := db s; userId := userId s; amountInput := a; categoryInput := c;
     typeInput := ty; transactionStatus := st; transactionDate := d;
     loading := loading s; error := error s; showModal := showModal s;
     modalMessage := modalMessage s; calls := calls s |}.

Definition setLoading (b : bool) (s : State) : State :=
  {| db := db s; userId := userId s; amountInput := amountInput s;
     categoryInput := categoryInput s; typeInput := typeInput s;
     transactionStatus := transactionStatus s; transactionDate := transactionDate s;
     loading := b; error := error s; showModal := showModal s;
     modalMessage := modalMessage s; calls := calls s |}.

Definition setError (e : option string) (s : State) : State :=
  {| db := db s; userId := userId s; amountInput := amountInput s;
     categoryInput := categoryInput s; typeInput := typeInput s;
     transactionStatus := transactionStatus s; transactionDate := transactionDate s;
     loading := loading s; error := e; showModal := showModal s;
     modalMessage := modalMessage s; calls := calls s |}.

(** [showCustomModal(message)], with no action. *)
Definition showCustomModal (message : string) (s : State) : State :=
  {| db := db s; userId := userId s; amountInput := amountInput s;
     categoryInput := categoryInput s; typeInput := typeInput s;
     transactionStatus := transactionStatus s; transactionDate := transactionDate s;
     loading := loading s; error := error s; showModal := true;
     modalMessage := message; calls := calls s |}.

Definition logCall (c : StoreCall) (s : State) : State :=
  {| db := db s; userId := userId s; amountInput := amountInput s;
     categoryInput := categoryInput s; typeInput := typeInput s;
     transactionStatus := transactionStatus s; transactionDate := transactionDate s;
     loading := loading s; error := error s; showModal := showModal s;
     modalMessage := modalMessage s; calls := calls s ++ [c] |}.

(** [!userId]: null, or the empty string. *)
Definition hasUserId (s : State) : bool :=
  match userId s with Some u => JS.truthy_str u | None => false end.

(** The instants a [Timestamp] may hold: years 1 to 9999; its constructor
    throws outside. *)
Definition Timestamp_inRange (ms : Z) : bool :=
  (-62135596800 <=? ms / 1000) && (ms / 1000 <? 253402300800).

Section Handler.
Context {P : Platform}.

(** The store's answer to a call: [None] when the promise resolves, the
    error message when it rejects. *)
Variable remote : StoreCall -> option string.
Variable cfg : Config.

(** [await addDoc(collection(db, path), data)]. *)
Definition addDoc (path : string) (data : TransactionData) : Eff.t State unit :=
  fun s =>
    let c := AddDoc path data in
    (match remote c with
     | None => Eff.Returned tt
     | Some e => Eff.Thrown e
     end, logCall c s).

(** [Timestamp.fromDate(new Date(transactionDate + 'T12:00:00'))]. *)
Definition effectiveTimestamp (s : State) : Eff.t State DateToWrite :=
  match Date_parse (transactionDate s ++ "T12:00:00") with
  | None => Eff.ret (ClientTimestamp None)
  | Some ms =>
      if Timestamp_inRange ms
      then Eff.ret (ClientTimestamp (Some (Timestamp_fromDate ms)))
      else Eff.throw "Timestamp seconds out of range"
  end.

(** The first three guards after the log-in guard: amount, then category. *)
Definition amountRejected (s : State) : bool :=
  negb (JS.truthy_str (amountInput s))
  || JS.isNaN (Number_of_string (amountInput s))
  || PrimFloat.leb (parseFloat (amountInput s)) 0%float.

Definition categoryRejected (s : State) : bool :=
  negb (JS.truthy_str (JS.trim (categoryInput s))).

Definition dateRejected (s : State) : bool :=
  String.eqb (transactionStatus s) "forecasted"
  && negb (JS.truthy_str (transactionDate s)).

Definition transactionsPath (s : State) : string :=
  "/artifacts/" ++ appId cfg ++ "/users/"
    ++ match userId s with Some u => u | None => "null" end ++ "/transactions".

(** The body of the [try] block. *)
Definition submit (s : State) : Eff.t State unit :=
  (effectiveDate <-
     (if String.eqb (transactionStatus s) "forecasted"
         && JS.truthy_str (transactionDate s)
      then effectiveTimestamp s
      else Eff.ret ServerTimestamp) ;;
   addDoc (transactionsPath s)
     {| amount := parseFloat (amountInput s);
        category := JS.trim (categoryInput s);
        type := typeInput s;
        status := transactionStatus s;
        date := effectiveDate;
        createdAt := ServerTimestamp |} ;;
   Eff.modify (setForm EmptyString EmptyString "expense" "actual" EmptyString))%eff.

Definition handleAddTransaction : Eff.t State unit :=
  (s <- Eff.get ;;
   if negb (db s) || negb (hasUserId s) then
     Eff.modify (showCustomModal "Please log in to add transactions.")
   else if amountRejected s then
     Eff.modify (showCustomModal "Please enter a valid positive amount.")
   else if categoryRejected s then
     Eff.modify (showCustomModal "Please enter a category.")
   else if dateRejected s then
     Eff.modify (showCustomModal "Please select a date for forecasted transactions.")
   else
     Eff.modify (setLoading true) ;;
     Eff.modify (setError None) ;;
     Eff.try_catch_finally
       (submit s)
       (fun _ => Eff.modify (setError (Some "Failed to add transaction. Please try again.")))
       (Eff.modify (setLoading false)))%eff.

End Handler.

End Add.

End V1.

(** ** Variant 2: items, the summary document and the forecast *)

Module V2.

(** The document [handleAddItem] inserts; [date] is the [Date] object built
    from the form ([None]: an invalid date). *)
Record Item : Type := mkItem {
  date : option Z;
  amount : float;
  type : string;
  description : string
}.

(** The three fields written to the summary document. *)
Record Summary : Type := mkSummary {
  budget : float;
  income : float;
  expense : float
}.

(** Calls to the collaborators: the document store and the forecast
    provider (the request carries the history the prompt is built from). *)
Inductive Call : Type :=
| AddDoc (path : string) (data : Item)
| SetDoc (path : string) (docId : string) (data : Summary) (merge : bool)
| Fetch (history : list Item).

(** What the submitted form holds: [formData.get] of each field. *)
Record Form : Type := mkForm {
  dateField : string;
  amountField : string;
  typeField : string;
  descriptionField : string
}.

(** The component's state ([budgetState], [incomeState] and [expenseState]
    are the state variables [budget], [income] and [expense]), whether
    [form.reset()] has run, and the calls made, oldest first. *)
Record State : Type := mkState {
  user : option User;
  budgetState : float;
  incomeState : float;
  expenseState : float;
  items : list Item;
  forecastItems : JS.value;
  isLoading : bool;
  message : string;
  formReset : bool;
  calls : list Call
}.

Definition setIsLoading (b : bool) (s : State) : State :=
  {| user := user s; budgetState := budgetState s; incomeState := incomeState s;
     expenseState := expenseState s; items := items s;
     forecastItems := forecastItems s; isLoading := b; message := message s;
     formReset := formReset s; calls := calls s |}.

(** [showMessage(text)]: the message is set (and cleared by a timer later). *)
Definition showMessage (text : string) (s : State) : State :=
  {| user := user s; budgetState := budgetState s; incomeState := incomeState s;
     expenseState := expenseState s; items := items s;
     forecastItems := forecastItems s; isLoading := isLoading s; message := text;
     formReset := formReset s; calls := calls s |}.

Definition setForecastItems (v : JS.value) (s : State) : State :=
  {| user := user s; budgetState := budgetState s; incomeState := incomeState s;
     expenseState := expenseState s; items := items s;
     forecastItems := v; isLoading := isLoading s; message := message s;
     formReset := formReset s; calls := calls s |}.

(** [form.reset()]. *)
Definition resetForm (s : State) : State :=
  {| user := user s; budgetState := budgetState s; incomeState := incomeState s;
     expenseState := expenseState s; items := items s;
     forecastItems := forecastItems s; isLoading := isLoading s; message := message s;
     formReset := true; calls := calls s |}.

Definition logCall (c : Call) (s : State) : State :=
  {| user := user s; budgetState := budgetState s; incomeState := incomeState s;
     expenseState := expenseState s; items := items s;
     forecastItems := forecastItems s; isLoading := isLoading s; message := message s;
     formReset := formReset s; calls := calls s ++ [c] |}.

Section Handlers.
Context {P : Platform}.
Variable cfg : Config.

(** [getUserDataPath(collectionName)]: [user?.uid || 'anonymous']. *)
Definition getUserDataPath (s : State) (collectionName : string) : string :=
  let userId :=
    match user s with
    | Some u => if JS.truthy_str (uid u) then uid u else "anonymous"
    | None => "anonymous"
    end in
  "artifacts/" ++ appId cfg ++ "/users/" ++ userId ++ "/" ++ collectionName.

(** The store's answer to a call: [None] when the promise resolves, the
    error message when it rejects. *)
Variable remote : Call -> option string.

Definition call (c : Call) : Eff.t State unit :=
  fun s =>
    (match remote c with
     | None => Eff.Returned tt
     | Some e => Eff.Thrown e
     end, logCall c s).

(** The guard of [handleAddItem]: [isNaN(amount) || amount <= 0 ||
    !description || !date]; [date] is a [Date] object, never falsy. *)
Definition rejected (f : Form) : bool :=
  let amount := parseFloat (amountField f) in
  JS.isNaN amount
  || PrimFloat.leb amount 0%float
  || negb (JS.truthy_str (descriptionField f))
  || false.

(** The summary written after an insertion. *)
Definition nextSummary (s : State) (type : string) (amount : float) : Summary :=
  {| budget := if String.eqb type "income" then (budgetState s + amount)%float
               else (budgetState s - amount)%float;
     income := if String.eqb type "income" then (incomeState s + amount)%float
               else incomeState s;
     expense := if String.eqb type "expense" then (expenseState s + amount)%float
                else expenseState s |}.

Definition handleAddItem (f : Form) : Eff.t State unit :=
  (let date := Date_parse (dateField f) in
   let amount := parseFloat (amountField f) in
   let type := typeField f in
   let description := descriptionField f in
   if rejected f then
     Eff.modify (showMessage "Please enter a valid amount and description.")
   else
     Eff.modify (setIsLoading true) ;;
     Eff.try_catch_finally
       (s <- Eff.get ;;
        call (AddDoc (getUserDataPath s "items")
                {| date := date; amount := amount; type := type;
                   description := description |}) ;;
        call (SetDoc (getUserDataPath s "budgets") "summary"
                (nextSummary s type amount) true) ;;
        Eff.modify (showMessage "Item added successfully!") ;;
        Eff.modify resetForm)
       (fun _ => Eff.modify (showMessage "Error adding item."))
       (Eff.modify (setIsLoading false)))%eff.

(** *** The forecast *)

(** Reading a property: [v?.key]. Arrays and strings answer to indices
    only, objects to their own keys; none of the keys read here is inherited. *)
Definition getProp (v : JS.value) (key : string) : JS.value :=
  match v with
  | JS.VObj fields =>
      match JS.lookup key fields with Some w => w | None => JS.VUndefined end
  | _ => JS.VUndefined
  end.

(** Reading an index: [v?.[0]]. *)
Definition getFirst (v : JS.value) : JS.value :=
  match v with
  | JS.VArr (x :: _) => x
  | JS.VStr (String c _) => JS.VStr (String c EmptyString)
  | JS.VObj fields =>
      match JS.lookup "0" fields with Some w => w | None => JS.VUndefined end
  | _ => JS.VUndefined
  end.

(** [result?.candidates?.[0]?.content?.parts?.[0]?.text]. *)
Definition responseText (result : JS.value) : JS.value :=
  getProp (getFirst (getProp (getProp (getFirst (getProp result "candidates")) "content") "parts")) "text".

(** The provider's answer to the request: the value [response.json()]
    resolves to, or [None] when [fetch] or [response.json()] rejects. *)
Variable provider : option JS.value.

Definition fetchJson (history : list Item) : Eff.t State JS.value :=
  fun s =>
    (match provider with
     | Some result => Eff.Returned result
     | None => Eff.Thrown "fetch failed"
     end, logCall (Fetch history) s).

Definition handleForecast : Eff.t State unit :=
  (Eff.modify (setIsLoading true) ;;
   Eff.try_catch_finally
     (s <- Eff.get ;;
      result <- fetchJson (items s) ;;
      let text := responseText result in
      if JS.truthy text then
        match JSON_parse text with
        | Some parsed =>
            Eff.modify (setForecastItems parsed) ;;
            Eff.modify (showMessage "Forecast generated successfully!")
        | None => Eff.throw "SyntaxError"
        end
      else Eff.throw "No content returned from API")
     (fun _ => Eff.modify (showMessage "Failed to generate forecast."))
     (Eff.modify (setIsLoading false)))%eff.

End Handlers.

(** *** The session listener (variant 2) *)

Record Session : Type := mkSession {
  sessionUser : option User;
  isAuthReady : bool;
  signIns : list SignIn;
  awaited : nat
}.

Definition initialSession : Session :=
  {| sessionUser := None; isAuthReady := false; signIns := []; awaited := 0 |}.

(** The callback given to [onAuthStateChanged], up to its [await]. *)
Definition onAuthStateChanged (cfg : Config) (currentUser : option User) (s : Session)
    : Session :=
  match currentUser with
  | Some u =>
      {| sessionUser := Some u; isAuthReady := true;
         signIns := signIns s; awaited := awaited s |}
  | None =>
      {| sessionUser := sessionUser s; isAuthReady := isAuthReady s;
         signIns := signIns s ++ [autoSignIn cfg]; awaited := S (awaited s) |}
  end.

(** The rest of the callback: a rejection is only logged to the console. *)
Definition afterSignIn (resolved : bool) (s : Session) : Session :=
  {| sessionUser := sessionUser s; isAuthReady := isAuthReady s;
     signIns := signIns s; awaited := Nat.pred (awaited s) |}.

Definition sessionStep (cfg : Config) (s : Session) (e : AuthEvent) : Session :=
  match e with
  | AuthStateChanged currentUser => onAuthStateChanged cfg currentUser s
  | SignInSettled resolved => afterSignIn resolved s
  end.

Definition runSession (cfg : Config) (events : list AuthEvent) : Session :=
  fold_left (sessionStep cfg) events initialSession.

End V2.

(** ** A platform that computes *)

Module Ref.

(** *** Decimal literals to doubles *)

(** The double nearest to [m * 10 ^ e] for [m >= 0] (ties to even). A
    negative exponent divides: the quotient is taken with at least 64
    significant bits and a sticky last bit, which the final rounding to 53
    bits cannot tell from the exact value. *)
Definition decimalToDouble (m e : Z) : float :=
  if m =? 0 then 0%float
  else if 0 <=? e then SF2Prim (binary_normalize prec emax (m * 10 ^ e) 0 false)
  else
    let den := 10 ^ (- e) in
    let k := Z.log2 den + 65 in
    let q := (m * 2 ^ k) / den in
    let sticky := if (m * 2 ^ k) mod den =? 0 then 0 else 1 in
    SF2Prim (binary_normalize prec emax (2 * q + sticky) (- k - 1) false).

Definition digitValue (c : ascii) : option Z :=
  let n := nat_of_ascii c in
  if (Nat.leb 48 n && Nat.leb n 57)%bool then Some (Z.of_nat n - 48) else None.

(** The longest run of decimal digits at the head of [l]: its value
    continuing from [acc], how many digits, and what follows. *)
Fixpoint takeDigits (acc : Z) (count : Z) (l : list ascii) : Z * Z * list ascii :=
  match l with
  | c :: rest =>
      match digitValue c with
      | Some d => takeDigits (acc * 10 + d) (count + 1) rest
      | None => (acc, count, l)
      end
  | [] => (acc, count, [])
  end.

(** An optional sign: whether it is a minus, and what follows. *)
Definition takeSign (l : list ascii) : bool * list ascii :=
  match l with
  | "-"%char :: rest => (true, rest)
  | "+"%char :: rest => (false, rest)
  | _ => (false, l)
  end.

Fixpoint dropPrefix (p l : list ascii) : option (list ascii) :=
  match p, l with
  | [], _ => Some l
  | a :: p', b :: l' => if Ascii.eqb a b then dropPrefix p' l' else None
  | _ :: _, [] => None
  end.

(** An exponent part [e], [e+] or [e-] followed by digits; when the digits
    are missing there is no exponent part and nothing is consumed. *)
Definition takeExponent (l : list ascii) : Z * list ascii :=
  match l with
  | c :: rest =>
      if (Ascii.eqb c "e" || Ascii.eqb c "E")%bool then
        let '(neg, afterSign) := takeSign rest in
        match takeDigits 0 0 afterSign with
        | (_, 0, _) => (0, l)
        | (x, _, after) => ((if neg then - x else x), after)
        end
      else (0, l)
  | [] => (0, l)
  end.

(** The longest prefix that is a StrDecimalLiteral: its value and what
    follows it. *)
Definition takeDecimal (l : list ascii) : option (float * list ascii) :=
  let '(neg, body) := takeSign l in
  let signed (x : float) := if neg then (- x)%float else x in
  match dropPrefix (list_ascii_of_string "Infinity") body with
  | Some rest => Some (signed infinity, rest)
  | None =>
      let '(m1, n1, afterInt) := takeDigits 0 0 body in
      let '(m2, n2, afterFrac) :=
        match afterInt with
        | "."%char :: frac =>
            let '(m, n, after) := takeDigits m1 0 frac in
            if (n1 =? 0) && (n =? 0) then (m1, 0, afterInt) else (m, n, after)
        | _ => (m1, 0, afterInt)
        end in
      if (n1 =? 0) && (n2 =? 0) then None
      else
        let '(x, rest) := takeExponent afterFrac in
        Some (signed (decimalToDouble m2 (x - n2)), rest)
  end.

(** [parseFloat]. *)
Definition parseFloat (s : string) : float :=
  match takeDecimal (JS.dropSpaces JS.is_space2 JS.is_space3 (list_ascii_of_string s)) with
  | Some (x, _) => x
  | None => nan
  end.

(** Digits in base 2, 8 or 16. *)
Definition radixDigit (radix : Z) (c : ascii) : option Z :=
  let n := Z.of_nat (nat_of_ascii c) in
  let d :=
    if (48 <=? n) && (n <=? 57) then n - 48
    else if (97 <=? n) && (n <=? 102) then n - 87
    else if (65 <=? n) && (n <=? 70) then n - 55
    else radix in
  if d <? radix then Some d else None.

Fixpoint radixValue (radix : Z) (acc : Z) (l : list ascii) : option Z :=
  match l with
  | [] => Some acc
  | c :: rest =>
      match radixDigit radix c with
      | Some d => radixValue radix (acc * radix + d) rest
      | None => None
      end
  end.

(** [Number(s)] on a string: white space is trimmed on both sides, the
    empty string is [0], and the whole of what is left must be a literal. *)
Definition Number_of_string (s : string) : float :=
  let l := list_ascii_of_string (JS.trim s) in
  let radixLiteral (radix : Z) (digits : list ascii) :=
    match digits with
    | [] => nan
    | _ =>
        match radixValue radix 0 digits with
        | Some v => decimalToDouble v 0
        | None => nan
        end
    end in
  match l with
  | [] => 0%float
  | "0"%char :: "x"%char :: digits | "0"%char :: "X"%char :: digits => radixLiteral 16 digits
  | "0"%char :: "o"%char :: digits | "0"%char :: "O"%char :: digits => radixLiteral 8 digits
  | "0"%char :: "b"%char :: digits | "0"%char :: "B"%char :: digits => radixLiteral 2 digits
  | _ =>
      match takeDecimal l with
      | Some (x, []) => x
      | _ => nan
      end
  end.

(** *** Dates *)

(** Local time is five hours behind UTC all year round. *)
Definition LocalTZA (t : Z) (isUTC : bool) : Z := - (5 * 3600000).

(** Exactly [n] decimal digits at the head of [l]. *)
Fixpoint fixedDigits (n : nat) (acc : Z) (l : list ascii) : option (Z * list ascii) :=
  match n with
  | O => Some (acc, l)
  | S n' =>
      match l with
      | c :: rest =>
          match digitValue c with
          | Some d => fixedDigits n' (acc * 10 + d) rest
          | None => None
          end
      | [] => None
      end
  end.

Definition isLeapYear (y : Z) : bool :=
  ((y mod 4 =? 0) && negb (y mod 100 =? 0)) || (y mod 400 =? 0).

Definition daysInMonth (y m : Z) : Z :=
  if m =? 2 then (if isLeapYear y then 29 else 28)
  else if (m =? 4) || (m =? 6) || (m =? 9) || (m =? 11) then 30
  else 31.

(** Days from 1970-01-01 to the given day of the proleptic Gregorian calendar. *)
Definition daysFromCivil (y m d : Z) : Z :=
  let y' := if m <=? 2 then y - 1 else y in
  let era := y' / 400 in
  let yoe := y' - era * 400 in
  let doy := (153 * (if 2 <? m then m - 3 else m + 9) + 2) / 5 + d - 1 in
  let doe := yoe * 365 + yoe / 4 - yoe / 100 + doy in
  era * 146097 + doe - 719468.

(** The date part [YYYY], [YYYY-MM] or [YYYY-MM-DD] (or a signed six-digit
    year): year, month, day and the rest. *)
Definition takeDate (l : list ascii) : option (Z * Z * Z * list ascii) :=
  let year :=
    match l with
    | "+"%char :: rest => fixedDigits 6 0 rest
    | "-"%char :: rest =>
        match fixedDigits 6 0 rest with
        | Some (0, _) => None
        | Some (y, after) => Some (- y, after)
        | None => None
        end
    | _ => fixedDigits 4 0 l
    end in
  match year with
  | None => None
  | Some (y, "-"%char :: afterYear) =>
      match fixedDigits 2 0 afterYear with
      | Some (m, "-"%char :: afterMonth) =>
          match fixedDigits 2 0 afterMonth with
          | Some (d, rest) => Some (y, m, d, rest)
          | None => None
          end
      | Some (m, rest) => Some (y, m, 1, rest)
      | None => None
      end
  | Some (y, rest) => Some (y, 1, 1, rest)
  end.

(** The time part after [T]: [HH:mm], [HH:mm:ss] or [HH:mm:ss.sss], in
    milliseconds, and the rest. *)
Definition takeTime (l : list ascii) : option (Z * list ascii) :=
  match fixedDigits 2 0 l with
  | Some (h, ":"%char :: afterHour) =>
      match fixedDigits 2 0 afterHour with
      | Some (mi, afterMinute) =>
          let '(sec, ms, rest) :=
            match afterMinute with
            | ":"%char :: afterColon =>
                match fixedDigits 2 0 afterColon with
                | Some (sec, "."%char :: afterDot) =>
                    match fixedDigits 3 0 afterDot with
                    | Some (ms, rest) => (sec, ms, rest)
                    | None => (60, 0, [])
                    end
                | Some (sec, rest) => (sec, 0, rest)
                | None => (60, 0, [])
                end
            | _ => (0, 0, afterMinute)
            end in
          if ((h <=? 23) && (mi <=? 59) && (sec <=? 59))
             || ((h =? 24) && (mi =? 0) && (sec =? 0) && (ms =? 0))
          then Some (h * 3600000 + mi * 60000 + sec * 1000 + ms, rest)
          else None
      | None => None
      end
  | _ => None
  end.

(** The offset [Z] or [+HH:mm] / [-HH:mm], in milliseconds; it must end the string. *)
Definition takeOffset (l : list ascii) : option Z :=
  match l with
  | ["Z"%char] => Some 0
  | c :: rest =>
      if (Ascii.eqb c "+" || Ascii.eqb c "-")%bool then
        match fixedDigits 2 0 rest with
        | Some (h, ":"%char :: afterHour) =>
            match fixedDigits 2 0 afterHour with
            | Some (mi, []) =>
                if (h <=? 23) && (mi <=? 59) then
                  Some ((if Ascii.eqb c "-" then -1 else 1) * (h * 3600000 + mi * 60000))
                else None
            | _ => None
            end
        | _ => None
        end
      else None
  | [] => None
  end.

(** [new Date(s).getTime()] for the date-time string format of ECMAScript:
    a date alone is UTC, a date and time without offset is local time.
    Other strings are invalid dates here (engines may accept some). *)
Definition Date_parse (s : string) : option Z :=
  match takeDate (list_ascii_of_string s) with
  | Some (y, m, d, rest) =>
      if (1 <=? m) && (m <=? 12) && (1 <=? d) && (d <=? daysInMonth y m) then
        let day := daysFromCivil y m d * msPerDay in
        let instant :=
          match rest with
          | [] => Some day
          | "T"%char :: timeAndOffset =>
              match takeTime timeAndOffset with
              | Some (time, []) => Some (day + time - LocalTZA (day + time) false)
              | Some (time, offset) =>
                  match takeOffset offset with
                  | Some o => Some (day + time - o)
                  | None => None
                  end
              | None => None
              end
          | _ => None
          end in
        match instant with
        | Some t => if Z.abs t <=? 8640000000000000 then Some t else None
        | None => None
        end
      else None
  | None => None
  end.

(** *** Numbers to strings *)

Definition decimalString (n : Z) : string :=
  NilZero.string_of_uint (N.to_uint (Z.to_N n)).

Fixpoint zeros (n : nat) : string :=
  match n with O => EmptyString | S n' => String "0" (zeros n') end.

(** [floor (m * 2^e / 10^p)] and whether the division is exact, twice the
    remainder compared with the divisor otherwise ([Lt]: nearer to the floor). *)
Definition scaledDigits (m e p : Z) : Z * comparison :=
  let num := m * 2 ^ (Z.max e 0) * 10 ^ (Z.max (- p) 0) in
  let den := 2 ^ (Z.max (- e) 0) * 10 ^ (Z.max p 0) in
  (num / den, Z.compare (2 * (num mod den)) den).

(** A decimal [s * 10^(n' - k)] of [k] digits that reads back as
    [x = m * 2^e], for [10^(n-1) <= x < 10^n]: [s] and [n']. The two
    candidates are the decimals around [x]; of two that read back, the nearer
    to [x], the even one on a tie. The upper one may be [10^k]: [k] digits
    one place higher. *)
Definition digitsOfLength (x : float) (m e n k : Z) : option (Z * Z) :=
  let '(lo, side) := scaledDigits m e (n - k) in
  let hi := lo + 1 in
  let readsBack (s : Z) := PrimFloat.eqb (decimalToDouble s (n - k)) x in
  let lower := (lo, n) in
  let upper := if hi =? 10 ^ k then (10 ^ (k - 1), n + 1) else (hi, n) in
  match (10 ^ (k - 1) <=? lo) && readsBack lo, readsBack hi with
  | true, true =>
      match side with
      | Lt => Some lower
      | Gt => Some upper
      | Eq => if Z.even (fst lower) then Some lower else Some upper
      end
  | true, false => Some lower
  | false, true => Some upper
  | false, false => None
  end.

(** The shortest such decimal: its digits, their number and [n']. *)
Fixpoint shortestDigits (fuel : nat) (x : float) (m e n k : Z) : option (Z * Z * Z) :=
  match fuel with
  | O => None
  | S fuel' =>
      match digitsOfLength x m e n k with
      | Some (s, n') => Some (s, k, n')
      | None => shortestDigits fuel' x m e n (k + 1)
      end
  end.

(** The least [n] with [m * 2^e < 10^n], searched upwards from [n]. *)
Fixpoint magnitude (fuel : nat) (m e n : Z) : Z :=
  match fuel with
  | O => n
  | S fuel' =>
      if m * 2 ^ (Z.max e 0) * 10 ^ (Z.max (- n) 0) <? 2 ^ (Z.max (- e) 0) * 10 ^ (Z.max n 0)
      then n else magnitude fuel' m e (n + 1)
  end.

(** Number::toString of a positive finite [m * 2^e]. *)
Definition positiveToString (x : float) (m e : Z) : string :=
  let n0 := magnitude 4 m e (((Z.log2 m + e) * 30103) / 100000 - 1) in
  match shortestDigits 17 x m e n0 1 with
  | None => "NaN"
  | Some (s, k, n) =>
      let digits := decimalString s in
      if (k <=? n) && (n <=? 21) then digits ++ zeros (Z.to_nat (n - k))
      else if (0 <? n) && (n <=? 21) then
        substring 0 (Z.to_nat n) digits ++ "." ++ substring (Z.to_nat n) (Z.to_nat (k - n)) digits
      else if (-6 <? n) && (n <=? 0) then "0." ++ zeros (Z.to_nat (- n)) ++ digits
      else
        let exponent := (if 0 <? n - 1 then "+" else "-") ++ decimalString (Z.abs (n - 1)) in
        if k =? 1 then digits ++ "e" ++ exponent
        else substring 0 1 digits ++ "." ++ substring 1 (Z.to_nat (k - 1)) digits
               ++ "e" ++ exponent
  end.

(** Number::toString. *)
Definition numberToString (x : float) : string :=
  match Prim2SF x with
  | S754_nan => "NaN"
  | S754_zero _ => "0"
  | S754_infinity negative => if negative then "-Infinity" else "Infinity"
  | S754_finite negative m e =>
      (if negative then "-" else EmptyString) ++ positiveToString (abs x) (Zpos m) e
  end.

(** ToString; an array joins its elements with commas, [null] and
    [undefined] elements being empty. *)
Fixpoint toString (v : JS.value) : string :=
  match v with
  | JS.VUndefined => "undefined"
  | JS.VNull => "null"
  | JS.VBool b => if b then "true" else "false"
  | JS.VNum x => numberToString x
  | JS.VStr s => s
  | JS.VObj _ => "[object Object]"
  | JS.VArr items =>
      let element (w : JS.value) :=
        match w with
        | JS.VUndefined | JS.VNull => EmptyString
        | _ => toString w
        end in
      (fix join (l : list JS.value) : string :=
         match l with
         | [] => EmptyString
         | [w] => element w
         | w :: rest => element w ++ "," ++ join rest
         end) items
  end.

(** *** JSON *)

(** JSON white space: space, tab, line feed, carriage return. *)
Fixpoint skipWs (l : list ascii) : list ascii :=
  match l with
  | c :: rest =>
      let n := nat_of_ascii c in
      if (Nat.eqb n 32 || Nat.eqb n 9 || Nat.eqb n 10 || Nat.eqb n 13)%bool
      then skipWs rest else l
  | [] => []
  end.

(** The UTF-8 encoding of a code unit below [0x10000]. *)
Definition utf8 (u : Z) : list ascii :=
  let byte (n : Z) := ascii_of_nat (Z.to_nat n) in
  if u <? 128 then [byte u]
  else if u <? 2048 then [byte (192 + u / 64); byte (128 + u mod 64)]
  else [byte (224 + u / 4096); byte (128 + (u / 64) mod 64); byte (128 + u mod 64)].

Fixpoint fixedHex (n : nat) (acc : Z) (l : list ascii) : option (Z * list ascii) :=
  match n with
  | O => Some (acc, l)
  | S n' =>
      match l with
      | c :: rest =>
          match radixDigit 16 c with
          | Some d => fixedHex n' (acc * 16 + d) rest
          | None => None
          end
      | [] => None
      end
  end.

(** The characters of a string literal after its opening quote, up to the
    closing one (character 34); a backslash (character 92) starts an escape. *)
Fixpoint takeString (fuel : nat) (l : list ascii) : option (list ascii * list ascii) :=
  match fuel with
  | O => None
  | S fuel' =>
      let continue (chars : list ascii) (after : list ascii) :=
        match takeString fuel' after with
        | Some (s, rest') => Some ((chars ++ s)%list, rest')
        | None => None
        end in
      match l with
      | [] => None
      | c :: rest =>
          if Nat.eqb (nat_of_ascii c) 34 then Some ([], rest)
          else if Nat.eqb (nat_of_ascii c) 92 then
            match rest with
            | e :: after =>
                let n := nat_of_ascii e in
                if (Nat.eqb n 34 || Nat.eqb n 92 || Nat.eqb n 47)%bool then continue [e] after
                else if Nat.eqb n 98 then continue [ascii_of_nat 8] after
                else if Nat.eqb n 102 then continue [ascii_of_nat 12] after
                else if Nat.eqb n 110 then continue [ascii_of_nat 10] after
                else if Nat.eqb n 114 then continue [ascii_of_nat 13] after
                else if Nat.eqb n 116 then continue [ascii_of_nat 9] after
                else if Nat.eqb n 117 then
                  match fixedHex 4 0 after with
                  | Some (u, after') => continue (utf8 u) after'
                  | None => None
                  end
                else None
            | [] => None
            end
          else if Nat.ltb (nat_of_ascii c) 32 then None
          else continue [c] rest
      end
  end.

(** A JSON number: [-]? int frac? exp?, with no leading zero in [int]. *)
Definition takeNumber (l : list ascii) : option (float * list ascii) :=
  let '(neg, body) :=
    match l with
    | "-"%char :: rest => (true, rest)
    | _ => (false, l)
    end in
  let '(m1, n1, afterInt) := takeDigits 0 0 body in
  let leadingZero :=
    match body with
    | "0"%char :: _ => 1 <? n1
    | _ => false
    end in
  if (n1 =? 0) || leadingZero then None
  else
    let frac :=
      match afterInt with
      | "."%char :: digits =>
          match takeDigits m1 0 digits with
          | (_, 0, _) => None
          | (m, n, after) => Some (m, n, after)
          end
      | _ => Some (m1, 0, afterInt)
      end in
    match frac with
    | None => None
    | Some (m2, n2, afterFrac) =>
        let '(x, rest) := takeExponent afterFrac in
        let v := decimalToDouble m2 (x - n2) in
        Some ((if neg then (- v)%float else v), rest)
    end.

(** A JSON value at the head of [l] (after white space), and the rest.
    [elements] reads what follows [[] or a comma in an array, [members] what
    follows [{] or a comma in an object. *)
Fixpoint takeValue (fuel : nat) (l : list ascii) : option (JS.value * list ascii) :=
  match fuel with
  | O => None
  | S fuel' =>
      let elements :=
        fix elements (n : nat) (l : list ascii) : option (list JS.value * list ascii) :=
          match n with
          | O => None
          | S n' =>
              match takeValue fuel' l with
              | Some (v, rest) =>
                  match skipWs rest with
                  | ","%char :: more =>
                      match elements n' more with
                      | Some (vs, rest') => Some (v :: vs, rest')
                      | None => None
                      end
                  | "]"%char :: rest' => Some ([v], rest')
                  | _ => None
                  end
              | None => None
              end
          end in
      let members :=
        fix members (n : nat) (l : list ascii) : option (list (string * JS.value) * list ascii) :=
          match n with
          | O => None
          | S n' =>
              match skipWs l with
              | quote :: afterQuote =>
                  match (if Nat.eqb (nat_of_ascii quote) 34
                         then takeString fuel' afterQuote else None) with
                  | Some (key, afterKey) =>
                      match skipWs afterKey with
                      | ":"%char :: afterColon =>
                          match takeValue fuel' afterColon with
                          | Some (v, rest) =>
                              let field := (string_of_list_ascii key, v) in
                              match skipWs rest with
                              | ","%char :: more =>
                                  match members n' more with
                                  | Some (fs, rest') => Some (field :: fs, rest')
                                  | None => None
                                  end
                              | "}"%char :: rest' => Some ([field], rest')
                              | _ => None
                              end
                          | None => None
                          end
                      | _ => None
                      end
                  | None => None
                  end
              | _ => None
              end
          end in
      match skipWs l with
      | "{"%char :: rest =>
          match skipWs rest with
          | "}"%char :: rest' => Some (JS.VObj [], rest')
          | _ =>
              match members fuel' rest with
              | Some (fs, rest') => Some (JS.VObj fs, rest')
              | None => None
              end
          end
      | "["%char :: rest =>
          match skipWs rest with
          | "]"%char :: rest' => Some (JS.VArr [], rest')
          | _ =>
              match elements fuel' rest with
              | Some (vs, rest') => Some (JS.VArr vs, rest')
              | None => None
              end
          end
      | body =>
          match dropPrefix (list_ascii_of_string "true") body,
                dropPrefix (list_ascii_of_string "false") body,
                dropPrefix (list_ascii_of_string "null") body with
          | Some rest, _, _ => Some (JS.VBool true, rest)
          | _, Some rest, _ => Some (JS.VBool false, rest)
          | _, _, Some rest => Some (JS.VNull, rest)
          | _, _, _ =>
              match body with
              | c :: rest =>
                  if Nat.eqb (nat_of_ascii c) 34 then
                    match takeString fuel' rest with
                    | Some (chars, rest') =>
                        Some (JS.VStr (string_of_list_ascii chars), rest')
                    | None => None
                    end
                  else
                    match takeNumber body with
                    | Some (x, rest') => Some (JS.VNum x, rest')
                    | None => None
                    end
              | [] => None
              end
          end
      end
  end.

(** [JSON.parse(text)]: the argument is converted to a string, which must
    be one JSON value between optional white space; [None] is a SyntaxError. *)
Definition JSON_parse (text : JS.value) : option JS.value :=
  let l := list_ascii_of_string (toString text) in
  match takeValue (S (List.length l)) l with
  | Some (v, rest) =>
      match skipWs rest with
      | [] => Some v
      | _ => None
      end
  | None => None
  end.

(** The reference platform. *)
#[export] Instance platform : Platform := {
  Number_of_string := Number_of_string;
  parseFloat := parseFloat;
  Date_parse := Date_parse;
  JSON_parse := JSON_parse;
  LocalTZA := LocalTZA
}.

End Ref.

(** ** The contract in the specification's words *)

Module Spec.

Import V1.

Definition isIncome (t : Transaction) : bool := String.eqb (type t) "income".
Definition isExpense (t : Transaction) : bool := String.eqb (type t) "expense".

(** Sums of income and of expense over the entries of [l], and their
    difference. *)
Definition cashFlowOver (l : list Transaction) : CashFlow :=
  {| income := sumAmounts (filter isIncome l);
     expenses := sumAmounts (filter isExpense l);
     net := (sumAmounts (filter isIncome l) - sumAmounts (filter isExpense l))%float |}.

(** An entry with [status = actual] whose date is at or after [now - 30d]. *)
Definition inTrailingWindow (now : Z) (t : Transaction) : bool :=
  String.eqb (status t) "actual"
  && match convertible (date t) with
     | Some d => now - 30 * msPerDay <=? d
     | None => false
     end.

(** actualCashFlow(window = 30d trailing). *)
Definition actualCashFlow (now : Z) (l : list Transaction) : CashFlow :=
  cashFlowOver (filter (inTrailingWindow now) l).

(** An entry with [status = forecasted] whose date falls within
    [[windowStart, windowEnd]], both ends included. *)
Definition inForwardWindow (windowStart windowEnd : Z) (t : Transaction) : bool :=
  String.eqb (status t) "forecasted"
  && match convertible (date t) with
     | Some d => (windowStart <=? d) && (d <=? windowEnd)
     | None => false
     end.

(** forecastCashFlow(window = 30d forward). *)
Definition forecastCashFlow (windowStart windowEnd : Z) (l : list Transaction) : CashFlow :=
  cashFlowOver (filter (inForwardWindow windowStart windowEnd) l).

(** The entries that are not of a given status. *)
Definition without (st : string) (l : list Transaction) : list Transaction :=
  filter (fun t => negb (String.eqb (status t) st)) l.

(** [t] is the first instant of a local day: local midnight. *)
Definition isLocalDayStart {P : Platform} (t : Z) : Prop :=
  exists day : Z, t = UTC (day * msPerDay).

(** [t] is the last millisecond of a local day. *)
Definition isLocalDayEnd {P : Platform} (t : Z) : Prop :=
  exists day : Z, t = UTC (day * msPerDay + (msPerDay - 1)).

(** Local time is never more than a day away from UTC. *)
Definition boundedOffset (P : Platform) : Prop :=
  forall t isUTC, - msPerDay <= LocalTZA t isUTC <= msPerDay.

(** No absence of identity is notified while a sign-in is awaited. *)
Fixpoint quietFrom (cfg : Config) (s : V1.Session) (events : list AuthEvent) : bool :=
  match events with
  | [] => true
  | e :: rest =>
      match e with
      | AuthStateChanged None => Nat.eqb (V1.awaited s) 0
      | _ => true
      end && quietFrom cfg (V1.sessionStep cfg s e) rest
  end.

Definition quiet (cfg : Config) (events : list AuthEvent) : bool :=
  quietFrom cfg V1.initialSession events.

(** Variant 1, when no absence is notified while a sign-in is awaited:
    either nothing was requested yet, or one sign-in is awaited, or the flag
    is cleared and at most one was requested. *)
Definition v1_inv (s : V1.Session) : Prop :=
  (V1.isInitialAuthAttempt s = true /\ V1.awaited s = 0%nat /\ V1.signIns s = [])
  \/ (V1.isInitialAuthAttempt s = true /\ V1.awaited s = 1%nat
      /\ List.length (V1.signIns s) = 1%nat)
  \/ (V1.isInitialAuthAttempt s = false /\ (List.length (V1.signIns s) <= 1)%nat).

(** How many times the absence of an identity is notified. *)
Definition absences (events : list AuthEvent) : nat :=
  List.length (filter (fun e => match e with AuthStateChanged None => true | _ => false end)
            events).

End Spec.

(** ** Scenarios *)

Module Scenario.

(** The states the examples start from: a signed-in user, empty forms. *)
Definition v1_ready (a c ty st d : string) : V1.Add.State :=
  V1.Add.mkState true (Some "u1") a c ty st d false None false EmptyString [].

Definition v2_ready : V2.State :=
  V2.mkState (Some (mkUser "u1" None)) 0%float 0%float 0%float [] (JS.VArr [])
    false EmptyString false [].

Definition accepting {C : Type} (c : C) : option string := None.

End Scenario.

(** ** Variant 1: registration, log-in and log-out *)

Module V1Auth.

(** Calls to the identity provider. *)
Inductive AuthCall : Type :=
| CreateUserWithEmailAndPassword (email password : string)
| SignInWithEmailAndPassword (email password : string)
| SignOut.

(** The state the three handlers read and write ([auth] is whether the
    authentication handle is set), and the calls made, oldest first. *)
Record State : Type := mkState {
  auth : bool;
  email : string;
  password : string;
  loading : bool;
  error : option string;
  authError : option string;
  authMode : string;
  transactions : list V1.Transaction;
  calls : list AuthCall
}.

Definition setLoading (b : bool) (s : State) : State :=
  {| auth := auth s; email := email s; password := password s; loading := b;
     error := error s; authError := authError s; authMode := authMode s;
     transactions := transactions s; calls := calls s |}.

Definition setError (e : option string) (s : State) : State :=
  {| auth := auth s; email := email s; password := password s; loading := loading s;
     error := e; authError := authError s; authMode := authMode s;
     transactions := transactions s; calls := calls s |}.

Definition setAuthError (e : option string) (s : State) : State :=
  {| auth := auth s; email := email s; password := password s; loading := loading s;
     error := error s; authError := e; authMode := authMode s;
     transactions := transactions s; calls := calls s |}.

Definition setEmail (v : string) (s : State) : State :=
  {| auth := auth s; email := v; password := password s; loading := loading s;
     error := error s; authError := authError s; authMode := authMode s;
     transactions := transactions s; calls := calls s |}.

Definition setPassword (v : string) (s : State) : State :=
  {| auth := auth s; email := email s; password := v; loading := loading s;
     error := error s; authError := authError s; authMode := authMode s;
     transactions := transactions s; calls := calls s |}.



Definition logCall (c : AuthCall) (s : State) : State :=
  {| auth := auth s; email := email s; password := password s; loading := loading s;
     error := error s; authError := authError s; authMode := authMode s;
     transactions := transactions s; calls := calls s ++ [c] |}.

Section Handlers.

(** The provider's answer to a call: [None] when the promise resolves, the
    message of the error when it rejects. *)
Variable remote : AuthCall -> option string.

Definition call (c : AuthCall) : Eff.t State unit :=
  fun s =>
    (match remote c with
     | None => Eff.Returned tt
     | Some e => Eff.Thrown e
     end, logCall c s).

(** The guard [!auth || !email || !password] of both handlers. *)
Definition incomplete (s : State) : bool :=
  negb (auth s) || negb (JS.truthy_str (email s)) || negb (JS.truthy_str (password s)).

(** What [handleRegister] and [handleLogin] share: they differ by the call. *)
Definition submitCredentials (request : string -> string -> AuthCall) : Eff.t State unit :=
  (s <- Eff.get ;;
   if incomplete s then
     Eff.modify (setAuthError (Some "Please enter email and password."))
   else
     Eff.modify (setLoading true) ;;
     Eff.modify (setAuthError None) ;;
     Eff.try_catch_finally
       (call (request (email s) (password s)) ;;
        Eff.modify (setEmail EmptyString) ;;
        Eff.modify (setPassword EmptyString))
       (fun message => Eff.modify (setAuthError (Some message)))
       (Eff.modify (setLoading false)))%eff.

Definition handleRegister : Eff.t State unit :=
  submitCredentials CreateUserWithEmailAndPassword.

Definition handleLogin : Eff.t State unit :=
  submitCredentials SignInWithEmailAndPassword.


End Handlers.

End V1Auth.

(** ** Variant 1: the confirmation modal and deletion *)

Module V1Delete.

(** Calls to the document store. *)
Inductive StoreCall : Type :=
| DeleteDoc (path : string) (docId : string).

(** The action a modal holds: the closure [handleDeleteTransaction] builds,
    with the [db] and [userId] of the render it was built in. *)
Inductive Action : Type :=
| DeleteAction (db : bool) (userId : option string) (docId : string).

Record State : Type := mkState {
  db : bool;
  userId : option string;
  transactions : list V1.Transaction;
  loading : bool;
  error : option string;
  showModal : bool;
  modalMessage : string;
  modalAction : option Action;
  calls : list StoreCall
}.

Definition setLoading (b : bool) (s : State) : State :=
  {| db := db s; userId := userId s; transactions := transactions s; loading := b;
     error := error s; showModal := showModal s; modalMessage := modalMessage s;
     modalAction := modalAction s; calls := calls s |}.

Definition setError (e : option string) (s : State) : State :=
  {| db := db s; userId := userId s; transactions := transactions s;
     loading := loading s; error := e; showModal := showModal s;
     modalMessage := modalMessage s; modalAction := modalAction s; calls := calls s |}.

(** [showCustomModal(message, action)]. *)
Definition showCustomModal (message : string) (action : option Action) (s : State) : State :=
  {| db := db s; userId := userId s; transactions := transactions s;
     loading := loading s; error := error s; showModal := true;
     modalMessage := message; modalAction := action; calls := calls s |}.

(** [hideCustomModal()]: also what the Cancel button does. *)
Definition hideCustomModal (s : State) : State :=
  {| db := db s; userId := userId s; transactions := transactions s;
     loading := loading s; error := error s; showModal := false;
     modalMessage := EmptyString; modalAction := None; calls := calls s |}.

Definition logCall (c : StoreCall) (s : State) : State :=
  {| db := db s; userId := userId s; transactions := transactions s;
     loading := loading s; error := error s; showModal := showModal s;
     modalMessage := modalMessage s; modalAction := modalAction s;
     calls := calls s ++ [c] |}.

Section Handlers.
Variable remote : StoreCall -> option string.
Variable cfg : Config.

Definition deleteDoc (path docId : string) : Eff.t State unit :=
  fun s =>
    let c := DeleteDoc path docId in
    (match remote c with
     | None => Eff.Returned tt
     | Some e => Eff.Thrown e
     end, logCall c s).

(** [db && userId], as the closure tests it. *)
Definition ready (db : bool) (userId : option string) : bool :=
  db && match userId with Some u => JS.truthy_str u | None => false end.

(** [handleDeleteTransaction(id)]: only opens the modal. *)
Definition handleDeleteTransaction (docId : string) : Eff.t State unit :=
  (s <- Eff.get ;;
   Eff.modify
     (showCustomModal "Are you sure you want to delete this transaction?"
        (Some (DeleteAction (db s) (userId s) docId))))%eff.

(** The path of the user's collection. *)
Definition transactionsPath (userId : option string) : string :=
  "/artifacts/" ++ appId cfg ++ "/users/"
    ++ match userId with Some u => u | None => "null" end ++ "/transactions".

(** The body of the closure. *)
Definition runAction (a : Action) : Eff.t State unit :=
  match a with
  | DeleteAction db userId docId =>
      if negb (ready db userId) then
        Eff.modify (setError (Some "Database or user not ready for deletion."))
      else
        (Eff.modify (setLoading true) ;;
         Eff.modify (setError None) ;;
         Eff.try_catch_finally
           (deleteDoc (transactionsPath userId) docId)
           (fun _ =>
              Eff.modify (setError (Some "Failed to delete transaction. Please try again.")))
           (Eff.modify (setLoading false)))%eff
  end.

(** [handleModalConfirm()]: the action, if any, then the modal is hidden. *)
Definition handleModalConfirm : Eff.t State unit :=
  (s <- Eff.get ;;
   match modalAction s with
   | Some a => runAction a
   | None => Eff.ret tt
   end ;;
   Eff.modify hideCustomModal)%eff.

End Handlers.

End V1Delete.

(** ** Variant 1: what is rendered, and the subscription *)

Module V1View.

Inductive Screen : Type :=
| LoadingScreen
| AuthForm
| MainScreen.

Definition hasUser (s : V1.Session) : bool :=
  match V1.userId s with Some u => JS.truthy_str u | None => false end.

(** The two early returns of the component, then the main view. [V1.loading]
    is the component's one [loading] state: the listener writes it, and so
    do the handlers (the events below). *)
Definition screen (s : V1.Session) : Screen :=
  if V1.loading s && negb (V1.isAuthReady s) && negb (hasUser s) then LoadingScreen
  else if negb (hasUser s) || negb (V1.isAuthReady s) then AuthForm
  else MainScreen.

(** What the transactions effect does when it runs. *)
Inductive EffectAction : Type :=
| Subscribe (path : string)
| ClearTransactions
| NoAction.

(** The effect on [[isAuthReady, db, userId, appId, loading]]. *)
Definition transactionsEffect (cfg : Config) (db : bool) (s : V1.Session) : EffectAction :=
  if V1.isAuthReady s && db && hasUser s then
    Subscribe ("/artifacts/" ++ appId cfg ++ "/users/"
                 ++ match V1.userId s with Some u => u | None => "null" end
                 ++ "/transactions")
  else if negb (V1.isAuthReady s) && negb (hasUser s) && negb (V1.loading s) then
    ClearTransactions
  else NoAction.

(** *** Every writer of [loading] and [authError] *)

Definition setLoading (b : bool) (s : V1.Session) : V1.Session :=
  {| V1.userId := V1.userId s; V1.userEmail := V1.userEmail s;
     V1.isAuthReady := V1.isAuthReady s; V1.loading := b;
     V1.authError := V1.authError s;
     V1.isInitialAuthAttempt := V1.isInitialAuthAttempt s;
     V1.signIns := V1.signIns s; V1.awaited := V1.awaited s |}.

Definition setAuthError (e : option string) (s : V1.Session) : V1.Session :=
  {| V1.userId := V1.userId s; V1.userEmail := V1.userEmail s;
     V1.isAuthReady := V1.isAuthReady s; V1.loading := V1.loading s;
     V1.authError := e;
     V1.isInitialAuthAttempt := V1.isInitialAuthAttempt s;
     V1.signIns := V1.signIns s; V1.awaited := V1.awaited s |}.

(** What happens to the session state. Besides the listener,
    [handleRegister] and [handleLogin] write [loading] and [authError], and
    [handleLogout], [handleAddTransaction] and the deletion write [loading].
    An asynchronous handler is two events: what it does up to its [await]
    (the component is rendered while the call is awaited), and what it does
    when the call settles. *)
Inductive Event : Type :=
| Listener (e : AuthEvent)
| CredentialsRefused                              (* the guard of handleRegister / handleLogin *)
| CredentialsSubmitted                            (* setLoading(true); setAuthError(null) *)
| CredentialsSettled (rejection : option string)  (* catch: setAuthError(err.message); finally *)
| ActionStarted                                   (* the three others: setLoading(true) *)
| ActionSettled.                                  (* their finally: setLoading(false) *)

Definition step (cfg : Config) (s : V1.Session) (e : Event) : V1.Session :=
  match e with
  | Listener a => V1.sessionStep cfg s a
  | CredentialsRefused => setAuthError (Some "Please enter email and password.") s
  | CredentialsSubmitted => setAuthError None (setLoading true s)
  | CredentialsSettled rejection =>
      setLoading false
        match rejection with
        | Some message => setAuthError (Some message) s
        | None => s
        end
  | ActionStarted => setLoading true s
  | ActionSettled => setLoading false s
  end.

(** The session after a sequence of events, from the state at mount. *)
Definition run (cfg : Config) (events : list Event) : V1.Session :=
  fold_left (step cfg) events V1.initialSession.



End V1View.

(** ** Variant 2: the items listener, the filter and the summary listener *)

Module V2Items.

(** An item as a snapshot delivers it: [{ id: d.id, ...d.data() }], for
    documents that carry no field named [id]. *)
Record StoredItem : Type := mkStoredItem {
  id : string;
  date : DateField;
  amount : option float;
  type : string;
  description : string
}.

(** [x.date?.toDate() || 0], as the number the subtraction reads: a missing
    date counts as 0; a date without [toDate] makes the call throw a
    TypeError ([None]). *)
Definition sortKey (x : StoredItem) : option Z :=
  match date x with
  | DateMissing => Some 0
  | DateTimestamp ts => Some (Timestamp_toDate ts)
  | DateText _ => None
  end.

Definition keyOf (x : StoredItem) : Z :=
  match sortKey x with Some k => k | None => 0 end.

(** Places [x] before the first element the comparator does not put before
    it, that is, one whose key is not greater. *)
Fixpoint insertByDate (x : StoredItem) (l : list StoredItem) : list StoredItem :=
  match l with
  | [] => [x]
  | y :: rest => if keyOf y <=? keyOf x then x :: l else y :: insertByDate x rest
  end.

(** [Array.prototype.sort] with the comparator
    [(a, b) => key(b) - key(a)]: the stable sort by decreasing key. *)
Definition sortByDate (l : list StoredItem) : list StoredItem :=
  fold_right insertByDate [] l.

(** [itemsList.sort(...)]: with two elements or more every element is
    compared, so a date without [toDate] throws. *)
Definition sortItems (l : list StoredItem) : option (list StoredItem) :=
  if (2 <=? Z.of_nat (List.length l))
     && existsb (fun x => match sortKey x with None => true | Some _ => false end) l
  then None
  else Some (sortByDate l).

(** The items listener: the state [items] after a snapshot; a callback
    that throws sets nothing. *)
Definition onItemsSnapshot (docs : list StoredItem) (items : list StoredItem)
    : list StoredItem :=
  match sortItems docs with
  | Some sorted => sorted
  | None => items
  end.

(** The filter effect: the state [filteredItems] for [items] and [filterType]. *)
Definition filteredItems (filterType : string) (items : list StoredItem)
    : list StoredItem :=
  if String.eqb filterType "all" then items
  else filter (fun item => String.eqb (type item) filterType) items.

(** Sorted by decreasing key. *)
Definition sortedByDate (l : list StoredItem) : Prop :=
  StronglySorted (fun a b => keyOf b <= keyOf a) l.

(** The items of [l] with key [k], in their order. *)
Definition withKey (k : Z) (l : list StoredItem) : list StoredItem :=
  filter (fun x => keyOf x =? k) l.

End V2Items.

Module V2Summary.

(** The summary document as a snapshot delivers it; a field the document
    lacks is [None]. *)
Record SummaryDoc : Type := mkSummaryDoc {
  budget : option float;
  income : option float;
  expense : option float
}.

(** [data.field || 0]. *)
Definition orZero (x : option float) : float :=
  match x with
  | Some v => if JS.truthy_num v then v else 0%float
  | None => 0%float
  end.

Definition setSummary (b i e : float) (s : V2.State) : V2.State :=
  {| V2.user := V2.user s; V2.budgetState := b; V2.incomeState := i;
     V2.expenseState := e; V2.items := V2.items s;
     V2.forecastItems := V2.forecastItems s; V2.isLoading := V2.isLoading s;
     V2.message := V2.message s; V2.formReset := V2.formReset s;
     V2.calls := V2.calls s |}.

(** The summary listener: an existing document sets the three totals; a
    missing one is created with zeros (the write is not awaited). *)
Definition onSummarySnapshot (cfg : Config) (doc : option SummaryDoc) (s : V2.State)
    : V2.State :=
  match doc with
  | Some data =>
      setSummary (orZero (budget data)) (orZero (income data)) (orZero (expense data)) s
  | None =>
      V2.logCall
        (V2.SetDoc (V2.getUserDataPath cfg s "budgets") "summary"
           (V2.mkSummary 0%float 0%float 0%float) false) s
  end.

(** The document a merge write of the three fields leaves. *)
Definition written (w : V2.Summary) : SummaryDoc :=
  {| budget := Some (V2.budget w); income := Some (V2.income w);
     expense := Some (V2.expense w) |}.

End V2Summary.

(** ** Calendar days *)

Module Calendar.

Section Days.
Context {P : Platform}.

(** The local day an instant falls in, counted from 1970-01-01. *)
Definition localDay (t : Z) : Z := LocalTime t / msPerDay.

(** Noon of a local day: what [new Date(day + 'T12:00:00')] denotes. *)
Definition localNoon (day : Z) : Z := UTC (day * msPerDay + 12 * 3600000).

End Days.

(** The offset of local time varies by less than twelve hours. *)
Definition steadyOffset (P : Platform) : Prop :=
  forall a b, LocalTZA a false - LocalTZA b false < 12 * 3600000.

End Calendar.

(** The five fields of the form of variant 1. *)
Module V1Form.


End V1Form.

(** ** Variant 2: the two calls of a creation *)

Module V2Calls.

Section Calls.
Context {P : Platform}.
Variable cfg : Config.

(** The document [handleAddItem] builds from the form. *)
Definition itemOf (f : V2.Form) : V2.Item :=
  {| V2.date := Date_parse (V2.dateField f);
     V2.amount := parseFloat (V2.amountField f);
     V2.type := V2.typeField f;
     V2.description := V2.descriptionField f |}.

(** Its insertion, and the summary write that follows it, from the state
    [s] the handler runs in. *)
Definition insertOf (s : V2.State) (f : V2.Form) : V2.Call :=
  V2.AddDoc (V2.getUserDataPath cfg s "items") (itemOf f).

Definition writeOf (s : V2.State) (f : V2.Form) : V2.Call :=
  V2.SetDoc (V2.getUserDataPath cfg s "budgets") "summary"
    (V2.nextSummary s (V2.typeField f) (parseFloat (V2.amountField f))) true.

End Calls.

(** The three totals held in the component's state. *)
Definition totals (s : V2.State) : float * float * float :=
  (V2.budgetState s, V2.incomeState s, V2.expenseState s).

End V2Calls.

(** ** Variant 1: displaying a date *)

Module V1Display.

(** What [formatDate] may be given. *)
Inductive DateValue : Type :=
| Timestamped (ts : Timestamp)   (* a Firestore Timestamp: it has toDate *)
| DateObject (ms : option Z)     (* a Date; None when it is invalid *)
| Text (s : string)
| Other.                         (* undefined, null, a number, ... *)

(** The [date] field of a transaction, as [formatDate(t.date)] receives it. *)
Definition ofField (d : DateField) : DateValue :=
  match d with
  | DateMissing => Other
  | DateTimestamp ts => Timestamped ts
  | DateText s => Text s
  end.

Definition isDigit (c : ascii) : bool :=
  (Nat.leb 48 (nat_of_ascii c) && Nat.leb (nat_of_ascii c) 57)%bool.

Definition digit (c : ascii) : Z := Z.of_nat (nat_of_ascii c) - 48.

(** [dateValue.match(/^\d{4}-\d{2}-\d{2}$/)] followed by
    [dateValue.split('-').map(Number)]: year, month and day when the text has
    the shape. *)
Definition yearMonthDay (s : string) : option (Z * Z * Z) :=
  match list_ascii_of_string s with
  | [y1; y2; y3; y4; h1; m1; m2; h2; d1; d2] =>
      if (isDigit y1 && isDigit y2 && isDigit y3 && isDigit y4 && Ascii.eqb h1 "-"
          && isDigit m1 && isDigit m2 && Ascii.eqb h2 "-" && isDigit d1 && isDigit d2)%bool
      then Some (1000 * digit y1 + 100 * digit y2 + 10 * digit y3 + digit y4,
                 10 * digit m1 + digit m2,
                 10 * digit d1 + digit d2)
      else None
  | _ => None
  end.

Section Format.
Context {P : Platform}.

(** [new Date(year, month, day).getTime()]: a year below 100 is a year of
    the 1900s; months beyond the year and days beyond the month carry over
    (ECMAScript's MakeDay); the result is local midnight. *)
Definition newDate (year month day : Z) : Z :=
  let yr := if (0 <=? year) && (year <=? 99) then 1900 + year else year in
  let ym := yr + month / 12 in
  let mn := month mod 12 in
  UTC ((Ref.daysFromCivil ym (mn + 1) 1 + day - 1) * msPerDay).

(** [date.toLocaleDateString()], for an instant or an invalid date. *)
Variable toLocaleDateString : option Z -> string.

Definition formatDate (dateValue : DateValue) : string :=
  match dateValue with
  | Timestamped ts => toLocaleDateString (Some (Timestamp_toDate ts))
  | DateObject ms => toLocaleDateString ms
  | Text s =>
      match yearMonthDay s with
      | Some (year, month, day) => toLocaleDateString (Some (newDate year (month - 1) day))
      | None => "N/A"
      end
  | Other => "N/A"
  end.

End Format.

End V1Display.

(** ** What a stored date denotes *)

Module Stored.

(** The instant of a timestamp, in milliseconds since the epoch: its
    seconds, and the whole milliseconds of its nanoseconds. *)
Definition instant (ts : Timestamp) : Z :=
  seconds ts * 1000 + nanoseconds ts / 1000000.

(** The [date] field of [t] is a timestamp (of 1970 or later) of instant
    [d]. *)
Definition dated (t : V1.Transaction) (d : Z) : Prop :=
  exists ts,
    V1.date t = DateTimestamp ts
    /\ 0 <= seconds ts
    /\ 0 <= nanoseconds ts < 1000000000
    /\ instant ts = d.

(** The dates a list holds are timestamps of 1970 or later, where they are
    timestamps at all. *)
Definition wellFormed (t : V1.Transaction) : Prop :=
  match V1.date t with
  | DateTimestamp ts => 0 <= seconds ts /\ 0 <= nanoseconds ts < 1000000000
  | DateMissing | DateText _ => True
  end.

(** An entry with [status = actual] whose date is a timestamp of an instant
    at or after [now - 30d]. *)
Definition inTrailingWindow (now : Z) (t : V1.Transaction) : bool :=
  String.eqb (V1.status t) "actual"
  && match V1.date t with
     | DateTimestamp ts => now - 30 * msPerDay <=? instant ts
     | DateMissing | DateText _ => false
     end.

End Stored.

(** ** Variant 2: the summary document in the store *)

Module V2Store.

Section Document.

(** The store's answer to a call, and the path of the collection that holds
    the summary. *)
Variable remote : V2.Call -> option string.
Variable path : string.

(** The summary document after a call: a write of the three fields that
    resolves leaves these three fields, with merge as without; any other
    call, and a write that is rejected, leave the document as it was. *)
Definition afterCall (record : option V2.Summary) (c : V2.Call) : option V2.Summary :=
  match c with
  | V2.SetDoc p docId data _ =>
      if String.eqb p path && String.eqb docId "summary" then
        match remote c with
        | None => Some data
        | Some _ => record
        end
      else record
  | _ => record
  end.

(** The summary document after the calls made so far, oldest first. *)
Definition summaryRecord (calls : list V2.Call) : option V2.Summary :=
  fold_left afterCall calls None.

End Document.

(** upsertSummary(delta), in the specification's words: the three running
    aggregates of the record, with the amount added. *)
Definition upsertSummary (old : V2.Summary) (type : string) (amount : float) : V2.Summary :=
  {| V2.budget := if String.eqb type "income" then (V2.budget old + amount)%float
                  else (V2.budget old - amount)%float;
     V2.income := if String.eqb type "income" then (V2.income old + amount)%float
                  else V2.income old;
     V2.expense := if String.eqb type "expense" then (V2.expense old + amount)%float
                   else V2.expense old |}.

(** The three totals the component holds in its state. *)
Definition held (s : V2.State) : V2.Summary :=
  {| V2.budget := V2.budgetState s; V2.income := V2.incomeState s;
     V2.expense := V2.expenseState s |}.

End V2Store.

(** * Properties *)

Unset Implicit Arguments.

(** ** Timestamps and the accumulating loops *)

Module MetricsFacts.

Import V1 Spec.

(** A date survives the passage through a Firestore timestamp. *)
Lemma toDate_fromDate (ms : Z) : Timestamp_toDate (Timestamp_fromDate ms) = ms.
Proof.
  unfold Timestamp_toDate, Timestamp_fromDate; simpl.
  replace (ms / 1000 * 1000000000 + (ms - ms / 1000 * 1000) * 1000000)
    with (ms * 1000000) by ring.
  apply Z.quot_mul; lia.
Qed.

(** A loop that tallies the entries satisfying [p] computes the two sums
    over them, each continued from its accumulator. *)
Lemma fold_tally (p : Transaction -> bool) (l : list Transaction) :
  forall a b,
    fold_left (fun acc t => if p t then tally acc t else acc) l (a, b)
    = (sumAmountsFrom a (filter isIncome (filter p l)),
       sumAmountsFrom b (filter isExpense (filter p l))).
Proof.
  induction l as [|t l IH]; intros a b; [reflexivity|].
  cbn [fold_left filter].
  destruct (p t); [|apply IH].
  unfold tally, isIncome, isExpense. cbn [filter fst snd].
  destruct (String.eqb_spec (type t) "income") as [Hi|Hi].
  - rewrite Hi. cbn. rewrite IH. reflexivity.
  - destruct (String.eqb (type t) "expense"); rewrite IH; reflexivity.
Qed.

Lemma fold_left_ext {A B} (f g : A -> B -> A) :
  (forall a b, f a b = g a b) -> forall l a, fold_left f l a = fold_left g l a.
Proof.
  intros H l; induction l as [|x l IH]; intros a; cbn; [reflexivity|].
  rewrite H. apply IH.
Qed.

(** The guard of the trailing loop is the trailing window. *)
Lemma actualStep_window (now : Z) (acc : float * float) (t : Transaction) :
  actualStep (Timestamp_fromDate (now - 30 * 24 * 60 * 60 * 1000)) acc t
  = if inTrailingWindow now t then tally acc t else acc.
Proof.
  unfold actualStep, inTrailingWindow. rewrite toDate_fromDate.
  destruct (String.eqb (status t) "actual"); [|reflexivity].
  destruct (convertible (date t)); reflexivity.
Qed.

(** The guard of the forward loop is the forward window. *)
Lemma forecastStep_window (today thirtyDaysFromNow : Z) (acc : float * float)
    (t : Transaction) :
  forecastStep today thirtyDaysFromNow acc t
  = if inForwardWindow today thirtyDaysFromNow t then tally acc t else acc.
Proof.
  unfold forecastStep, inForwardWindow.
  destruct (String.eqb (status t) "forecasted"); [|reflexivity].
  destruct (convertible (date t)); reflexivity.
Qed.

Lemma actual_refines (now : Z) (l : list Transaction) :
  getActualCashFlowForLast30Days now l = actualCashFlow now l.
Proof.
  unfold getActualCashFlowForLast30Days, actualCashFlow, cashFlowOver.
  rewrite (fold_left_ext _ _ (actualStep_window now)), fold_tally.
  reflexivity.
Qed.

Lemma forecast_refines {P : Platform} (t0 t1 : Z) (l : list Transaction) :
  getForecastCashFlowForNext30Days t0 t1 l
  = forecastCashFlow (startOfLocalDay t0) (endOfLocalDay (t1 + 30 * msPerDay)) l.
Proof.
  unfold getForecastCashFlowForNext30Days, forecastCashFlow, cashFlowOver.
  rewrite (fold_left_ext _ _
             (forecastStep_window (startOfLocalDay t0)
                (endOfLocalDay (t1 + 30 * 24 * 60 * 60 * 1000)))), fold_tally.
  reflexivity.
Qed.

(** Filtering twice by predicates of which the first implies the second. *)
Lemma filter_filter_implied {A} (p q : A -> bool) (l : list A) :
  (forall x, p x = true -> q x = true) -> filter p (filter q l) = filter p l.
Proof.
  intros H; induction l as [|x l IH]; cbn; [reflexivity|].
  destruct (q x) eqn:Hq; cbn.
  - destruct (p x); rewrite IH; reflexivity.
  - destruct (p x) eqn:Hp; [|exact IH].
    apply H in Hp. congruence.
Qed.

Lemma filter_app_cons_skip {A} (p : A -> bool) (l1 l2 : list A) (x : A) :
  p x = false -> filter p (l1 ++ x :: l2) = filter p (l1 ++ l2).
Proof.
  intros H. rewrite !filter_app. cbn. rewrite H. reflexivity.
Qed.

Lemma sumAmountsFrom_app (a : float) (l1 l2 : list Transaction) :
  sumAmountsFrom a (l1 ++ l2) = sumAmountsFrom (sumAmountsFrom a l1) l2.
Proof. unfold sumAmountsFrom. apply fold_left_app. Qed.

End MetricsFacts.

(** ** The derived metrics (variant 1) *)

Module Metrics.

Import V1 Spec MetricsFacts.

(** A positive amount is its own contribution: [t.amount || 0] is [t.amount]. *)
Lemma truthy_positive (a : float) : PrimFloat.ltb 0 a = true -> JS.truthy_num a = true.
Proof.
  unfold JS.truthy_num, JS.isNaN. rewrite !eqb_spec, ltb_spec.
  change (Prim2SF 0) with (S754_zero false).
  destruct (Prim2SF a) as [s| s | |s m e]; cbn; try discriminate.
  - destruct s; cbn; try discriminate; reflexivity.
  - destruct s; cbn; try discriminate. intros _.
    unfold SFeqb, SFcompare. rewrite Z.compare_refl, Pos.compare_cont_refl. reflexivity.
Qed.

Lemma amountOr0_positive (t : Transaction) (a : float) :
  amount t = Some a -> PrimFloat.ltb 0 a = true -> amountOr0 t = a.
Proof.
  intros Ha Hpos. unfold amountOr0. rewrite Ha, (truthy_positive a Hpos). reflexivity.
Qed.

(** An entry outside the window of a cash flow can be removed from the list. *)
Lemma cashFlowOver_skip (p : Transaction -> bool) (l1 l2 : list Transaction)
    (t : Transaction) :
  p t = false ->
  cashFlowOver (filter p (l1 ++ t :: l2)) = cashFlowOver (filter p (l1 ++ l2)).
Proof. intros H. rewrite (filter_app_cons_skip p l1 l2 t H). reflexivity. Qed.

(** A timestamp of 1970 or later converts to its instant. *)
Lemma toDate_instant (ts : Timestamp) :
  0 <= seconds ts -> 0 <= nanoseconds ts < 1000000000 ->
  Timestamp_toDate ts = Stored.instant ts.
Proof.
  intros Hs Hn. unfold Timestamp_toDate, Stored.instant.
  rewrite Z.quot_div_nonneg by lia.
  replace (seconds ts * 1000000000) with (seconds ts * 1000 * 1000000) by ring.
  apply Z.div_add_l. lia.
Qed.

(** What the trailing loop does with an entry whose date is a timestamp. *)
Lemma inTrailingWindow_dated (now d : Z) (t : Transaction) :
  Stored.dated t d ->
  inTrailingWindow now t = String.eqb (status t) "actual" && (now - 30 * msPerDay <=? d).
Proof.
  intros (ts & Hdate & Hs & Hn & Hd). unfold inTrailingWindow.
  rewrite Hdate. cbn [convertible]. rewrite (toDate_instant ts Hs Hn), Hd. reflexivity.
Qed.

(** On well-formed dates the guard of the loop reads the stored instant. *)
Lemma inTrailingWindow_stored (now : Z) (l : list Transaction) :
  Forall Stored.wellFormed l ->
  filter (inTrailingWindow now) l = filter (Stored.inTrailingWindow now) l.
Proof.
  intros Hl. apply filter_ext_in. intros t Ht.
  pose proof (proj1 (Forall_forall _ _) Hl t Ht) as Hwf.
  unfold inTrailingWindow, Stored.inTrailingWindow, Stored.wellFormed in *.
  destruct (date t) as [|ts|text]; cbn [convertible]; try reflexivity.
  destruct Hwf as [Hs Hn]. rewrite (toDate_instant ts Hs Hn). reflexivity.
Qed.

(** The trailing loop over a list with one more entry at its end. *)
Lemma getActual_snoc (now : Z) (l : list Transaction) (t : Transaction) :
  inTrailingWindow now t = true ->
  let before := getActualCashFlowForLast30Days now l in
  let after := getActualCashFlowForLast30Days now (l ++ [t]) in
  (type t = "income" ->
   income after = (income before + amountOr0 t)%float /\ expenses after = expenses before)
  /\ (type t = "expense" ->
      expenses after = (expenses before + amountOr0 t)%float /\ income after = income before).
Proof.
  intros Hin. unfold getActualCashFlowForLast30Days.
  rewrite fold_left_app. cbn [fold_left].
  set (acc := fold_left _ l _).
  rewrite actualStep_window, Hin. unfold tally.
  split; intros Hty; rewrite Hty; cbn; split; reflexivity.
Qed.

(** C2: the trailing-30-day actual cash flow sums the amounts of the entries
    with status actual dated at or after the instant of calculation minus 30
    days, and only those, with net = income - expenses; the date of an entry
    is the instant its stored timestamp holds. An actual entry with
    a date in the window adds its amount to the income, or to the expenses,
    of the flow; an entry dated before the window, and an entry that is not
    actual, leave the flow as it is without them. An actual income entry
    dated 31 days before the instant of calculation leaves the trailing
    figures as they are without it, wherever it stands in the list, and adds
    its amount to totalIncome (to the running sum, at its place in the
    list). *)
Theorem trailing_cash_flow_window (now : Z) :
  (forall l, getActualCashFlowForLast30Days now l = actualCashFlow now l)
  /\ (forall l,
        Forall Stored.wellFormed l ->
        getActualCashFlowForLast30Days now l
        = cashFlowOver (filter (Stored.inTrailingWindow now) l))
  /\ (forall l, net (getActualCashFlowForLast30Days now l)
                = (income (getActualCashFlowForLast30Days now l)
                   - expenses (getActualCashFlowForLast30Days now l))%float)
  /\ (forall (t : Transaction) (a : float) (d : Z) (l : list Transaction),
        status t = "actual" ->
        amount t = Some a ->
        PrimFloat.ltb 0 a = true ->
        Stored.dated t d ->
        now - 30 * msPerDay <= d ->
        let before := getActualCashFlowForLast30Days now l in
        let after := getActualCashFlowForLast30Days now (l ++ [t]) in
        (type t = "income" ->
         income after = (income before + a)%float /\ expenses after = expenses before)
        /\ (type t = "expense" ->
            expenses after = (expenses before + a)%float /\ income after = income before))
  /\ (forall (t : Transaction) (d : Z) (l1 l2 : list Transaction),
        Stored.dated t d ->
        d < now - 30 * msPerDay ->
        getActualCashFlowForLast30Days now (l1 ++ t :: l2)
        = getActualCashFlowForLast30Days now (l1 ++ l2))
  /\ (forall (t : Transaction) (l1 l2 : list Transaction),
        status t <> "actual" ->
        getActualCashFlowForLast30Days now (l1 ++ t :: l2)
        = getActualCashFlowForLast30Days now (l1 ++ l2))
  /\ (forall (t : Transaction) (a : float) (l1 l2 : list Transaction),
        status t = "actual" ->
        type t = "income" ->
        amount t = Some a ->
        PrimFloat.ltb 0 a = true ->
        Stored.dated t (now - 31 * msPerDay) ->
        getActualCashFlowForLast30Days now (l1 ++ t :: l2)
        = getActualCashFlowForLast30Days now (l1 ++ l2)
        /\ totalIncome (l1 ++ t :: l2)
           = sumAmountsFrom (totalIncome l1 + a)%float (filter isActualIncome l2)
        /\ totalIncome (l1 ++ [t]) = (totalIncome l1 + a)%float).
Proof.
  assert (Hbefore : forall t d l1 l2,
             Stored.dated t d -> d < now - 30 * msPerDay ->
             getActualCashFlowForLast30Days now (l1 ++ t :: l2)
             = getActualCashFlowForLast30Days now (l1 ++ l2)).
  { intros t d l1 l2 Hd Hlt. rewrite !actual_refines. apply cashFlowOver_skip.
    rewrite (inTrailingWindow_dated now d t Hd).
    replace (now - 30 * msPerDay <=? d) with false by (symmetry; apply Z.leb_gt; lia).
    apply andb_false_r. }
  split; [exact (actual_refines now)|].
  split; [intros l Hl; rewrite actual_refines; unfold actualCashFlow;
          rewrite (inTrailingWindow_stored now l Hl); reflexivity|].
  split; [reflexivity|].
  split; [|split; [exact Hbefore|split]].
  - intros t a d l Hst Ha Hpos Hd Hle.
    assert (Hin : inTrailingWindow now t = true).
    { rewrite (inTrailingWindow_dated now d t Hd), Hst, String.eqb_refl.
      cbn [andb]. apply Z.leb_le, Hle. }
    pose proof (getActual_snoc now l t Hin) as H. cbv zeta in H.
    rewrite (amountOr0_positive t a Ha Hpos) in H. exact H.
  - intros t l1 l2 Hst. rewrite !actual_refines. apply cashFlowOver_skip.
    unfold inTrailingWindow. apply String.eqb_neq in Hst. rewrite Hst. reflexivity.
  - intros t a l1 l2 Hst Hty Ha Hpos Hd.
    assert (Hin : isActualIncome t = true).
    { unfold isActualIncome. rewrite Hst, Hty. reflexivity. }
    assert (Hsum : forall l, totalIncome (l1 ++ t :: l)
                   = sumAmountsFrom (totalIncome l1 + a)%float (filter isActualIncome l)).
    { intros l. unfold totalIncome, sumAmounts.
      rewrite filter_app, sumAmountsFrom_app. cbn [filter]. rewrite Hin.
      unfold sumAmountsFrom at 1. cbn [fold_left].
      rewrite (amountOr0_positive t a Ha Hpos). reflexivity. }
    split; [|split].
    + apply (Hbefore t (now - 31 * msPerDay) l1 l2 Hd). unfold msPerDay. lia.
    + apply Hsum.
    + apply (Hsum []).
Qed.

(** The claim's example, run: [now] is 2025-03-01T00:00:00Z; a salary of
    100 dated 31 days earlier stands between an income of 7 and an expense
    of 2, both dated the day before [now]. The flow is 7, 2 and 5, and the
    salary is in totalIncome. *)
Lemma trailing_cash_flow_window_witness :
  let now := 1740787200000 in
  let recent (ty : string) (a : float) :=
    mkTransaction "r" (Some a) "c" ty "actual"
      (DateTimestamp (mkTimestamp 1740700800 0)) DateMissing in
  let old :=
    mkTransaction "o" (Some 100%float) "Salary" "income" "actual"
      (DateTimestamp (mkTimestamp 1738108800 0)) DateMissing in
  getActualCashFlowForLast30Days now [recent "income" 7%float; old; recent "expense" 2%float]
  = {| income := 7%float; expenses := 2%float; net := 5%float |}
  /\ expenses (getActualCashFlowForLast30Days now
                 [recent "income" 7%float; recent "expense" 2%float]) = 2%float
  /\ totalIncome [recent "income" 7%float; old] = (7 + 100)%float.
Proof.
  intros now recent old.
  assert (Hrecent : forall ty a, Stored.dated (recent ty a) (now - msPerDay)).
  { intros ty a. exists (mkTimestamp 1740700800 0).
    split; [reflexivity|]. split; [cbn; lia|]. split; [cbn; lia | reflexivity]. }
  assert (Hold : Stored.dated old (now - 31 * msPerDay)).
  { exists (mkTimestamp 1738108800 0).
    split; [reflexivity|]. split; [cbn; lia|]. split; [cbn; lia | reflexivity]. }
  assert (Hle : now - 30 * msPerDay <= now - msPerDay) by (unfold msPerDay; lia).
  destruct (trailing_cash_flow_window now) as (_ & _ & _ & Hin & _ & _ & H31).
  destruct (H31 old 100%float [recent "income" 7%float] [recent "expense" 2%float]
              eq_refl eq_refl eq_refl eq_refl Hold) as (Hflow & _ & Htotal).
  destruct (Hin (recent "expense" 2%float) 2%float (now - msPerDay)
              [recent "income" 7%float] eq_refl eq_refl eq_refl (Hrecent _ _) Hle)
    as (_ & Hexpense).
  destruct (Hexpense eq_refl) as (Hsum & _).
  split; [|split].
  - transitivity (getActualCashFlowForLast30Days now
                    ([recent "income" 7%float] ++ [recent "expense" 2%float])).
    + exact Hflow.
    + reflexivity.
  - transitivity (expenses (getActualCashFlowForLast30Days now [recent "income" 7%float])
                  + 2)%float.
    + exact Hsum.
    + reflexivity.
  - exact Htotal.
Defined.

(** An entry dated exactly 30 days before the calculation is inside the
    trailing window; one millisecond earlier it is outside. *)
Example trailing_window_edge :
  let now := 1740787200000 in
  let at_ (ms : Z) :=
    mkTransaction "e" (Some 9%float) "c" "expense" "actual"
      (DateTimestamp (Timestamp_fromDate ms)) DateMissing in
  getActualCashFlowForLast30Days now [at_ (now - 30 * msPerDay)]
  = {| income := 0%float; expenses := 9%float; net := (-9)%float |}
  /\ getActualCashFlowForLast30Days now [at_ (now - 30 * msPerDay - 1)]
     = {| income := 0%float; expenses := 0%float; net := 0%float |}.
Proof. split; reflexivity. Qed.

(** A salary of 100 and groceries of 40, both actual, with a forecasted
    bonus of 500 between them: totals 100 and 40, balance 60. *)
Example salary_and_groceries :
  let entry (a : float) (c ty st : string) :=
    mkTransaction c (Some a) c ty st DateMissing DateMissing in
  let l := [entry 40%float "Groceries" "expense" "actual";
            entry 500%float "Bonus" "income" "forecasted";
            entry 100%float "Salary" "income" "actual"] in
  totalIncome l = 100%float /\ totalExpenses l = 40%float /\ balance l = 60%float.
Proof. repeat split. Qed.

(** C7: entries with status forecasted contribute nothing to totalIncome,
    totalExpenses, balance and the trailing-30-day actual cash flow: each is
    what it is on the list without them. Entries with status actual
    contribute nothing to the forward-30-day forecast cash flow. *)
Theorem status_separation (l : list Transaction) :
  totalIncome l = totalIncome (without "forecasted" l)
  /\ totalExpenses l = totalExpenses (without "forecasted" l)
  /\ balance l = balance (without "forecasted" l)
  /\ (forall now,
        getActualCashFlowForLast30Days now l
        = getActualCashFlowForLast30Days now (without "forecasted" l))
  /\ (forall (P : Platform) t0 t1,
        getForecastCashFlowForNext30Days t0 t1 l
        = getForecastCashFlowForNext30Days t0 t1 (without "actual" l)).
Proof.
  assert (Hi : filter isActualIncome (without "forecasted" l) = filter isActualIncome l).
  { apply filter_filter_implied. intros t. unfold isActualIncome.
    destruct (String.eqb_spec (status t) "actual") as [->|]; [reflexivity|].
    rewrite andb_false_r. discriminate. }
  assert (He : filter isActualExpense (without "forecasted" l) = filter isActualExpense l).
  { apply filter_filter_implied. intros t. unfold isActualExpense.
    destruct (String.eqb_spec (status t) "actual") as [->|]; [reflexivity|].
    rewrite andb_false_r. discriminate. }
  repeat split.
  - unfold totalIncome. rewrite Hi. reflexivity.
  - unfold totalExpenses. rewrite He. reflexivity.
  - unfold balance, totalIncome, totalExpenses. rewrite Hi, He. reflexivity.
  - intros now. rewrite !actual_refines. unfold actualCashFlow, without.
    rewrite filter_filter_implied; [reflexivity|].
    intros t. unfold inTrailingWindow.
    destruct (String.eqb_spec (status t) "actual") as [->|]; [reflexivity|discriminate].
  - intros P t0 t1. rewrite !forecast_refines. unfold forecastCashFlow, without.
    rewrite filter_filter_implied; [reflexivity|].
    intros t. unfold inForwardWindow.
    destruct (String.eqb_spec (status t) "forecasted") as [->|]; [reflexivity|discriminate].
Qed.

(** C8: for every transaction list L, totalIncome(L) - totalExpenses(L)
    equals balance(L). *)
Theorem balance_is_income_minus_expenses (l : list Transaction) :
  (totalIncome l - totalExpenses l)%float = balance l.
Proof. reflexivity. Qed.

(** C9: for the empty transaction list, totalIncome, totalExpenses, balance
    and the income, expenses and net of both 30-day cash flows are exactly
    zero; the functions are total, so nothing is raised. *)
Theorem empty_list_metrics :
  totalIncome [] = 0%float
  /\ totalExpenses [] = 0%float
  /\ balance [] = 0%float
  /\ (forall now,
        getActualCashFlowForLast30Days now []
        = {| income := 0%float; expenses := 0%float; net := 0%float |})
  /\ (forall (P : Platform) t0 t1,
        getForecastCashFlowForNext30Days t0 t1 []
        = {| income := 0%float; expenses := 0%float; net := 0%float |}).
Proof. repeat split. Qed.

(** C10: a transaction whose date is missing or is not a convertible
    timestamp is skipped by both windowed computations, whatever its status
    and type: with it or without it the result is the same, and the
    functions being total no error is raised. *)
Theorem unconvertible_date_skipped {P : Platform} (t : Transaction)
    (l1 l2 : list Transaction) (now t0 t1 : Z) :
  convertible (date t) = None ->
  getActualCashFlowForLast30Days now (l1 ++ t :: l2)
  = getActualCashFlowForLast30Days now (l1 ++ l2)
  /\ getForecastCashFlowForNext30Days t0 t1 (l1 ++ t :: l2)
     = getForecastCashFlowForNext30Days t0 t1 (l1 ++ l2).
Proof.
  intros Hd. rewrite !actual_refines, !forecast_refines. split.
  - apply cashFlowOver_skip. unfold inTrailingWindow. rewrite Hd. apply andb_false_r.
  - apply cashFlowOver_skip. unfold inForwardWindow. rewrite Hd. apply andb_false_r.
Qed.

(** A pending server timestamp between two dated entries. *)
Lemma unconvertible_date_skipped_witness :
  let now := 1740787200000 in
  let entry (st : string) (d : DateField) :=
    mkTransaction "x" (Some 5%float) "c" "income" st d DateMissing in
  let dated (st : string) (ms : Z) := entry st (DateTimestamp (Timestamp_fromDate ms)) in
  let l1 := [dated "actual" (now - msPerDay)] in
  let l2 := [dated "forecasted" (now + msPerDay)] in
  getActualCashFlowForLast30Days now (l1 ++ entry "actual" DateMissing :: l2)
  = getActualCashFlowForLast30Days now (l1 ++ l2)
  /\ getForecastCashFlowForNext30Days (P := Ref.platform) now now
       (l1 ++ entry "actual" DateMissing :: l2)
     = getForecastCashFlowForNext30Days (P := Ref.platform) now now (l1 ++ l2).
Proof.
  intros now entry dated l1 l2.
  exact (unconvertible_date_skipped (P := Ref.platform) (entry "actual" DateMissing)
           l1 l2 now now now eq_refl).
Defined.

(** *** The forward window *)

Section ForwardWindow.
Context {P : Platform}.

(** [setHours] keeps the local day and sets the time within it. *)
Lemma setHours_same_day (timeInDay t : Z) :
  exists day : Z,
    setHours timeInDay t = UTC (day * msPerDay + timeInDay)
    /\ day * msPerDay <= LocalTime t < (day + 1) * msPerDay.
Proof.
  exists (LocalTime t / msPerDay). split; [reflexivity|].
  assert (H : 0 < msPerDay) by (unfold msPerDay; lia).
  pose proof (Z.mul_div_le (LocalTime t) msPerDay H).
  pose proof (Z.mul_succ_div_gt (LocalTime t) msPerDay H).
  lia.
Qed.

Hypothesis offsets : boundedOffset P.

Lemma startOfLocalDay_upper (t : Z) : startOfLocalDay t <= t + 2 * msPerDay.
Proof.
  destruct (setHours_same_day 0 t) as (day & Heq & Hday).
  unfold startOfLocalDay. rewrite Heq. unfold UTC, LocalTime in *.
  pose proof (offsets t true). pose proof (offsets (day * msPerDay + 0) false).
  lia.
Qed.

Lemma endOfLocalDay_bounds (t : Z) :
  t - 2 * msPerDay <= endOfLocalDay t < t + 3 * msPerDay.
Proof.
  destruct (setHours_same_day (23 * 3600000 + 59 * 60000 + 59 * 1000 + 999) t)
    as (day & Heq & Hday).
  unfold endOfLocalDay. rewrite Heq. unfold UTC, LocalTime in *.
  pose proof (offsets t true).
  pose proof (offsets (day * msPerDay + (23 * 3600000 + 59 * 60000 + 59 * 1000 + 999)) false).
  unfold msPerDay in *. lia.
Qed.

End ForwardWindow.

(** C3: the forward-30-day forecast cash flow sums the amounts of the
    entries with status forecasted whose date lies between the start of the
    current local day and the end of the local day 30 days from now, both
    ends included, and only those; the two ends are local day boundaries
    (midnight of the day the clock reads, and the last millisecond of the
    day that is 30 days later). With local time within a day of UTC and a
    clock that does not run backwards, a forecasted entry dated 10 days in
    the future is in the window, and is added to the flow, and one dated 40
    days in the future is outside, and changes nothing. *)
Theorem forward_cash_flow_window {P : Platform} (t0 t1 : Z) :
  (forall l,
     getForecastCashFlowForNext30Days t0 t1 l
     = forecastCashFlow (startOfLocalDay t0) (endOfLocalDay (t1 + 30 * msPerDay)) l)
  /\ (isLocalDayStart (startOfLocalDay t0)
      /\ exists day, startOfLocalDay t0 = UTC (day * msPerDay)
                     /\ day * msPerDay <= LocalTime t0 < (day + 1) * msPerDay)
  /\ (isLocalDayEnd (endOfLocalDay (t1 + 30 * msPerDay))
      /\ exists day, endOfLocalDay (t1 + 30 * msPerDay)
                     = UTC (day * msPerDay + (msPerDay - 1))
                     /\ day * msPerDay <= LocalTime (t1 + 30 * msPerDay)
                        < (day + 1) * msPerDay)
  /\ (boundedOffset P ->
      t0 <= t1 ->
      forall (near far : Transaction),
        status near = "forecasted" ->
        convertible (date near) = Some (t1 + 10 * msPerDay) ->
        status far = "forecasted" ->
        convertible (date far) = Some (t1 + 40 * msPerDay) ->
        inForwardWindow (startOfLocalDay t0) (endOfLocalDay (t1 + 30 * msPerDay)) near = true
        /\ inForwardWindow (startOfLocalDay t0) (endOfLocalDay (t1 + 30 * msPerDay)) far = false
        /\ (forall l,
              let before := getForecastCashFlowForNext30Days t0 t1 l in
              getForecastCashFlowForNext30Days t0 t1 (l ++ [near])
              = cashFlowOf (tally (income before, expenses before) near))
        /\ (forall l1 l2,
              getForecastCashFlowForNext30Days t0 t1 (l1 ++ far :: l2)
              = getForecastCashFlowForNext30Days t0 t1 (l1 ++ l2))).
Proof.
  split; [exact (forecast_refines t0 t1)|].
  split.
  { destruct (setHours_same_day 0 t0) as (day & Heq & Hday).
    unfold startOfLocalDay. rewrite Heq, Z.add_0_r.
    split; [exists day; reflexivity | exists day; split; [reflexivity | exact Hday]]. }
  split.
  { destruct (setHours_same_day (23 * 3600000 + 59 * 60000 + 59 * 1000 + 999)
                (t1 + 30 * msPerDay)) as (day & Heq & Hday).
    unfold endOfLocalDay. rewrite Heq.
    change (23 * 3600000 + 59 * 60000 + 59 * 1000 + 999) with (msPerDay - 1).
    split; [exists day; reflexivity | exists day; split; [reflexivity | exact Hday]]. }
  intros Hoff Hclock near far Hns Hnd Hfs Hfd.
  pose proof (startOfLocalDay_upper Hoff t0) as Hstart.
  pose proof (endOfLocalDay_bounds Hoff (t1 + 30 * msPerDay)) as Hend.
  assert (Hnear : inForwardWindow (startOfLocalDay t0)
                    (endOfLocalDay (t1 + 30 * msPerDay)) near = true).
  { unfold inForwardWindow. rewrite Hns, Hnd, String.eqb_refl. cbn [andb].
    apply andb_true_iff; split; apply Z.leb_le; unfold msPerDay in *; lia. }
  assert (Hfar : inForwardWindow (startOfLocalDay t0)
                   (endOfLocalDay (t1 + 30 * msPerDay)) far = false).
  { unfold inForwardWindow. rewrite Hfs, Hfd. rewrite String.eqb_refl. cbn [andb].
    apply andb_false_iff; right. apply Z.leb_gt. unfold msPerDay in *. lia. }
  split; [exact Hnear|]. split; [exact Hfar|]. split.
  - intros l. cbv zeta. unfold getForecastCashFlowForNext30Days.
    rewrite fold_left_app. cbn [fold_left].
    change (30 * 24 * 60 * 60 * 1000) with (30 * msPerDay).
    rewrite forecastStep_window, Hnear.
    destruct (fold_left _ l (0%float, 0%float)) as [i e]. reflexivity.
  - intros l1 l2. rewrite !forecast_refines. apply cashFlowOver_skip, Hfar.
Qed.

(** The claim's example, run on the reference platform (local time is
    UTC-5): the clock reads 2025-03-01T15:30:00Z; an income of 50 is
    forecasted 10 days ahead and an expense of 20 is forecasted 40 days
    ahead. *)
Lemma forward_cash_flow_window_witness :
  let now := 1740843000000 in
  let entry (ty : string) (a : float) (ms : Z) :=
    mkTransaction "f" (Some a) "c" ty "forecasted"
      (DateTimestamp (Timestamp_fromDate ms)) DateMissing in
  let near := entry "income" 50%float (now + 10 * msPerDay) in
  let far := entry "expense" 20%float (now + 40 * msPerDay) in
  getForecastCashFlowForNext30Days (P := Ref.platform) now now ([] ++ [near])
  = {| income := 50%float; expenses := 0%float; net := 50%float |}
  /\ getForecastCashFlowForNext30Days (P := Ref.platform) now now ([near] ++ far :: [])
     = getForecastCashFlowForNext30Days (P := Ref.platform) now now ([near] ++ []).
Proof.
  intros now entry near far.
  assert (Hoff : boundedOffset Ref.platform).
  { intros t isUTC. cbn. unfold Ref.LocalTZA, msPerDay. lia. }
  destruct (proj2 (proj2 (proj2 (forward_cash_flow_window (P := Ref.platform) now now)))
              Hoff (Z.le_refl now) near far eq_refl eq_refl eq_refl eq_refl)
    as (_ & _ & Hnear & Hfar).
  split; [exact (Hnear []) | exact (Hfar [near] [])].
Defined.

End Metrics.

(** ** The automatic sign-in *)

Module SessionFacts.

Import Spec.

(** Every automatic sign-in is with the token when one is supplied, and
    anonymous otherwise. *)
Lemma autoSignIn_choice (cfg : Config) :
  match initialAuthToken cfg with
  | Some (String c rest) => autoSignIn cfg = SignInWithCustomToken (String c rest)
  | Some EmptyString | None => autoSignIn cfg = SignInAnonymously
  end.
Proof. unfold autoSignIn. destruct (initialAuthToken cfg) as [[|c rest]|]; reflexivity. Qed.

(** Variant 1: once the one-shot flag is cleared, a step requests nothing
    and leaves it cleared. *)
Lemma v1_step_after_flag (cfg : Config) (s : V1.Session) (e : AuthEvent) :
  V1.isInitialAuthAttempt s = false ->
  V1.isInitialAuthAttempt (V1.sessionStep cfg s e) = false
  /\ V1.signIns (V1.sessionStep cfg s e) = V1.signIns s.
Proof.
  intros Hflag. destruct e as [[u|]|resolved]; cbn.
  - split; [exact Hflag | reflexivity].
  - rewrite Hflag. split; reflexivity.
  - unfold V1.afterSignIn. destruct (V1.awaited s); split; cbn; auto.
Qed.

Lemma v1_run_after_flag (cfg : Config) (events : list AuthEvent) :
  forall s,
    V1.isInitialAuthAttempt s = false ->
    V1.signIns (fold_left (V1.sessionStep cfg) events s) = V1.signIns s.
Proof.
  induction events as [|e events IH]; intros s Hflag; [reflexivity|].
  cbn [fold_left]. destruct (v1_step_after_flag cfg s e Hflag) as [Hflag' Hsame].
  rewrite (IH _ Hflag'). exact Hsame.
Qed.

Lemma v1_inv_run (cfg : Config) (events : list AuthEvent) :
  forall s,
    v1_inv s -> quietFrom cfg s events = true ->
    v1_inv (fold_left (V1.sessionStep cfg) events s).
Proof.
  induction events as [|e events IH]; intros s Hinv Hquiet; [exact Hinv|].
  cbn [fold_left]. cbn [quietFrom] in Hquiet.
  apply andb_true_iff in Hquiet. destruct Hquiet as [Hnow Hrest].
  apply IH; [|exact Hrest]. clear IH Hrest.
  destruct e as [[u|]|resolved]; cbn.
  - destruct Hinv as [(Hf & Ha & Hs)|[(Hf & Ha & Hs)|(Hf & Hs)]]; unfold v1_inv; cbn; auto.
  - apply Nat.eqb_eq in Hnow.
    destruct Hinv as [(Hf & Ha & Hs)|[(Hf & Ha & Hs)|(Hf & Hs)]]; unfold v1_inv.
    + rewrite Hf; cbn. right; left. rewrite Hs, Ha. auto.
    + congruence.
    + rewrite Hf; cbn. auto.
  - unfold V1.afterSignIn.
    destruct Hinv as [(Hf & Ha & Hs)|[(Hf & Ha & Hs)|(Hf & Hs)]]; unfold v1_inv.
    + rewrite Ha. auto.
    + rewrite Ha; cbn. right; right. split; [reflexivity | rewrite Hs; auto].
    + destruct (V1.awaited s); cbn; auto.
Qed.

(** Variant 2: every notified absence requests one more sign-in. *)
Lemma v2_run_counts (cfg : Config) (events : list AuthEvent) :
  forall s,
    List.length (V2.signIns (fold_left (V2.sessionStep cfg) events s))
    = (List.length (V2.signIns s) + absences events)%nat.
Proof.
  unfold absences.
  induction events as [|e events IH]; intros s; cbn [fold_left filter List.length].
  - lia.
  - rewrite IH. destruct e as [[u|]|resolved]; cbn [V2.sessionStep V2.onAuthStateChanged
      V2.afterSignIn V2.signIns List.length]; try lia.
    rewrite length_app. cbn. lia.
Qed.

End SessionFacts.

Module Session.

Import Spec SessionFacts.

(** C6 (as the code has it): in variant 1 the automatic sign-in (token-based
    if a token is supplied, otherwise anonymous) is requested only while the
    one-shot flag is set, and the flag is cleared for good when a requested
    sign-in settles, resolved or rejected: from then on no absence of
    identity requests another, so at most one is requested in an execution in
    which no absence is notified while the first is still awaited. In variant
    2 there is no flag: every notified absence requests a sign-in. *)
Theorem automatic_sign_in (cfg : Config) :
  (forall events later,
     V1.isInitialAuthAttempt (V1.runSession cfg events) = false ->
     V1.signIns (V1.runSession cfg (events ++ later))
     = V1.signIns (V1.runSession cfg events))
  /\ (forall events resolved,
        (0 < V1.awaited (V1.runSession cfg events))%nat ->
        V1.isInitialAuthAttempt (V1.runSession cfg (events ++ [SignInSettled resolved]))
        = false)
  /\ (forall events,
        quiet cfg events = true ->
        (List.length (V1.signIns (V1.runSession cfg events)) <= 1)%nat)
  /\ (forall events,
        List.length (V2.signIns (V2.runSession cfg events)) = absences events)
  /\ (forall events,
        Forall (eq (autoSignIn cfg)) (V1.signIns (V1.runSession cfg events))
        /\ Forall (eq (autoSignIn cfg)) (V2.signIns (V2.runSession cfg events))).
Proof.
  split; [|split; [|split; [|split]]].
  - intros events later Hflag. unfold V1.runSession. rewrite fold_left_app.
    apply v1_run_after_flag, Hflag.
  - intros events resolved Hawaited. unfold V1.runSession in *.
    rewrite fold_left_app. cbn. unfold V1.afterSignIn.
    destruct (V1.awaited (fold_left (V1.sessionStep cfg) events V1.initialSession));
      [lia | reflexivity].
  - intros events Hquiet.
    assert (Hinv : v1_inv (V1.runSession cfg events)).
    { apply v1_inv_run; [left; repeat split | exact Hquiet]. }
    destruct Hinv as [(_ & _ & Hs)|[(_ & _ & Hs)|(_ & Hs)]].
    + rewrite Hs. cbn. lia.
    + rewrite Hs. lia.
    + exact Hs.
  - intros events. unfold V2.runSession. rewrite v2_run_counts. reflexivity.
  - intros events. split.
    + unfold V1.runSession.
      assert (H : forall s, Forall (eq (autoSignIn cfg)) (V1.signIns s) ->
                Forall (eq (autoSignIn cfg))
                  (V1.signIns (fold_left (V1.sessionStep cfg) events s))).
      { induction events as [|e events IH]; intros s Hs; [exact Hs|].
        cbn [fold_left]. apply IH.
        destruct e as [[u|]|resolved]; cbn.
        - exact Hs.
        - destruct (V1.isInitialAuthAttempt s); cbn; [|exact Hs].
          apply Forall_app. split; [exact Hs | repeat constructor].
        - unfold V1.afterSignIn. destruct (V1.awaited s); exact Hs. }
      apply H. constructor.
    + unfold V2.runSession.
      assert (H : forall s, Forall (eq (autoSignIn cfg)) (V2.signIns s) ->
                Forall (eq (autoSignIn cfg))
                  (V2.signIns (fold_left (V2.sessionStep cfg) events s))).
      { induction events as [|e events IH]; intros s Hs; [exact Hs|].
        cbn [fold_left]. apply IH.
        destruct e as [[u|]|resolved]; cbn.
        - exact Hs.
        - apply Forall_app. split; [exact Hs | repeat constructor].
        - exact Hs. }
      apply H. constructor.
Qed.

(** Variant 1 through a start-up, a manual session and a sign-out: the
    anonymous sign-in fails, the user logs in and out, and the second
    absence requests nothing. *)
Lemma automatic_sign_in_witness :
  let cfg := mkConfig "budget" None in
  let events :=
    [AuthStateChanged None; SignInSettled false;
     AuthStateChanged (Some (mkUser "u1" (Some "a@b.c"))); AuthStateChanged None] in
  V1.signIns (V1.runSession cfg events) = [SignInAnonymously]
  /\ (List.length (V1.signIns (V1.runSession cfg events)) <= 1)%nat.
Proof.
  intros cfg events. split; [reflexivity|].
  exact (proj1 (proj2 (proj2 (automatic_sign_in cfg))) events eq_refl).
Defined.

(** C6 as stated fails in variant 2: after the first automatic sign-in has
    settled and a user was signed in, the next absence of identity requests
    a second automatic sign-in. *)
Lemma automatic_sign_in_repeats_in_variant_2 :
  let cfg := mkConfig "budget" None in
  let events :=
    [AuthStateChanged None; SignInSettled true;
     AuthStateChanged (Some (mkUser "u1" None)); AuthStateChanged None] in
  V2.signIns (V2.runSession cfg events) = [SignInAnonymously; SignInAnonymously]
  /\ ~ (List.length (V2.signIns (V2.runSession cfg events)) <= 1)%nat.
Proof. intros cfg events. split; [reflexivity | cbn; lia]. Qed.

(** Variant 1 itself requests twice when the absence is notified again
    before the first sign-in has settled. *)
Example v1_second_request_while_awaited :
  V1.signIns (V1.runSession (mkConfig "budget" (Some "tok"))
                [AuthStateChanged None; AuthStateChanged None])
  = [SignInWithCustomToken "tok"; SignInWithCustomToken "tok"].
Proof. reflexivity. Qed.

End Session.

(** ** Creating records, the summary and the forecast *)

Module StoreFacts.

Lemma truthy_str_false (s : string) : JS.truthy_str s = false <-> s = EmptyString.
Proof. destruct s; cbn; split; congruence. Qed.

(** A number above zero is neither NaN nor at most zero. *)
Lemma positive_accepted (x : float) :
  PrimFloat.ltb 0 x = true -> JS.isNaN x = false /\ PrimFloat.leb x 0 = false.
Proof.
  unfold JS.isNaN. rewrite eqb_spec, ltb_spec, leb_spec.
  change (Prim2SF 0) with (S754_zero false).
  destruct (Prim2SF x) as [s| s | |s m e]; cbn; try discriminate.
  - destruct s; cbn; try discriminate. auto.
  - destruct s; cbn; try discriminate. intros _.
    unfold SFeqb, SFcompare. rewrite Z.compare_refl, Pos.compare_cont_refl. auto.
Qed.

Section V1Add.
Context {P : Platform}.
Variable remote : V1.Add.StoreCall -> option string.
Variable cfg : Config.

Import V1.Add.

(** A refused submission only opens the notice. *)
Lemma v1_refused (s : State) :
  negb (db s) || negb (hasUserId s) || amountRejected s || categoryRejected s
    || dateRejected s = true ->
  exists message,
    Eff.exec (handleAddTransaction remote cfg) s = showCustomModal message s.
Proof.
  intros H. unfold Eff.exec, handleAddTransaction, Eff.bind, Eff.get, Eff.modify.
  cbn [fst snd].
  destruct (negb (db s) || negb (hasUserId s)); [eexists; reflexivity|].
  destruct (amountRejected s); [eexists; reflexivity|].
  destruct (categoryRejected s); [eexists; reflexivity|].
  destruct (dateRejected s); [eexists; reflexivity|].
  discriminate.
Qed.

(** An admitted submission whose date can be written issues the insertion. *)
Lemma v1_admitted (s : State) (d : DateToWrite) :
  negb (db s) || negb (hasUserId s) = false ->
  amountRejected s = false ->
  categoryRejected s = false ->
  dateRejected s = false ->
  (if String.eqb (transactionStatus s) "forecasted" && JS.truthy_str (transactionDate s)
   then effectiveTimestamp s
   else Eff.ret ServerTimestamp) (setError None (setLoading true s))
  = (Eff.Returned d, setError None (setLoading true s)) ->
  calls (Eff.exec (handleAddTransaction remote cfg) s)
  = (calls s ++ [AddDoc (transactionsPath cfg s)
                   {| amount := parseFloat (amountInput s);
                      category := JS.trim (categoryInput s);
                      type := typeInput s;
                      status := transactionStatus s;
                      date := d;
                      createdAt := ServerTimestamp |}])%list.
Proof.
  intros H1 H2 H3 H4 Hd.
  unfold Eff.exec, handleAddTransaction, Eff.bind, Eff.get, Eff.modify.
  rewrite H1, H2, H3, H4.
  unfold Eff.try_catch_finally, submit, Eff.bind. rewrite Hd.
  unfold addDoc, Eff.modify.
  destruct (remote _); reflexivity.
Qed.

End V1Add.

Section V2Handlers.
Context {P : Platform}.
Variable cfg : Config.
Variable remote : V2.Call -> option string.

Import V2.

Lemma v2_refused (f : Form) (s : State) :
  rejected f = true ->
  Eff.exec (handleAddItem cfg remote f) s
  = showMessage "Please enter a valid amount and description." s.
Proof.
  intros H. unfold Eff.exec, handleAddItem. rewrite H. reflexivity.
Qed.

(** What an admitted submission does, by the answers of the store. *)
Lemma v2_admitted (f : Form) (s : State) :
  rejected f = false ->
  let item :=
    {| date := Date_parse (dateField f); amount := parseFloat (amountField f);
       type := typeField f; description := descriptionField f |} in
  let insert := AddDoc (getUserDataPath cfg s "items") item in
  let write :=
    SetDoc (getUserDataPath cfg s "budgets") "summary"
      (nextSummary s (typeField f) (parseFloat (amountField f))) true in
  calls (Eff.exec (handleAddItem cfg remote f) s)
  = match remote insert with
    | None => (calls s ++ [insert; write])%list
    | Some _ => (calls s ++ [insert])%list
    end.
Proof.
  intros H item insert write.
  unfold Eff.exec, handleAddItem. rewrite H.
  unfold Eff.bind, Eff.modify, Eff.try_catch_finally, Eff.get, call.
  change (getUserDataPath cfg (setIsLoading true s)) with (getUserDataPath cfg s).
  change (nextSummary (setIsLoading true s)) with (nextSummary s).
  fold item. fold insert. fold write.
  destruct (remote insert); [reflexivity|].
  destruct (remote write); cbn [snd fst calls logCall showMessage setIsLoading resetForm];
    rewrite <- app_assoc; reflexivity.
Qed.

End V2Handlers.

End StoreFacts.

Module Store.

Import StoreFacts Scenario.

(** Closed goals about the reference platform are settled by evaluation. *)
Ltac computed := vm_compute; reflexivity.

(** C1 (as the code has it): a request to add a transaction (variant 1) whose
    amount text is empty, is not a number for [Number], or parses to a value
    at most zero, or whose category is empty after trimming, only opens a
    validation notice: no call is made to the store. A request to add an
    item (variant 2) whose amount parses to NaN or to a value at most zero,
    or whose description is empty (it is not trimmed), only shows the
    validation message: no call is made to the store. Otherwise the record is
    submitted: always in variant 2, and in variant 1 when the session is
    ready and a forecasted transaction carries a date that can be written. *)
Theorem create_validation {P : Platform} (cfg : Config) :
  (forall remote (s : V1.Add.State),
     V1.Add.amountInput s = EmptyString
     \/ JS.isNaN (Number_of_string (V1.Add.amountInput s)) = true
     \/ PrimFloat.leb (parseFloat (V1.Add.amountInput s)) 0 = true
     \/ JS.trim (V1.Add.categoryInput s) = EmptyString ->
     let s' := Eff.exec (V1.Add.handleAddTransaction remote cfg) s in
     V1.Add.calls s' = V1.Add.calls s
     /\ V1.Add.showModal s' = true
     /\ V1.Add.loading s' = V1.Add.loading s
     /\ V1.Add.error s' = V1.Add.error s)
  /\ (forall remote (s : V1.Add.State),
        V1.Add.db s = true ->
        V1.Add.hasUserId s = true ->
        V1.Add.amountInput s <> EmptyString ->
        JS.isNaN (Number_of_string (V1.Add.amountInput s)) = false ->
        PrimFloat.leb (parseFloat (V1.Add.amountInput s)) 0 = false ->
        JS.trim (V1.Add.categoryInput s) <> EmptyString ->
        V1.Add.transactionStatus s <> "forecasted"
        \/ (V1.Add.transactionDate s <> EmptyString
            /\ exists ms,
                 Date_parse (V1.Add.transactionDate s ++ "T12:00:00") = Some ms
                 /\ V1.Add.Timestamp_inRange ms = true) ->
        exists d,
          V1.Add.calls (Eff.exec (V1.Add.handleAddTransaction remote cfg) s)
          = (V1.Add.calls s
             ++ [V1.Add.AddDoc (V1.Add.transactionsPath cfg s)
                   {| V1.Add.amount := parseFloat (V1.Add.amountInput s);
                      V1.Add.category := JS.trim (V1.Add.categoryInput s);
                      V1.Add.type := V1.Add.typeInput s;
                      V1.Add.status := V1.Add.transactionStatus s;
                      V1.Add.date := d;
                      V1.Add.createdAt := V1.Add.ServerTimestamp |}])%list)
  /\ (forall remote (f : V2.Form) (s : V2.State),
        JS.isNaN (parseFloat (V2.amountField f)) = true
        \/ PrimFloat.leb (parseFloat (V2.amountField f)) 0 = true
        \/ V2.descriptionField f = EmptyString ->
        let s' := Eff.exec (V2.handleAddItem cfg remote f) s in
        V2.calls s' = V2.calls s
        /\ V2.message s' = "Please enter a valid amount and description."
        /\ V2.isLoading s' = V2.isLoading s)
  /\ (forall remote (f : V2.Form) (s : V2.State),
        JS.isNaN (parseFloat (V2.amountField f)) = false ->
        PrimFloat.leb (parseFloat (V2.amountField f)) 0 = false ->
        V2.descriptionField f <> EmptyString ->
        exists rest,
          V2.calls (Eff.exec (V2.handleAddItem cfg remote f) s)
          = (V2.calls s
             ++ V2.AddDoc (V2.getUserDataPath cfg s "items")
                  {| V2.date := Date_parse (V2.dateField f);
                     V2.amount := parseFloat (V2.amountField f);
                     V2.type := V2.typeField f;
                     V2.description := V2.descriptionField f |} :: rest)%list).
Proof.
  split; [|split; [|split]].
  - intros remote s H s'.
    destruct (v1_refused remote cfg s) as [message Hrun].
    { unfold V1.Add.amountRejected, V1.Add.categoryRejected.
      destruct H as [H|[H|[H|H]]]; rewrite H; cbn [JS.truthy_str negb orb];
        rewrite ?orb_true_r; reflexivity. }
    subst s'. rewrite Hrun. repeat split.
  - intros remote s Hdb Huser Hne Hnum Hpos Hcat Hdate.
    assert (H1 : negb (V1.Add.db s) || negb (V1.Add.hasUserId s) = false)
      by (rewrite Hdb, Huser; reflexivity).
    assert (H2 : V1.Add.amountRejected s = false).
    { unfold V1.Add.amountRejected. rewrite Hnum, Hpos.
      destruct (V1.Add.amountInput s); [congruence | reflexivity]. }
    assert (H3 : V1.Add.categoryRejected s = false).
    { unfold V1.Add.categoryRejected.
      destruct (JS.trim (V1.Add.categoryInput s)); [congruence | reflexivity]. }
    destruct (String.eqb_spec (V1.Add.transactionStatus s) "forecasted") as [Hf|Hf].
    + destruct Hdate as [Hno|(Hd & ms & Hparse & Hrange)]; [congruence|].
      assert (Htruthy : JS.truthy_str (V1.Add.transactionDate s) = true)
        by (destruct (V1.Add.transactionDate s); [congruence | reflexivity]).
      exists (V1.Add.ClientTimestamp (Some (Timestamp_fromDate ms))).
      apply v1_admitted; try assumption.
      * unfold V1.Add.dateRejected. rewrite Htruthy. apply andb_false_r.
      * rewrite Hf, Htruthy, String.eqb_refl. cbn [andb].
        unfold V1.Add.effectiveTimestamp. rewrite Hparse, Hrange. reflexivity.
    + apply String.eqb_neq in Hf.
      exists V1.Add.ServerTimestamp.
      apply v1_admitted; try assumption.
      * unfold V1.Add.dateRejected. rewrite Hf. reflexivity.
      * rewrite Hf. reflexivity.
  - intros remote f s H s'. subst s'. rewrite v2_refused; [repeat split|].
    unfold V2.rejected.
    destruct H as [H|[H|H]]; rewrite H; cbn [JS.truthy_str negb orb];
      rewrite ?orb_true_r; reflexivity.
  - intros remote f s Hnum Hpos Hdesc.
    assert (H : V2.rejected f = false).
    { unfold V2.rejected. rewrite Hnum, Hpos.
      destruct (V2.descriptionField f); [congruence | reflexivity]. }
    pose proof (v2_admitted cfg remote f s H) as Hcalls. cbv zeta in Hcalls.
    rewrite Hcalls. destruct (remote _); eexists; reflexivity.
Qed.

(** On the reference platform: a salary of 100 is inserted; an amount of
    -5 and a category of blanks are refused; an item of 12.50 is inserted. *)
Lemma create_validation_witness :
  let cfg := mkConfig "budget" None in
  (exists d,
     V1.Add.calls (Eff.exec (V1.Add.handleAddTransaction (P := Ref.platform) accepting cfg)
                     (v1_ready "100" " Salary " "income" "actual" EmptyString))
     = [V1.Add.AddDoc "/artifacts/budget/users/u1/transactions"
          (V1.Add.mkTransactionData 100%float "Salary" "income" "actual" d
             V1.Add.ServerTimestamp)])
  /\ V1.Add.calls (Eff.exec (V1.Add.handleAddTransaction (P := Ref.platform) accepting cfg)
                     (v1_ready "-5" "Rent" "expense" "actual" EmptyString)) = []
  /\ V1.Add.calls (Eff.exec (V1.Add.handleAddTransaction (P := Ref.platform) accepting cfg)
                     (v1_ready "40" "   " "expense" "actual" EmptyString)) = []
  /\ V2.calls (Eff.exec (V2.handleAddItem (P := Ref.platform) cfg accepting
                           (V2.mkForm "2025-01-15" "0" "expense" "Tea")) v2_ready) = []
  /\ exists rest,
       V2.calls (Eff.exec (V2.handleAddItem (P := Ref.platform) cfg accepting
                             (V2.mkForm "2025-01-15" "12.50" "expense" "Tea")) v2_ready)
       = V2.AddDoc "artifacts/budget/users/u1/items"
           (V2.mkItem (Some 1736899200000) 12.5%float "expense" "Tea") :: rest.
Proof.
  intros cfg.
  pose proof (create_validation (P := Ref.platform) cfg) as (Hv1no & Hv1yes & Hv2no & Hv2yes).
  split; [|split; [|split; [|split]]].
  - set (s := v1_ready "100" " Salary " "income" "actual" EmptyString).
    assert (H1 : V1.Add.db s = true) by reflexivity.
    assert (H2 : V1.Add.hasUserId s = true) by reflexivity.
    assert (H3 : V1.Add.amountInput s <> EmptyString) by discriminate.
    assert (H4 : JS.isNaN (Number_of_string (Platform := Ref.platform) (V1.Add.amountInput s)) = false) by computed.
    assert (H5 : PrimFloat.leb (parseFloat (Platform := Ref.platform) (V1.Add.amountInput s)) 0 = false) by computed.
    assert (H6 : JS.trim (V1.Add.categoryInput s) <> EmptyString)
      by (vm_compute; discriminate).
    assert (H7 : V1.Add.transactionStatus s <> "forecasted") by discriminate.
    pose proof (Hv1yes accepting s H1 H2 H3 H4 H5 H6 (or_introl H7)) as H.
    vm_compute in H. vm_compute. exact H.
  - set (s := v1_ready "-5" "Rent" "expense" "actual" EmptyString).
    assert (H1 : PrimFloat.leb (parseFloat (Platform := Ref.platform) (V1.Add.amountInput s)) 0 = true) by computed.
    pose proof (proj1 (Hv1no accepting s (or_intror (or_intror (or_introl H1))))) as H.
    vm_compute in H. vm_compute. exact H.
  - set (s := v1_ready "40" "   " "expense" "actual" EmptyString).
    assert (H1 : JS.trim (V1.Add.categoryInput s) = EmptyString) by computed.
    pose proof (proj1 (Hv1no accepting s (or_intror (or_intror (or_intror H1))))) as H.
    vm_compute in H. vm_compute. exact H.
  - set (f := V2.mkForm "2025-01-15" "0" "expense" "Tea").
    assert (H1 : PrimFloat.leb (parseFloat (Platform := Ref.platform) (V2.amountField f)) 0 = true) by computed.
    pose proof (proj1 (Hv2no accepting f v2_ready (or_intror (or_introl H1)))) as H.
    vm_compute in H. vm_compute. exact H.
  - set (f := V2.mkForm "2025-01-15" "12.50" "expense" "Tea").
    assert (H1 : JS.isNaN (parseFloat (Platform := Ref.platform) (V2.amountField f)) = false) by computed.
    assert (H2 : PrimFloat.leb (parseFloat (Platform := Ref.platform) (V2.amountField f)) 0 = false) by computed.
    assert (H3 : V2.descriptionField f <> EmptyString) by discriminate.
    pose proof (Hv2yes accepting f v2_ready H1 H2 H3) as H.
    vm_compute in H. vm_compute. exact H.
Defined.

(** C1 as stated fails in variant 2: a description that is empty after
    trimming is not refused; the item and the summary are written. *)
Lemma blank_description_is_submitted :
  let cfg := mkConfig "budget" None in
  let f := V2.mkForm "2025-01-15" "5" "expense" "   " in
  let s' := Eff.exec (V2.handleAddItem (P := Ref.platform) cfg accepting f) v2_ready in
  JS.trim (V2.descriptionField f) = EmptyString
  /\ V2.calls s'
     = [V2.AddDoc "artifacts/budget/users/u1/items"
          (V2.mkItem (Some 1736899200000) 5%float "expense" "   ");
        V2.SetDoc "artifacts/budget/users/u1/budgets" "summary"
          (V2.mkSummary (-5)%float 0%float 5%float) true]
  /\ V2.calls s' <> V2.calls v2_ready
  /\ V2.message s' = "Item added successfully!".
Proof.
  intros cfg f s'. vm_compute. repeat split. discriminate.
Qed.

(** Neither variant asks for a finite amount: [Infinity] is submitted. *)
Example infinite_amount_is_submitted :
  V1.Add.calls (Eff.exec (V1.Add.handleAddTransaction (P := Ref.platform) accepting
                            (mkConfig "budget" None))
                  (v1_ready "Infinity" "Salary" "income" "actual" EmptyString))
  = [V1.Add.AddDoc "/artifacts/budget/users/u1/transactions"
       (V1.Add.mkTransactionData infinity "Salary" "income" "actual"
          V1.Add.ServerTimestamp V1.Add.ServerTimestamp)].
Proof. computed. Qed.

(** Variant 1 reads an amount of blanks as the number 0 in one guard and as
    NaN in the next, and submits NaN. *)
Example blank_amount_is_submitted :
  V1.Add.calls (Eff.exec (V1.Add.handleAddTransaction (P := Ref.platform) accepting
                            (mkConfig "budget" None))
                  (v1_ready "  " "Salary" "income" "actual" EmptyString))
  = [V1.Add.AddDoc "/artifacts/budget/users/u1/transactions"
       (V1.Add.mkTransactionData nan "Salary" "income" "actual"
          V1.Add.ServerTimestamp V1.Add.ServerTimestamp)].
Proof. computed. Qed.

(** Variant 1 does not submit a valid forecasted transaction without a
    date, nor anything while nobody is signed in. *)
Example forecast_without_date_is_refused :
  let s' :=
    Eff.exec (V1.Add.handleAddTransaction (P := Ref.platform) accepting
                (mkConfig "budget" None))
      (v1_ready "100" "Bonus" "income" "forecasted" EmptyString) in
  V1.Add.calls s' = []
  /\ V1.Add.modalMessage s' = "Please select a date for forecasted transactions.".
Proof. split; computed. Qed.

(** When the store rejects the insertion the error is shown, the busy flag
    is cleared and the form keeps its text. *)
Example rejected_insertion_is_reported :
  let s' :=
    Eff.exec (V1.Add.handleAddTransaction (P := Ref.platform)
                (fun _ => Some "permission-denied") (mkConfig "budget" None))
      (v1_ready "100" "Salary" "income" "actual" EmptyString) in
  V1.Add.error s' = Some "Failed to add transaction. Please try again."
  /\ V1.Add.loading s' = false
  /\ V1.Add.amountInput s' = "100"
  /\ List.length (V1.Add.calls s') = 1%nat.
Proof. repeat split; computed. Qed.

(** In variant 2 a rejected insertion stops before the summary is written. *)
Example summary_not_written_after_failed_insertion :
  let s' :=
    Eff.exec (V2.handleAddItem (P := Ref.platform) (mkConfig "budget" None)
                (fun _ => Some "unavailable")
                (V2.mkForm "2025-01-15" "5" "income" "Gift")) v2_ready in
  V2.calls s'
  = [V2.AddDoc "artifacts/budget/users/u1/items"
       (V2.mkItem (Some 1736899200000) 5%float "income" "Gift")]
  /\ V2.message s' = "Error adding item."
  /\ V2.isLoading s' = false.
Proof. repeat split; computed. Qed.

(** A forecasted transaction is written with the chosen day at local noon. *)
Example forecast_with_date_is_submitted :
  V1.Add.calls (Eff.exec (V1.Add.handleAddTransaction (P := Ref.platform) accepting
                            (mkConfig "budget" None))
                  (v1_ready "100" "Bonus" "income" "forecasted" "2025-01-15"))
  = [V1.Add.AddDoc "/artifacts/budget/users/u1/transactions"
       (V1.Add.mkTransactionData 100%float "Bonus" "income" "forecasted"
          (V1.Add.ClientTimestamp (Some (mkTimestamp 1736960400 0)))
          V1.Add.ServerTimestamp)].
Proof. computed. Qed.

(** C4: in variant 2, when an item passes validation and its insertion
    succeeds, the next call writes the summary document with merge
    semantics, computed from the budget, income and expense the component
    holds in its state when the handler runs. For the amount a of the item:
    the budget written is the budget held + a if the type is income, and the
    budget held - a otherwise; the income written is the income held + a if
    the type is income, and the income held otherwise; the expense written is
    the expense held + a if the type is expense, and the expense held
    otherwise. When the write resolves, this is the summary document; it is
    the previous document with the amount added when the state holds the
    values of the previous document. *)
Theorem summary_after_creation {P : Platform} (cfg : Config)
    (remote : V2.Call -> option string) (f : V2.Form) (s : V2.State) :
  let a := parseFloat (V2.amountField f) in
  let insert :=
    V2.AddDoc (V2.getUserDataPath cfg s "items")
      {| V2.date := Date_parse (V2.dateField f); V2.amount := a;
         V2.type := V2.typeField f; V2.description := V2.descriptionField f |} in
  let path := V2.getUserDataPath cfg s "budgets" in
  V2.rejected f = false ->
  remote insert = None ->
  exists written,
    V2.calls (Eff.exec (V2.handleAddItem cfg remote f) s)
    = (V2.calls s ++ [insert; V2.SetDoc path "summary" written true])%list
    /\ (V2.typeField f = "income" ->
        V2.budget written = (V2.budgetState s + a)%float
        /\ V2.income written = (V2.incomeState s + a)%float)
    /\ (V2.typeField f <> "income" ->
        V2.budget written = (V2.budgetState s - a)%float
        /\ V2.income written = V2.incomeState s)
    /\ (V2.typeField f = "expense" -> V2.expense written = (V2.expenseState s + a)%float)
    /\ (V2.typeField f <> "expense" -> V2.expense written = V2.expenseState s)
    /\ (remote (V2.SetDoc path "summary" written true) = None ->
        V2Store.summaryRecord remote path
          (V2.calls (Eff.exec (V2.handleAddItem cfg remote f) s))
        = Some written)
    /\ (forall old,
          V2Store.summaryRecord remote path (V2.calls s) = Some old ->
          V2Store.held s = old ->
          written = V2Store.upsertSummary old (V2.typeField f) a).
Proof.
  intros a insert path Hvalid Hok.
  exists (V2.nextSummary s (V2.typeField f) a).
  pose proof (v2_admitted cfg remote f s Hvalid) as Hcalls. cbv zeta in Hcalls.
  fold a in Hcalls. fold insert in Hcalls. fold path in Hcalls. rewrite Hok in Hcalls.
  split; [exact Hcalls|].
  split; [|split; [|split; [|split; [|split]]]].
  - intros H. unfold V2.nextSummary. cbn [V2.budget V2.income].
    rewrite H, String.eqb_refl. split; reflexivity.
  - intros H. unfold V2.nextSummary. cbn [V2.budget V2.income].
    apply String.eqb_neq in H. rewrite H. split; reflexivity.
  - intros H. unfold V2.nextSummary. cbn [V2.expense].
    rewrite H, String.eqb_refl. reflexivity.
  - intros H. unfold V2.nextSummary. cbn [V2.expense].
    apply String.eqb_neq in H. rewrite H. reflexivity.
  - intros Hwrite. rewrite Hcalls. unfold V2Store.summaryRecord.
    rewrite fold_left_app. cbn [fold_left]. unfold insert at 1.
    cbn [V2Store.afterCall]. rewrite !String.eqb_refl. cbn [andb].
    rewrite Hwrite. reflexivity.
  - intros old _ Hheld. rewrite <- Hheld. reflexivity.
Qed.

(** A salary of 100 on a summary of 50 / 80 / 30, and then a meal of 12.5,
    each from a state that holds the summary. *)
Lemma summary_after_creation_witness :
  let cfg := mkConfig "budget" None in
  let s := V2.mkState (Some (mkUser "u1" None)) 50%float 80%float 30%float []
             (JS.VArr []) false EmptyString false
             [V2.SetDoc "artifacts/budget/users/u1/budgets" "summary"
                (V2.mkSummary 50%float 80%float 30%float) true] in
  (exists written,
     V2.calls (Eff.exec (V2.handleAddItem (P := Ref.platform) cfg accepting
                           (V2.mkForm "2025-01-15" "100" "income" "Salary")) s)
     = (V2.calls s
        ++ [V2.AddDoc "artifacts/budget/users/u1/items"
              (V2.mkItem (Some 1736899200000) 100%float "income" "Salary");
            V2.SetDoc "artifacts/budget/users/u1/budgets" "summary" written true])%list
     /\ written = V2.mkSummary 150%float 180%float 30%float
     /\ written
        = V2Store.upsertSummary (V2.mkSummary 50%float 80%float 30%float) "income" 100%float)
  /\ (exists written,
        V2.calls (Eff.exec (V2.handleAddItem (P := Ref.platform) cfg accepting
                              (V2.mkForm "2025-01-16" "12.5" "expense" "Meal")) s)
        = (V2.calls s
           ++ [V2.AddDoc "artifacts/budget/users/u1/items"
                 (V2.mkItem (Some 1736985600000) 12.5%float "expense" "Meal");
               V2.SetDoc "artifacts/budget/users/u1/budgets" "summary" written true])%list
        /\ written = V2.mkSummary 37.5%float 80%float 42.5%float).
Proof.
  intros cfg s. split.
  - set (f := V2.mkForm "2025-01-15" "100" "income" "Salary").
    assert (H1 : V2.rejected (P := Ref.platform) f = false) by computed.
    destruct (summary_after_creation (P := Ref.platform) cfg accepting f s H1 eq_refl)
      as (written & Hcalls & Hincome & _ & _ & Hother & _ & Hsync).
    exists written. split; [vm_compute in Hcalls; vm_compute; exact Hcalls|].
    destruct (Hincome eq_refl) as [Hb Hi].
    assert (He : V2.expense written = V2.expenseState s) by (apply Hother; discriminate).
    assert (Hrecord : V2Store.summaryRecord accepting
                        (V2.getUserDataPath cfg s "budgets") (V2.calls s)
                      = Some (V2.mkSummary 50%float 80%float 30%float)) by computed.
    pose proof (Hsync _ Hrecord eq_refl) as Hupsert.
    split.
    + destruct written as [b i e]. cbn in Hb, Hi, He. subst b i e. computed.
    + vm_compute in Hupsert. vm_compute. exact Hupsert.
  - set (f := V2.mkForm "2025-01-16" "12.5" "expense" "Meal").
    assert (H1 : V2.rejected (P := Ref.platform) f = false) by computed.
    destruct (summary_after_creation (P := Ref.platform) cfg accepting f s H1 eq_refl)
      as (written & Hcalls & _ & Hother & Hexpense & _).
    exists written. split; [vm_compute in Hcalls; vm_compute; exact Hcalls|].
    assert (Hb : V2.budget written
                 = (V2.budgetState s - parseFloat (V2.amountField f))%float
                 /\ V2.income written = V2.incomeState s) by (apply Hother; discriminate).
    destruct Hb as [Hb Hi].
    assert (He := Hexpense eq_refl).
    destruct written as [b i e]. cbn in Hb, Hi, He. subst b i e. computed.
Defined.

(** Two creations in a row, with no summary snapshot handled between them:
    a salary of 100 on a summary of 50 / 80 / 30 leaves the document at
    150 / 180 / 30; a gift of 20 then leaves it at 70 / 100 / 30, and not at
    the previous document with 20 added to its budget and its income. *)
Example summary_record_is_not_accumulated :
  let cfg := mkConfig "budget" None in
  let path := "artifacts/budget/users/u1/budgets" in
  let s := V2.mkState (Some (mkUser "u1" None)) 50%float 80%float 30%float []
             (JS.VArr []) false EmptyString false
             [V2.SetDoc path "summary" (V2.mkSummary 50%float 80%float 30%float) true] in
  let s1 := Eff.exec (V2.handleAddItem (P := Ref.platform) cfg accepting
                        (V2.mkForm "2025-01-15" "100" "income" "Salary")) s in
  let s2 := Eff.exec (V2.handleAddItem (P := Ref.platform) cfg accepting
                        (V2.mkForm "2025-01-16" "20" "income" "Gift")) s1 in
  V2.message s1 = "Item added successfully!"
  /\ V2.message s2 = "Item added successfully!"
  /\ V2Store.summaryRecord accepting path (V2.calls s1)
     = Some (V2.mkSummary 150%float 180%float 30%float)
  /\ V2Store.summaryRecord accepting path (V2.calls s2)
     = Some (V2.mkSummary 70%float 100%float 30%float)
  /\ V2Store.upsertSummary (V2.mkSummary 150%float 180%float 30%float) "income" 20%float
     = V2.mkSummary 170%float 200%float 30%float
  /\ PrimFloat.eqb 70%float (150 + 20)%float = false
  /\ PrimFloat.eqb 100%float (180 + 20)%float = false.
Proof. repeat split; computed. Qed.

(** C5: when the provider's response lacks a text at
    [candidates[0].content.parts[0].text], or the text does not parse as
    JSON, or the request itself fails, [handleForecast] reports the failure
    and the forecast list keeps exactly its previous value; the list is
    replaced, by the whole parsed value, only when the text parsed. The busy
    flag is cleared in every case. *)
Theorem forecast_all_or_nothing {P : Platform} (provider : option JS.value)
    (s : V2.State) :
  let s' := Eff.exec (V2.handleForecast provider) s in
  (provider = None
   \/ (exists result,
         provider = Some result
         /\ (JS.truthy (V2.responseText result) = false
             \/ JSON_parse (V2.responseText result) = None)) ->
   V2.forecastItems s' = V2.forecastItems s
   /\ V2.message s' = "Failed to generate forecast.")
  /\ (forall result parsed,
        provider = Some result ->
        JS.truthy (V2.responseText result) = true ->
        JSON_parse (V2.responseText result) = Some parsed ->
        V2.forecastItems s' = parsed
        /\ V2.message s' = "Forecast generated successfully!")
  /\ (V2.forecastItems s' <> V2.forecastItems s ->
      exists result parsed,
        provider = Some result
        /\ JS.truthy (V2.responseText result) = true
        /\ JSON_parse (V2.responseText result) = Some parsed
        /\ V2.forecastItems s' = parsed)
  /\ V2.isLoading s' = false.
Proof.
  intros s'. subst s'.
  unfold Eff.exec, V2.handleForecast, Eff.bind, Eff.modify, Eff.try_catch_finally,
    Eff.get, V2.fetchJson, Eff.throw.
  destruct provider as [result|].
  - destruct (JS.truthy (V2.responseText result)) eqn:Htext;
      [destruct (JSON_parse (V2.responseText result)) as [parsed|] eqn:Hparse|];
      cbn; (split; [|split; [|split]]); try reflexivity.
    + intros [H|(r & Hr & [H|H])]; [discriminate| |]; injection Hr as <-; congruence.
    + intros r p Hr _ Hp. injection Hr as <-. split; [congruence | reflexivity].
    + intros _. exists result, parsed. auto.
    + intros _. split; reflexivity.
    + intros r p Hr _ Hp. injection Hr as <-. congruence.
    + intros H. congruence.
    + intros _. split; reflexivity.
    + intros r p Hr Ht. injection Hr as <-. congruence.
    + intros H. congruence.
  - cbn. split; [|split; [|split]]; try reflexivity.
    + intros _. split; reflexivity.
    + intros r p Hr. discriminate.
    + intros H. congruence.
Qed.

(** A previous forecast survives a text that is not JSON and a response
    without candidates, and is replaced by what a JSON text parses to. *)
Lemma forecast_all_or_nothing_witness :
  let previous := JS.VArr [JS.VObj [("month", JS.VStr "Jan")]] in
  let s := V2.mkState (Some (mkUser "u1" None)) 0%float 0%float 0%float []
             previous false EmptyString false [] in
  let response (text : string) :=
    JS.VObj [("candidates",
              JS.VArr [JS.VObj [("content",
                                 JS.VObj [("parts", JS.VArr [JS.VObj [("text", JS.VStr text)]])])]])] in
  V2.forecastItems
    (Eff.exec (V2.handleForecast (P := Ref.platform) (Some (response "Sorry, no data"))) s)
  = previous
  /\ V2.forecastItems
       (Eff.exec (V2.handleForecast (P := Ref.platform) (Some (JS.VObj [("error", JS.VNull)]))) s)
     = previous
  /\ V2.forecastItems
       (Eff.exec (V2.handleForecast (P := Ref.platform) (Some (response "[{}, [1.5, null]]"))) s)
     = JS.VArr [JS.VObj []; JS.VArr [JS.VNum 1.5; JS.VNull]].
Proof.
  intros previous s response. split; [|split].
  - set (r := response "Sorry, no data").
    assert (H1 : JSON_parse (Platform := Ref.platform) (V2.responseText r) = None) by computed.
    exact (proj1 (proj1 (forecast_all_or_nothing (P := Ref.platform) (Some r) s)
                    (or_intror (ex_intro _ r (conj eq_refl (or_intror H1)))))).
  - set (r := JS.VObj [("error", JS.VNull)]).
    exact (proj1 (proj1 (forecast_all_or_nothing (P := Ref.platform) (Some r) s)
                    (or_intror (ex_intro _ r (conj eq_refl (or_introl eq_refl)))))).
  - set (r := response "[{}, [1.5, null]]").
    assert (H1 : JSON_parse (Platform := Ref.platform) (V2.responseText r)
                 = Some (JS.VArr [JS.VObj []; JS.VArr [JS.VNum 1.5; JS.VNull]])) by computed.
    exact (proj1 (proj1 (proj2 (forecast_all_or_nothing (P := Ref.platform) (Some r) s))
                    r _ eq_refl eq_refl H1)).
Defined.

End Store.

(** ** Registration, log-in and log-out (variant 1) *)

Module Accounts.

Import V1Auth.

Lemma submitCredentials_refused (remote : AuthCall -> option string)
    (request : string -> string -> AuthCall) (s : State) :
  incomplete s = true ->
  Eff.exec (submitCredentials remote request) s
  = setAuthError (Some "Please enter email and password.") s.
Proof.
  intros H. unfold Eff.exec, submitCredentials, Eff.bind, Eff.get. rewrite H. reflexivity.
Qed.

Lemma submitCredentials_sent (remote : AuthCall -> option string)
    (request : string -> string -> AuthCall) (s : State) :
  incomplete s = false ->
  Eff.exec (submitCredentials remote request) s
  = match remote (request (email s) (password s)) with
    | None =>
        setLoading false
          (setPassword EmptyString
             (setEmail EmptyString
                (logCall (request (email s) (password s))
                   (setAuthError None (setLoading true s)))))
    | Some message =>
        setLoading false
          (setAuthError (Some message)
             (logCall (request (email s) (password s))
                (setAuthError None (setLoading true s))))
    end.
Proof.
  intros H. unfold Eff.exec, submitCredentials, Eff.bind, Eff.get. rewrite H.
  unfold Eff.try_catch_finally, Eff.bind, Eff.modify, call.
  destruct (remote _); reflexivity.
Qed.

Lemma incomplete_iff (s : State) :
  incomplete s = true <->
  auth s = false \/ email s = EmptyString \/ password s = EmptyString.
Proof.
  unfold incomplete.
  destruct (auth s), (email s), (password s); cbn; split; intros H;
    try reflexivity; try discriminate; auto;
    destruct H as [H|[H|H]]; discriminate.
Qed.

(** X1: [handleRegister] and [handleLogin] refuse an empty e-mail or
    password (or a missing authentication handle): the message asks for
    both, the identity provider is not called, and the busy flag and the
    fields are left as they were. *)
Theorem credentials_required (remote : AuthCall -> option string) (s : State) :
  auth s = false \/ email s = EmptyString \/ password s = EmptyString ->
  forall handler, handler = handleRegister remote \/ handler = handleLogin remote ->
    let s' := Eff.exec handler s in
    calls s' = calls s
    /\ authError s' = Some "Please enter email and password."
    /\ loading s' = loading s
    /\ email s' = email s
    /\ password s' = password s.
Proof.
  intros H handler Hh s'. apply incomplete_iff in H.
  assert (Hs : s' = setAuthError (Some "Please enter email and password.") s).
  { subst s'. destruct Hh as [-> | ->]; apply submitCredentials_refused, H. }
  rewrite Hs. repeat split.
Qed.

Lemma credentials_required_witness :
  let s := mkState true "a@b.c" EmptyString false None None "login" [] [] in
  calls (Eff.exec (handleLogin (fun _ => None)) s) = []
  /\ authError (Eff.exec (handleLogin (fun _ => None)) s)
     = Some "Please enter email and password.".
Proof.
  intros s.
  destruct (credentials_required (fun _ => None) s (or_intror (or_intror eq_refl))
              (handleLogin (fun _ => None)) (or_intror eq_refl))
    as (Hcalls & Herr & _).
  split; [exact Hcalls | exact Herr].
Defined.

(** X2: with an e-mail and a password, [handleLogin] (and [handleRegister],
    with its own call) calls the identity provider once, with the two
    fields as typed, and the busy flag is cleared whatever the answer; when
    the call resolves the two fields are emptied and no error is shown; when
    it rejects the provider's message is shown as it is and the fields are
    kept. *)
Theorem credentials_submitted (remote : AuthCall -> option string) (s : State) :
  auth s = true -> email s <> EmptyString -> password s <> EmptyString ->
  forall request handler,
    (request = CreateUserWithEmailAndPassword /\ handler = handleRegister remote)
    \/ (request = SignInWithEmailAndPassword /\ handler = handleLogin remote) ->
    let s' := Eff.exec handler s in
    let c := request (email s) (password s) in
    calls s' = (calls s ++ [c])%list
    /\ loading s' = false
    /\ match remote c with
       | None => email s' = EmptyString /\ password s' = EmptyString /\ authError s' = None
       | Some message =>
           authError s' = Some message /\ email s' = email s /\ password s' = password s
       end.
Proof.
  intros Ha He Hp request handler Hh s' c.
  assert (Hinc : incomplete s = false).
  { destruct (incomplete s) eqn:Hi; [|reflexivity].
    apply incomplete_iff in Hi. destruct Hi as [Hi|[Hi|Hi]]; congruence. }
  assert (Hs : s' = Eff.exec (submitCredentials remote request) s).
  { subst s'. destruct Hh as [[-> ->]|[-> ->]]; reflexivity. }
  rewrite Hs, (submitCredentials_sent remote request s Hinc). fold c.
  destruct (remote c); repeat split.
Qed.

Lemma credentials_submitted_witness :
  let s := mkState true "a@b.c" "secret" false None None "login" [] [] in
  let refuse (c : AuthCall) := Some "auth/wrong-password" in
  calls (Eff.exec (handleLogin refuse) s) = [SignInWithEmailAndPassword "a@b.c" "secret"]
  /\ loading (Eff.exec (handleLogin refuse) s) = false
  /\ authError (Eff.exec (handleLogin refuse) s) = Some "auth/wrong-password".
Proof.
  intros s refuse.
  destruct (credentials_submitted refuse s eq_refl ltac:(discriminate) ltac:(discriminate)
              SignInWithEmailAndPassword (handleLogin refuse)
              (or_intror (conj eq_refl eq_refl)))
    as (Hcalls & Hload & Herr & _).
  split; [exact Hcalls | split; [exact Hload | exact Herr]].
Defined.



End Accounts.

(** ** Deletion behind the confirmation modal (variant 1) *)

Module Deletion.

Import V1Delete.

Section Confirm.
Variable remote : StoreCall -> option string.
Variable cfg : Config.
(** The state after the trash button and then Confirm, by the store's answer. *)
Lemma confirm_after_request (docId : string) (s : State) :
  ready (db s) (userId s) = true ->
  let c := DeleteDoc (transactionsPath cfg (userId s)) docId in
  Eff.exec (handleModalConfirm remote cfg)
    (Eff.exec (handleDeleteTransaction docId) s)
  = hideCustomModal
      (setLoading false
         (match remote c with
          | None => fun w => w
          | Some _ => setError (Some "Failed to delete transaction. Please try again.")
          end
            (logCall c
               (setError None
                  (setLoading true
                     (showCustomModal "Are you sure you want to delete this transaction?"
                        (Some (DeleteAction (db s) (userId s) docId)) s)))))).
Proof.
  intros Hready c.
  unfold Eff.exec, handleModalConfirm, handleDeleteTransaction, Eff.bind, Eff.get,
    Eff.modify.
  cbn [snd fst modalAction showCustomModal runAction].
  rewrite Hready. cbn [negb].
  unfold Eff.bind, Eff.modify, Eff.try_catch_finally, deleteDoc. fold c.
  destruct (remote c); reflexivity.
Qed.
End Confirm.
(** X4: a transaction is deleted only after confirmation.
    [handleDeleteTransaction] calls nothing: it opens the modal. Cancel
    closes it with no call, and a Confirm after that calls nothing either.
    Confirm issues exactly one [deleteDoc], for that document under the
    user's path, closes the modal and clears the busy flag; a second Confirm
    adds no call. None of them removes the transaction from the in-memory
    list. *)
Theorem deletion_needs_confirmation (remote : StoreCall -> option string)
    (cfg : Config) (docId : string) (s : State) :
  let asked := Eff.exec (handleDeleteTransaction docId) s in
  let cancelled := hideCustomModal asked in
  let confirmed := Eff.exec (handleModalConfirm remote cfg) asked in
  (calls asked = calls s /\ showModal asked = true /\ transactions asked = transactions s)
  /\ (calls cancelled = calls s /\ showModal cancelled = false
      /\ calls (Eff.exec (handleModalConfirm remote cfg) cancelled) = calls s)
  /\ (db s = true ->
      (exists u, userId s = Some u /\ u <> EmptyString) ->
      calls confirmed = (calls s ++ [DeleteDoc (transactionsPath cfg (userId s)) docId])%list
      /\ showModal confirmed = false
      /\ loading confirmed = false
      /\ transactions confirmed = transactions s
      /\ calls (Eff.exec (handleModalConfirm remote cfg) confirmed) = calls confirmed).
Proof.
  intros asked cancelled confirmed. split; [|split].
  - repeat split.
  - repeat split.
  - intros Hdb (u & Hu & Hne).
    assert (Hready : ready (db s) (userId s) = true).
    { unfold ready. rewrite Hdb, Hu. destruct u; [congruence | reflexivity]. }
    subst confirmed asked.
    pose proof (confirm_after_request remote cfg docId s Hready) as H. cbv zeta in H.
    rewrite H. destruct (remote _); repeat split.
Qed.

Lemma deletion_needs_confirmation_witness :
  let cfg := mkConfig "budget" None in
  let t := V1.mkTransaction "t1" (Some 5%float) "Tea" "expense" "actual"
             DateMissing DateMissing in
  let s := mkState true (Some "u1") [t] false None false EmptyString None [] in
  let confirmed :=
    Eff.exec (handleModalConfirm (fun _ => None) cfg)
      (Eff.exec (handleDeleteTransaction "t1") s) in
  calls confirmed = [DeleteDoc "/artifacts/budget/users/u1/transactions" "t1"]
  /\ transactions confirmed = [t].
Proof.
  intros cfg t s confirmed.
  assert (Hu : exists u, userId s = Some u /\ u <> EmptyString).
  { exists "u1". split; [reflexivity | discriminate]. }
  destruct (proj2 (proj2 (deletion_needs_confirmation (fun _ => None) cfg "t1" s))
              eq_refl Hu)
    as (Hcalls & _ & _ & Hkept & _).
  split; [exact Hcalls | exact Hkept].
Defined.

End Deletion.

(** ** Outcomes of adding a transaction (variant 1) *)

Module Submission.

Import V1.Add V1Form.



Section Run.
Context {P : Platform}.
Variable remote : StoreCall -> option string.
Variable cfg : Config.


End Run.


End Submission.

(** ** More on the derived metrics (variant 1) *)

Module Windows.

Import V1 Spec MetricsFacts Calendar.

Lemma filter2_skip {A} (p q : A -> bool) (l1 l2 : list A) (x : A) :
  p x = false ->
  filter p (filter q (l1 ++ x :: l2)) = filter p (filter q (l1 ++ l2)).
Proof.
  intros H. rewrite !filter_app. cbn [filter].
  destruct (q x); [|reflexivity]. cbn [filter]. rewrite H. reflexivity.
Qed.

(** A window's cash flow ignores an entry that is neither income nor expense. *)
Lemma cashFlowOver_untyped (p : Transaction -> bool) (l1 l2 : list Transaction)
    (t : Transaction) :
  isIncome t = false -> isExpense t = false ->
  cashFlowOver (filter p (l1 ++ t :: l2)) = cashFlowOver (filter p (l1 ++ l2)).
Proof.
  intros Hi He. unfold cashFlowOver.
  rewrite (filter2_skip isIncome p l1 l2 t Hi), (filter2_skip isExpense p l1 l2 t He).
  reflexivity.
Qed.

(** X6: an entry whose type is neither income nor expense, or whose status
    is neither actual nor forecasted, counts in no metric: the totals, the
    balance and both cash flows are what they are without it. *)
Theorem uncounted_entries {P : Platform} (t : Transaction) (l1 l2 : list Transaction)
    (now t0 t1 : Z) :
  (type t <> "income" /\ type t <> "expense")
  \/ (status t <> "actual" /\ status t <> "forecasted") ->
  totalIncome (l1 ++ t :: l2) = totalIncome (l1 ++ l2)
  /\ totalExpenses (l1 ++ t :: l2) = totalExpenses (l1 ++ l2)
  /\ balance (l1 ++ t :: l2) = balance (l1 ++ l2)
  /\ getActualCashFlowForLast30Days now (l1 ++ t :: l2)
     = getActualCashFlowForLast30Days now (l1 ++ l2)
  /\ getForecastCashFlowForNext30Days t0 t1 (l1 ++ t :: l2)
     = getForecastCashFlowForNext30Days t0 t1 (l1 ++ l2).
Proof.
  intros H.
  assert (Hai : isActualIncome t = false).
  { unfold isActualIncome. destruct H as [[Hi _]|[Ha _]].
    - apply String.eqb_neq in Hi. rewrite Hi. reflexivity.
    - apply String.eqb_neq in Ha. rewrite Ha. apply andb_false_r. }
  assert (Hae : isActualExpense t = false).
  { unfold isActualExpense. destruct H as [[_ He]|[Ha _]].
    - apply String.eqb_neq in He. rewrite He. reflexivity.
    - apply String.eqb_neq in Ha. rewrite Ha. apply andb_false_r. }
  assert (Hti : totalIncome (l1 ++ t :: l2) = totalIncome (l1 ++ l2)).
  { unfold totalIncome. rewrite (filter_app_cons_skip _ l1 l2 t Hai). reflexivity. }
  assert (Hte : totalExpenses (l1 ++ t :: l2) = totalExpenses (l1 ++ l2)).
  { unfold totalExpenses. rewrite (filter_app_cons_skip _ l1 l2 t Hae). reflexivity. }
  split; [exact Hti|]. split; [exact Hte|].
  split; [unfold balance; rewrite Hti, Hte; reflexivity|].
  rewrite !actual_refines, !forecast_refines. unfold actualCashFlow, forecastCashFlow.
  destruct H as [[Hi He]|[Ha Hf]].
  - apply String.eqb_neq in Hi, He.
    split; apply cashFlowOver_untyped; assumption.
  - apply String.eqb_neq in Ha, Hf. split.
    + rewrite (filter_app_cons_skip _ l1 l2 t); [reflexivity|].
      unfold inTrailingWindow. rewrite Ha. reflexivity.
    + rewrite (filter_app_cons_skip _ l1 l2 t); [reflexivity|].
      unfold inForwardWindow. rewrite Hf. reflexivity.
Qed.

(** A transfer of 70, dated yesterday, among an income and an expense. *)
Lemma uncounted_entries_witness :
  let now := 1740787200000 in
  let entry (ty : string) (a : float) :=
    mkTransaction "x" (Some a) "c" ty "actual"
      (DateTimestamp (Timestamp_fromDate (now - msPerDay))) DateMissing in
  let l1 := [entry "income" 10%float] in
  let l2 := [entry "expense" 4%float] in
  balance (l1 ++ entry "transfer" 70%float :: l2) = balance (l1 ++ l2)
  /\ getActualCashFlowForLast30Days now (l1 ++ entry "transfer" 70%float :: l2)
     = getActualCashFlowForLast30Days now (l1 ++ l2).
Proof.
  intros now entry l1 l2.
  assert (H : (type (entry "transfer" 70%float) <> "income"
               /\ type (entry "transfer" 70%float) <> "expense")
              \/ (status (entry "transfer" 70%float) <> "actual"
                  /\ status (entry "transfer" 70%float) <> "forecasted")).
  { left. split; discriminate. }
  destruct (uncounted_entries (P := Ref.platform) (entry "transfer" 70%float) l1 l2
              now now now H) as (_ & _ & Hb & Ha & _).
  split; [exact Hb | exact Ha].
Defined.

Section CalendarDays.
Context {P : Platform}.
Hypothesis steady : steadyOffset P.

(** Noon of a local day against the two ends of a window of local days. *)
Lemma noon_in_days (first last day : Z) :
  (UTC (first * msPerDay) <= localNoon day
   /\ localNoon day <= UTC (last * msPerDay + (msPerDay - 1)))
  <-> first <= day <= last.
Proof.
  unfold localNoon, UTC.
  pose proof (steady (day * msPerDay + 12 * 3600000) (first * msPerDay)) as H1.
  pose proof (steady (first * msPerDay) (day * msPerDay + 12 * 3600000)) as H2.
  pose proof (steady (day * msPerDay + 12 * 3600000)
                (last * msPerDay + (msPerDay - 1))) as H3.
  pose proof (steady (last * msPerDay + (msPerDay - 1))
                (day * msPerDay + 12 * 3600000)) as H4.
  unfold msPerDay in *. lia.
Qed.

End CalendarDays.

(** X7: a forecasted transaction dated at noon of a local calendar day (as
    [handleAddTransaction] dates it) is in the forward window exactly when
    that day is between the local day of the calculation and the local day
    30 days later, both included, whatever the time of day of the
    calculation; this holds when the offset of local time varies by less
    than twelve hours. *)
Theorem forward_window_in_days {P : Platform} (t0 t1 day : Z) (t : Transaction) :
  steadyOffset P ->
  status t = "forecasted" ->
  convertible (date t) = Some (localNoon day) ->
  inForwardWindow (startOfLocalDay t0) (endOfLocalDay (t1 + 30 * msPerDay)) t = true
  <-> localDay t0 <= day <= localDay (t1 + 30 * msPerDay).
Proof.
  intros Hsteady Hst Hd.
  unfold inForwardWindow. rewrite Hst, Hd, String.eqb_refl. cbn [andb].
  rewrite andb_true_iff, !Z.leb_le.
  unfold startOfLocalDay, endOfLocalDay, setHours. rewrite Z.add_0_r.
  change (23 * 3600000 + 59 * 60000 + 59 * 1000 + 999) with (msPerDay - 1).
  apply (noon_in_days Hsteady).
Qed.

(** On the reference platform at 2025-03-01T23:30 local time: noon of the
    same day is inside, noon of the day before is outside. *)
Lemma forward_window_in_days_witness :
  let now := 1740889800000 in
  let entry (day : Z) :=
    mkTransaction "f" (Some 1%float) "c" "income" "forecasted"
      (DateTimestamp (Timestamp_fromDate (localNoon (P := Ref.platform) day)))
      DateMissing in
  let today := localDay (P := Ref.platform) now in
  inForwardWindow (startOfLocalDay (P := Ref.platform) now)
    (endOfLocalDay (P := Ref.platform) (now + 30 * msPerDay)) (entry today) = true
  /\ inForwardWindow (startOfLocalDay (P := Ref.platform) now)
       (endOfLocalDay (P := Ref.platform) (now + 30 * msPerDay)) (entry (today - 1))
     <> true.
Proof.
  intros now entry today.
  assert (Hsteady : steadyOffset Ref.platform).
  { intros a b. cbn. unfold Ref.LocalTZA. lia. }
  assert (Hin : localDay (P := Ref.platform) now <= today
                <= localDay (P := Ref.platform) (now + 30 * msPerDay))
    by (vm_compute; split; discriminate).
  assert (Hout : ~ (localDay (P := Ref.platform) now <= today - 1
                    <= localDay (P := Ref.platform) (now + 30 * msPerDay)))
    by (vm_compute; intros [H _]; apply H; reflexivity).
  assert (Hd : forall day, convertible (date (entry day))
                           = Some (localNoon (P := Ref.platform) day)).
  { intros day. cbn. rewrite toDate_fromDate. reflexivity. }
  split.
  - exact (proj2 (forward_window_in_days (P := Ref.platform) now now today (entry today)
                    Hsteady eq_refl (Hd today)) Hin).
  - intros H.
    exact (Hout (proj1 (forward_window_in_days (P := Ref.platform) now now (today - 1)
                          (entry (today - 1)) Hsteady eq_refl (Hd (today - 1))) H)).
Defined.

End Windows.

(** ** The session and what is rendered *)

Module SessionView.

Import V1View.


(** With the listener's events alone, the session is the one the listener
    builds. *)
Lemma run_listener (cfg : Config) (events : list AuthEvent) :
  run cfg (map Listener events) = V1.runSession cfg events.
Proof.
  unfold run, V1.runSession. generalize V1.initialSession.
  induction events as [|e events IH]; intros s; [reflexivity|].
  cbn [map fold_left step]. apply IH.
Qed.



(** X9: in variant 1, when the user is notified while the automatic
    sign-in is still awaited and the sign-in settles afterwards, the
    [finally] block clears [isAuthReady] again: the user id is set, but the
    log-in form is rendered and the transactions effect neither subscribes
    nor clears. When the sign-in settles first and the user is notified
    afterwards, the main screen is rendered and the effect subscribes to the
    user's collection. *)
Theorem settle_after_user_hides_the_app (cfg : Config) (events : list AuthEvent)
    (u : User) (resolved : bool) :
  (0 < V1.awaited (V1.runSession cfg events))%nat ->
  uid u <> EmptyString ->
  let userFirst :=
    V1.runSession cfg (events ++ [AuthStateChanged (Some u); SignInSettled resolved]) in
  let settleFirst :=
    V1.runSession cfg (events ++ [SignInSettled resolved; AuthStateChanged (Some u)]) in
  (V1.userId userFirst = Some (uid u)
   /\ V1.isAuthReady userFirst = false
   /\ screen userFirst = AuthForm
   /\ forall db, transactionsEffect cfg db userFirst = NoAction)
  /\ (screen settleFirst = MainScreen
      /\ transactionsEffect cfg true settleFirst
         = Subscribe ("/artifacts/" ++ appId cfg ++ "/users/" ++ uid u ++ "/transactions")).
Proof.
  intros Hawaited Hu userFirst settleFirst.
  assert (Htruthy : JS.truthy_str (uid u) = true)
    by (destruct (uid u); [congruence | reflexivity]).
  subst userFirst settleFirst. unfold V1.runSession in *. rewrite !fold_left_app.
  set (s := fold_left (V1.sessionStep cfg) events V1.initialSession) in *.
  cbn [fold_left V1.sessionStep V1.onAuthStateChanged].
  unfold V1.afterSignIn. cbn [V1.awaited].
  destruct (V1.awaited s) as [|n] eqn:Ha; [lia|].
  unfold screen, transactionsEffect, hasUser. cbn. rewrite Htruthy. cbn.
  repeat split.
Qed.

(** A start-up with an anonymous sign-in that succeeds, in both orders. *)
Lemma settle_after_user_hides_the_app_witness :
  let cfg := mkConfig "budget" None in
  let u := mkUser "anon1" None in
  screen (V1.runSession cfg [AuthStateChanged None; AuthStateChanged (Some u);
                             SignInSettled true]) = AuthForm
  /\ screen (V1.runSession cfg [AuthStateChanged None; SignInSettled true;
                                AuthStateChanged (Some u)]) = MainScreen.
Proof.
  intros cfg u.
  assert (Hu : uid u <> EmptyString) by discriminate.
  assert (Ha : (0 < V1.awaited (V1.runSession cfg [AuthStateChanged None]))%nat)
    by (cbn; lia).
  destruct (settle_after_user_hides_the_app cfg [AuthStateChanged None] u true Ha Hu)
    as ((_ & _ & Hform & _) & (Hmain & _)).
  split; [exact Hform | exact Hmain].
Defined.

(** Variant 2: a step never clears the user nor the ready flag. *)
Lemma v2_user_kept (cfg : Config) (events : list AuthEvent) :
  forall s,
    (V2.isAuthReady s = true -> V2.sessionUser s <> None) ->
    (V2.sessionUser s <> None ->
     V2.sessionUser (fold_left (V2.sessionStep cfg) events s) <> None)
    /\ (V2.isAuthReady s = true ->
        V2.isAuthReady (fold_left (V2.sessionStep cfg) events s) = true)
    /\ (V2.isAuthReady (fold_left (V2.sessionStep cfg) events s) = true ->
        V2.sessionUser (fold_left (V2.sessionStep cfg) events s) <> None).
Proof.
  induction events as [|e events IH]; intros s Hinv.
  - cbn. auto.
  - cbn [fold_left].
    assert (Hinv' : V2.isAuthReady (V2.sessionStep cfg s e) = true ->
                    V2.sessionUser (V2.sessionStep cfg s e) <> None).
    { destruct e as [[u|]|resolved]; cbn; [discriminate | exact Hinv | exact Hinv]. }
    destruct (IH _ Hinv') as (Huser & Hready & Hboth).
    split; [|split].
    + intros Hs. apply Huser. destruct e as [[u|]|resolved]; cbn; [discriminate| |]; exact Hs.
    + intros Hs. apply Hready. destruct e as [[u|]|resolved]; cbn; [reflexivity| |]; exact Hs.
    + exact Hboth.
Qed.

(** X10: in variant 2 the listener never clears what it has set: once a
    user is held, a user is held after any further notifications (a
    notified absence leaves the previous user in place), and once
    [isAuthReady] is set it stays set; [isAuthReady] is never set without a
    user. *)
Theorem v2_identity_is_never_cleared (cfg : Config) (events later : list AuthEvent) :
  (V2.sessionUser (V2.runSession cfg events) <> None ->
   V2.sessionUser (V2.runSession cfg (events ++ later)) <> None)
  /\ (V2.isAuthReady (V2.runSession cfg events) = true ->
      V2.isAuthReady (V2.runSession cfg (events ++ later)) = true)
  /\ V2.sessionUser (V2.runSession cfg (events ++ [AuthStateChanged None]))
     = V2.sessionUser (V2.runSession cfg events)
  /\ (V2.isAuthReady (V2.runSession cfg events) = true ->
      V2.sessionUser (V2.runSession cfg events) <> None).
Proof.
  unfold V2.runSession. rewrite !fold_left_app.
  assert (Hinit : V2.isAuthReady V2.initialSession = true ->
                  V2.sessionUser V2.initialSession <> None) by discriminate.
  destruct (v2_user_kept cfg events V2.initialSession Hinit) as (_ & _ & Hboth).
  destruct (v2_user_kept cfg later _ Hboth) as (Huser & Hready & _).
  repeat split; auto.
Qed.

(** After a sign-out the component still holds the signed-out user. *)
Lemma v2_identity_is_never_cleared_witness :
  let cfg := mkConfig "budget" None in
  let u := mkUser "anon1" None in
  V2.sessionUser (V2.runSession cfg ([AuthStateChanged None; AuthStateChanged (Some u)]
                                      ++ [AuthStateChanged None; SignInSettled false]))
  <> None.
Proof.
  intros cfg u.
  assert (H : V2.sessionUser (V2.runSession cfg [AuthStateChanged None;
                                                  AuthStateChanged (Some u)]) <> None)
    by discriminate.
  exact (proj1 (v2_identity_is_never_cleared cfg
                  [AuthStateChanged None; AuthStateChanged (Some u)]
                  [AuthStateChanged None; SignInSettled false]) H).
Defined.

End SessionView.

(** ** The item list of variant 2: sorting and filtering *)

Module ItemList.

Import V2Items.

Lemma insertByDate_perm (x : StoredItem) (l : list StoredItem) :
  Permutation (x :: l) (insertByDate x l).
Proof.
  induction l as [|y rest IH]; cbn; [reflexivity|].
  destruct (keyOf y <=? keyOf x); [reflexivity|].
  rewrite perm_swap. apply perm_skip, IH.
Qed.

Lemma sortByDate_perm (l : list StoredItem) : Permutation l (sortByDate l).
Proof.
  induction l as [|x l IH]; cbn; [reflexivity|].
  rewrite <- insertByDate_perm. apply perm_skip, IH.
Qed.

Lemma insertByDate_sorted (x : StoredItem) (l : list StoredItem) :
  sortedByDate l -> sortedByDate (insertByDate x l).
Proof.
  unfold sortedByDate. induction l as [|y rest IH]; intros Hs; cbn.
  - repeat constructor.
  - apply StronglySorted_inv in Hs. destruct Hs as [Hrest Hy].
    destruct (keyOf y <=? keyOf x) eqn:Hle.
    + apply Z.leb_le in Hle. constructor; [constructor; assumption|].
      constructor; [exact Hle|].
      eapply Forall_impl; [|exact Hy]. cbn. intros b Hb. lia.
    + apply Z.leb_gt in Hle. constructor; [apply IH, Hrest|].
      apply (Permutation_Forall (insertByDate_perm x rest)).
      constructor; [lia | exact Hy].
Qed.

Lemma sortByDate_sorted (l : list StoredItem) : sortedByDate (sortByDate l).
Proof.
  induction l as [|x l IH]; cbn; [constructor|]. apply insertByDate_sorted, IH.
Qed.

(** Insertion keeps the order of the items of each key: the new item goes
    before those of its own key. *)
Lemma withKey_insert (k : Z) (x : StoredItem) (l : list StoredItem) :
  withKey k (insertByDate x l) = withKey k (x :: l).
Proof.
  unfold withKey. induction l as [|y rest IH]; cbn [insertByDate]; [reflexivity|].
  destruct (keyOf y <=? keyOf x) eqn:Hle; [reflexivity|].
  apply Z.leb_gt in Hle. cbn [filter] in *. rewrite IH.
  destruct (keyOf x =? k) eqn:Hx; [|reflexivity].
  apply Z.eqb_eq in Hx.
  destruct (keyOf y =? k) eqn:Hy; [|reflexivity].
  apply Z.eqb_eq in Hy. lia.
Qed.

Lemma withKey_sort (k : Z) (l : list StoredItem) :
  withKey k (sortByDate l) = withKey k l.
Proof.
  induction l as [|x l IH]; [reflexivity|].
  cbn [sortByDate fold_right]. rewrite withKey_insert.
  unfold withKey in *. cbn [filter]. fold (sortByDate l). rewrite IH. reflexivity.
Qed.

(** Two lists sorted by decreasing key that hold the same items of every
    key in the same order are the same list. *)
Lemma stable_sort_unique (l1 : list StoredItem) :
  forall l2,
    sortedByDate l1 -> sortedByDate l2 ->
    (forall k, withKey k l1 = withKey k l2) ->
    l1 = l2.
Proof.
  unfold sortedByDate, withKey.
  induction l1 as [|a r1 IH]; intros l2 Hs1 Hs2 Hk.
  - destruct l2 as [|b r2]; [reflexivity|].
    specialize (Hk (keyOf b)). cbn in Hk. rewrite Z.eqb_refl in Hk. discriminate.
  - destruct l2 as [|b r2].
    { specialize (Hk (keyOf a)). cbn in Hk. rewrite Z.eqb_refl in Hk. discriminate. }
    apply StronglySorted_inv in Hs1, Hs2.
    destruct Hs1 as [Hr1 Ha], Hs2 as [Hr2 Hb].
    assert (Hab : keyOf a <= keyOf b).
    { pose proof (Hk (keyOf a)) as H. cbn [filter] in H. rewrite Z.eqb_refl in H.
      assert (Hin : In a (filter (fun x => keyOf x =? keyOf a) (b :: r2)))
        by (cbn [filter]; rewrite <- H; left; reflexivity).
      apply filter_In in Hin. destruct Hin as [[<- | Hin] _]; [lia|].
      rewrite Forall_forall in Hb. apply Hb, Hin. }
    assert (Hba : keyOf b <= keyOf a).
    { pose proof (Hk (keyOf b)) as H. cbn [filter] in H. rewrite Z.eqb_refl in H.
      assert (Hin : In b (filter (fun x => keyOf x =? keyOf b) (a :: r1)))
        by (cbn [filter]; rewrite H; left; reflexivity).
      apply filter_In in Hin. destruct Hin as [[<- | Hin] _]; [lia|].
      rewrite Forall_forall in Ha. apply Ha, Hin. }
    assert (Heq : keyOf a = keyOf b) by lia.
    pose proof (Hk (keyOf a)) as Hhead. cbn [filter] in Hhead.
    rewrite Z.eqb_refl, <- Heq, Z.eqb_refl in Hhead.
    injection Hhead as Hhead Htail. subst b. f_equal.
    apply IH; [assumption | assumption|].
    intros k. specialize (Hk k). cbn [filter] in Hk.
    destruct (keyOf a =? k); [injection Hk as Hk|]; exact Hk.
Qed.

(** X11: the items listener sorts a snapshot by date, most recent first, an
    item without date counting as the epoch: the sorted list holds the same
    items, keys never increase along it, and items of equal date keep the
    order of the snapshot; it is the only list with these three properties.
    The sort throws exactly when the snapshot has two items or more and one
    of them has a date that is not a timestamp; the state then keeps the
    previous list. *)
Theorem items_sorted_by_date (docs : list StoredItem) :
  (sortItems docs = None
   <-> (2 <= List.length docs)%nat /\ exists x, In x docs /\ sortKey x = None)
  /\ (forall previous, sortItems docs = None -> onItemsSnapshot docs previous = previous)
  /\ (forall sorted,
        sortItems docs = Some sorted ->
        (forall previous, onItemsSnapshot docs previous = sorted)
        /\ Permutation docs sorted
        /\ sortedByDate sorted
        /\ (forall k, withKey k sorted = withKey k docs)
        /\ (forall other,
              sortedByDate other ->
              (forall k, withKey k other = withKey k docs) ->
              other = sorted)).
Proof.
  split; [|split].
  - unfold sortItems.
    destruct (2 <=? Z.of_nat (List.length docs)) eqn:Hlen; cbn [andb].
    + apply Z.leb_le in Hlen.
      destruct (existsb _ docs) eqn:Hex.
      * split; [intros _|reflexivity]. split; [lia|].
        apply existsb_exists in Hex. destruct Hex as (x & Hin & Hx).
        exists x. split; [exact Hin|]. destruct (sortKey x); [discriminate | reflexivity].
      * split; [discriminate|]. intros (_ & x & Hin & Hx).
        assert (Hex' : existsb (fun x => match sortKey x with
                                         | None => true | Some _ => false end) docs = true).
        { apply existsb_exists. exists x. rewrite Hx. auto. }
        congruence.
    + apply Z.leb_gt in Hlen. split; [discriminate|]. intros (H & _). lia.
  - intros previous H. unfold onItemsSnapshot. rewrite H. reflexivity.
  - intros sorted H.
    assert (Hs : sorted = sortByDate docs).
    { unfold sortItems in H. destruct (_ && _); [discriminate | congruence]. }
    split; [intros previous; unfold onItemsSnapshot; rewrite H; reflexivity|].
    subst sorted. split; [apply sortByDate_perm|]. split; [apply sortByDate_sorted|].
    split; [intros k; apply withKey_sort|].
    intros other Hsorted Hk. apply stable_sort_unique;
      [exact Hsorted | apply sortByDate_sorted|].
    intros k. rewrite Hk, withKey_sort. reflexivity.
Qed.

(** Three items, two of them of the same instant, and one without date. *)
Lemma items_sorted_by_date_witness :
  let item (name : string) (d : DateField) := mkStoredItem name d (Some 1%float) "expense" name in
  let at_ (ms : Z) := DateTimestamp (Timestamp_fromDate ms) in
  let docs := [item "none" DateMissing; item "a" (at_ 5000); item "late" (at_ 9000);
               item "b" (at_ 5000)] in
  onItemsSnapshot docs [] = [item "late" (at_ 9000); item "a" (at_ 5000);
                             item "b" (at_ 5000); item "none" DateMissing]
  /\ onItemsSnapshot [item "text" (DateText "2025-01-01"); item "a" (at_ 5000)]
       [item "old" DateMissing]
     = [item "old" DateMissing].
Proof.
  intros item at_ docs. split.
  - exact (proj1 (proj2 (proj2 (items_sorted_by_date docs)) _ eq_refl) []).
  - exact (proj1 (proj2 (items_sorted_by_date
                           [item "text" (DateText "2025-01-01"); item "a" (at_ 5000)]))
             [item "old" DateMissing] eq_refl).
Defined.

Lemma sortedByDate_filter (f : StoredItem -> bool) (l : list StoredItem) :
  sortedByDate l -> sortedByDate (filter f l).
Proof.
  unfold sortedByDate. induction l as [|x l IH]; intros Hs; cbn; [constructor|].
  apply StronglySorted_inv in Hs. destruct Hs as [Hl Hx].
  destruct (f x); [|apply IH, Hl].
  constructor; [apply IH, Hl|].
  rewrite Forall_forall in *. intros y Hy. apply filter_In in Hy. apply Hx, Hy.
Qed.

(** X12: the filter shows every item under [all]; under another filter it
    shows exactly the items of that type, and in both cases a list sorted by
    date stays sorted. An item whose type is neither income nor expense is
    shown under [all] only. *)
Theorem filtered_view (filterType : string) (items : list StoredItem) :
  filteredItems "all" items = items
  /\ (filterType <> "all" ->
      forall item, In item (filteredItems filterType items)
                   <-> In item items /\ type item = filterType)
  /\ (sortedByDate items -> sortedByDate (filteredItems filterType items))
  /\ (forall item,
        type item <> "income" -> type item <> "expense" ->
        ~ In item (filteredItems "income" items)
        /\ ~ In item (filteredItems "expense" items)).
Proof.
  split; [reflexivity|]. split; [|split].
  - intros Hft item. unfold filteredItems.
    apply String.eqb_neq in Hft. rewrite Hft.
    rewrite filter_In, String.eqb_eq. reflexivity.
  - intros Hs. unfold filteredItems.
    destruct (String.eqb filterType "all"); [exact Hs | apply sortedByDate_filter, Hs].
  - intros item Hi He. unfold filteredItems; cbn [String.eqb Ascii.eqb Bool.eqb].
    split; intros Hin; apply filter_In in Hin; destruct Hin as [_ Hin];
      apply String.eqb_eq in Hin; congruence.
Qed.

Lemma filtered_view_witness :
  let item (name ty : string) := mkStoredItem name DateMissing (Some 1%float) ty name in
  let items := [item "a" "income"; item "b" "transfer"; item "c" "expense"] in
  In (item "c" "expense") (filteredItems "expense" items)
  /\ ~ In (item "b" "transfer") (filteredItems "income" items).
Proof.
  intros item items.
  destruct (filtered_view "expense" items) as (_ & Hexact & _ & Hother).
  assert (Hft : "expense" <> "all") by discriminate.
  assert (Hin : In (item "c" "expense") items) by (right; right; left; reflexivity).
  split.
  - exact (proj2 (Hexact Hft (item "c" "expense")) (conj Hin eq_refl)).
  - assert (H1 : type (item "b" "transfer") <> "income") by discriminate.
    assert (H2 : type (item "b" "transfer") <> "expense") by discriminate.
    exact (proj1 (Hother (item "b" "transfer") H1 H2)).
Defined.

End ItemList.

(** ** Creations, the summary and the forecast request (variant 2) *)

Module Items.

Import V2 V2Calls V2Summary StoreFacts.

Section Run.
Context {P : Platform}.
Variable cfg : Config.
Variable remote : Call -> option string.

(** The state an admitted submission leaves, by the answers of the store. *)
Lemma handleAddItem_run (f : Form) (s : State) :
  rejected f = false ->
  Eff.exec (handleAddItem cfg remote f) s
  = match remote (insertOf cfg s f), remote (writeOf cfg s f) with
    | Some _, _ =>
        setIsLoading false
          (showMessage "Error adding item." (logCall (insertOf cfg s f) (setIsLoading true s)))
    | None, Some _ =>
        setIsLoading false
          (showMessage "Error adding item."
             (logCall (writeOf cfg s f)
                (logCall (insertOf cfg s f) (setIsLoading true s))))
    | None, None =>
        setIsLoading false
          (resetForm
             (showMessage "Item added successfully!"
                (logCall (writeOf cfg s f)
                   (logCall (insertOf cfg s f) (setIsLoading true s)))))
    end.
Proof.
  intros H.
  unfold Eff.exec, handleAddItem. rewrite H.
  unfold Eff.bind, Eff.modify, Eff.try_catch_finally, Eff.get, call.
  change (getUserDataPath cfg (setIsLoading true s)) with (getUserDataPath cfg s).
  change (nextSummary (setIsLoading true s)) with (nextSummary s).
  fold (itemOf f). fold (insertOf cfg s f). fold (writeOf cfg s f).
  destruct (remote (insertOf cfg s f)); [reflexivity|].
  destruct (remote (writeOf cfg s f)); reflexivity.
Qed.

(** [handleAddItem] never writes the totals, the items or the user. *)
Lemma handleAddItem_keeps (f : Form) (s : State) :
  totals (Eff.exec (handleAddItem cfg remote f) s) = totals s
  /\ user (Eff.exec (handleAddItem cfg remote f) s) = user s
  /\ items (Eff.exec (handleAddItem cfg remote f) s) = items s.
Proof.
  destruct (rejected f) eqn:H.
  - rewrite (v2_refused cfg remote f s H). repeat split.
  - rewrite (handleAddItem_run f s H).
    destruct (remote (insertOf cfg s f)); [repeat split|].
    destruct (remote (writeOf cfg s f)); repeat split.
Qed.

End Run.

(** X13: the item and the summary are written by two separate calls: when
    the insertion resolves and the summary write is rejected, the item is
    in the store, the summary is not updated, the error message is shown,
    the form is not reset and the busy flag is cleared. *)
Theorem summary_write_can_fail_alone {P : Platform} (cfg : Config)
    (remote : Call -> option string) (f : Form) (s : State) (e : string) :
  rejected f = false ->
  remote (insertOf cfg s f) = None ->
  remote (writeOf cfg s f) = Some e ->
  let s' := Eff.exec (handleAddItem cfg remote f) s in
  calls s' = (calls s ++ [insertOf cfg s f; writeOf cfg s f])%list
  /\ message s' = "Error adding item."
  /\ formReset s' = formReset s
  /\ isLoading s' = false.
Proof.
  intros Hvalid Hins Hwrite s'. subst s'.
  rewrite (handleAddItem_run cfg remote f s Hvalid), Hins, Hwrite.
  cbn [calls logCall showMessage setIsLoading message formReset isLoading].
  rewrite <- app_assoc. repeat split.
Qed.

(** X14: [handleAddItem] computes the summary from the totals held in the
    component's state, and never updates them itself. Two creations in a
    row, with no summary snapshot handled between them, therefore write a
    second summary that starts again from the same totals: the amount of the
    first item is not in it. *)
Theorem second_summary_ignores_first {P : Platform} (cfg : Config)
    (remote : Call -> option string) (f1 f2 : Form) (s : State) :
  (forall f w, totals (Eff.exec (handleAddItem cfg remote f) w) = totals w)
  /\ (rejected f1 = false ->
      rejected f2 = false ->
      (forall c, remote c = None) ->
      calls (Eff.exec (handleAddItem cfg remote f2) (Eff.exec (handleAddItem cfg remote f1) s))
      = (calls s ++ [insertOf cfg s f1; writeOf cfg s f1;
                     insertOf cfg s f2; writeOf cfg s f2])%list).
Proof.
  split; [intros f w; apply (handleAddItem_keeps cfg remote f w)|].
  intros H1 H2 Hok.
  rewrite (handleAddItem_run cfg remote f2 _ H2), !Hok.
  rewrite (handleAddItem_run cfg remote f1 s H1), !Hok.
  cbn [calls logCall showMessage setIsLoading resetForm].
  rewrite <- !app_assoc. reflexivity.
Qed.

(** X15: [handleAddItem] does not ask for an identity: with no user in the
    state, a valid item is inserted under the user id [anonymous]. *)
Theorem items_without_identity {P : Platform} (cfg : Config)
    (remote : Call -> option string) (f : Form) (s : State) :
  user s = None ->
  rejected f = false ->
  exists rest,
    calls (Eff.exec (handleAddItem cfg remote f) s)
    = (calls s
       ++ AddDoc ("artifacts/" ++ appId cfg ++ "/users/anonymous/items") (itemOf f)
            :: rest)%list.
Proof.
  intros Hu Hvalid.
  rewrite (handleAddItem_run cfg remote f s Hvalid).
  assert (Hpath : insertOf cfg s f
                  = AddDoc ("artifacts/" ++ appId cfg ++ "/users/anonymous/items") (itemOf f)).
  { unfold insertOf, getUserDataPath. rewrite Hu. reflexivity. }
  rewrite <- Hpath.
  destruct (remote (insertOf cfg s f)); [exists []; reflexivity|].
  destruct (remote (writeOf cfg s f)); exists [writeOf cfg s f];
    cbn [calls logCall showMessage setIsLoading resetForm];
    rewrite <- app_assoc; reflexivity.
Qed.

(** X16: [handleForecast] sends one request whatever the answer, built
    from the items in the state, in their order, and writes neither the
    items nor the totals nor the user. *)
Theorem forecast_request {P : Platform} (provider : option JS.value) (s : State) :
  let s' := Eff.exec (handleForecast provider) s in
  calls s' = (calls s ++ [Fetch (items s)])%list
  /\ items s' = items s
  /\ totals s' = totals s
  /\ user s' = user s.
Proof.
  intros s'. subst s'.
  unfold Eff.exec, handleForecast, Eff.bind, Eff.modify, Eff.try_catch_finally,
    Eff.get, fetchJson, Eff.throw.
  destruct provider as [result|]; [|repeat split].
  destruct (JS.truthy (responseText result)); [|repeat split].
  destruct (JSON_parse (responseText result)); repeat split.
Qed.

(** What [data.field || 0] reads is never NaN. *)
Lemma orZero_not_NaN (x : option float) : JS.isNaN (orZero x) = false.
Proof.
  unfold orZero. destruct x as [v|]; [|reflexivity].
  destruct (JS.truthy_num v) eqn:H; [|reflexivity].
  unfold JS.truthy_num in H. apply andb_true_iff in H. destruct H as [_ H].
  destruct (JS.isNaN v); [discriminate | reflexivity].
Qed.

(** X17: the summary listener. For a missing document it writes the
    initial summary (three zeros, not a merge) and leaves the totals as they
    are. For an existing document it makes no call and sets each total to
    the field, or to 0 when the field is missing, 0 or NaN: a total in the
    state is never NaN. After the write of a creation has come back through
    the listener, the next creation builds on it. *)
Theorem summary_listener {P : Platform} (cfg : Config) (s : State) :
  (let s' := onSummarySnapshot cfg None s in
   calls s' = (calls s ++ [SetDoc (getUserDataPath cfg s "budgets") "summary"
                             (mkSummary 0%float 0%float 0%float) false])%list
   /\ totals s' = totals s)
  /\ (forall data,
        let s' := onSummarySnapshot cfg (Some data) s in
        calls s' = calls s
        /\ totals s'
           = (orZero (V2Summary.budget data), orZero (V2Summary.income data),
              orZero (V2Summary.expense data))
        /\ JS.isNaN (budgetState s') = false
        /\ JS.isNaN (incomeState s') = false
        /\ JS.isNaN (expenseState s') = false)
  /\ (forall remote f1 f2,
        rejected f1 = false ->
        rejected f2 = false ->
        (forall c, remote c = None) ->
        let first := nextSummary s (typeField f1) (parseFloat (amountField f1)) in
        let s1 :=
          onSummarySnapshot cfg (Some (written first))
            (Eff.exec (handleAddItem cfg remote f1) s) in
        totals s1
        = (orZero (Some (V2.budget first)), orZero (Some (V2.income first)),
           orZero (Some (V2.expense first)))
        /\ calls (Eff.exec (handleAddItem cfg remote f2) s1)
           = (calls s ++ [insertOf cfg s f1; writeOf cfg s f1;
                          insertOf cfg s1 f2; writeOf cfg s1 f2])%list).
Proof.
  split; [|split].
  - cbv zeta. split; reflexivity.
  - intros data. cbv zeta. cbn [onSummarySnapshot setSummary calls budgetState incomeState
                                 expenseState totals].
    unfold totals. cbn [budgetState incomeState expenseState].
    repeat split; apply orZero_not_NaN.
  - intros remote f1 f2 H1 H2 Hok first s1. split; [reflexivity|].
    rewrite (handleAddItem_run cfg remote f2 s1 H2), !Hok.
    subst s1. rewrite (handleAddItem_run cfg remote f1 s H1), !Hok.
    cbn [calls logCall showMessage setIsLoading resetForm onSummarySnapshot setSummary].
    rewrite <- !app_assoc. reflexivity.
Qed.

(** A store that accepts insertions and rejects the summary write. *)
Lemma summary_write_can_fail_alone_witness :
  let cfg := mkConfig "budget" None in
  let remote (c : Call) :=
    match c with SetDoc _ _ _ _ => Some "unavailable" | _ => None end in
  let f := mkForm "2025-01-15" "100" "income" "Salary" in
  let s' := Eff.exec (handleAddItem (P := Ref.platform) cfg remote f) Scenario.v2_ready in
  message s' = "Error adding item." /\ formReset s' = false /\ List.length (calls s') = 2%nat.
Proof.
  intros cfg remote f s'.
  assert (H1 : rejected (P := Ref.platform) f = false) by (vm_compute; reflexivity).
  destruct (summary_write_can_fail_alone (P := Ref.platform) cfg remote f Scenario.v2_ready
              "unavailable" H1 eq_refl eq_refl) as (Hcalls & Hmsg & Hform & _).
  split; [exact Hmsg|]. split; [exact Hform|].
  subst s'. rewrite Hcalls. reflexivity.
Defined.

(** On totals of 50 / 80 / 30: a salary of 100, then a gift of 20 before any
    snapshot; the second summary has a budget of 70, not 170. *)
Lemma second_summary_ignores_first_witness :
  let cfg := mkConfig "budget" None in
  let s := mkState (Some (mkUser "u1" None)) 50%float 80%float 30%float []
             (JS.VArr []) false EmptyString false [] in
  let f1 := mkForm "2025-01-15" "100" "income" "Salary" in
  let f2 := mkForm "2025-01-16" "20" "income" "Gift" in
  let run f w := Eff.exec (handleAddItem (P := Ref.platform) cfg Scenario.accepting f) w in
  nth 3 (calls (run f2 (run f1 s))) (Fetch [])
  = SetDoc "artifacts/budget/users/u1/budgets" "summary"
      (mkSummary 70%float 100%float 30%float) true.
Proof.
  intros cfg s f1 f2 run.
  assert (H1 : rejected (P := Ref.platform) f1 = false) by (vm_compute; reflexivity).
  assert (H2 : rejected (P := Ref.platform) f2 = false) by (vm_compute; reflexivity).
  pose proof (proj2 (second_summary_ignores_first (P := Ref.platform) cfg
                       Scenario.accepting f1 f2 s) H1 H2 (fun c => eq_refl)) as H.
  subst run. cbv beta. rewrite H. vm_compute. reflexivity.
Defined.

Lemma items_without_identity_witness :
  let cfg := mkConfig "budget" None in
  let s := mkState None 0%float 0%float 0%float [] (JS.VArr []) false EmptyString false [] in
  let f := mkForm "2025-01-15" "5" "expense" "Tea" in
  exists rest,
    calls (Eff.exec (handleAddItem (P := Ref.platform) cfg Scenario.accepting f) s)
    = ([] ++ AddDoc ("artifacts/" ++ "budget" ++ "/users/anonymous/items")
               (itemOf (P := Ref.platform) f) :: rest)%list.
Proof.
  intros cfg s f.
  assert (H1 : rejected (P := Ref.platform) f = false) by (vm_compute; reflexivity).
  exact (items_without_identity (P := Ref.platform) cfg Scenario.accepting f s eq_refl H1).
Defined.

(** The same two creations with the snapshot of the first write handled
    between them: the second summary has a budget of 170. *)
Lemma summary_listener_witness :
  let cfg := mkConfig "budget" None in
  let s := mkState (Some (mkUser "u1" None)) 50%float 80%float 30%float []
             (JS.VArr []) false EmptyString false [] in
  let f1 := mkForm "2025-01-15" "100" "income" "Salary" in
  let f2 := mkForm "2025-01-16" "20" "income" "Gift" in
  let run f w := Eff.exec (handleAddItem (P := Ref.platform) cfg Scenario.accepting f) w in
  let s1 :=
    onSummarySnapshot cfg
      (Some (written (nextSummary s "income" (parseFloat (Platform := Ref.platform) "100"))))
      (run f1 s) in
  nth 3 (calls (run f2 s1)) (Fetch [])
  = SetDoc "artifacts/budget/users/u1/budgets" "summary"
      (mkSummary 170%float 200%float 30%float) true.
Proof.
  intros cfg s f1 f2 run s1.
  assert (H1 : rejected (P := Ref.platform) f1 = false) by (vm_compute; reflexivity).
  assert (H2 : rejected (P := Ref.platform) f2 = false) by (vm_compute; reflexivity).
  pose proof (proj2 (proj2 (proj2 (summary_listener (P := Ref.platform) cfg s))
                       Scenario.accepting f1 f2 H1 H2 (fun c => eq_refl))) as H.
  cbv zeta in H. subst s1 run. cbv beta.
  change (typeField f1) with "income" in H.
  change (amountField f1) with "100" in H.
  rewrite H. vm_compute. reflexivity.
Defined.

End Items.

(** ** Displaying a date (variant 1) *)

Module Display.

Import V1Display.

Lemma daysFromCivil_day (y m d : Z) :
  Ref.daysFromCivil y m 1 + d - 1 = Ref.daysFromCivil y m d.
Proof. unfold Ref.daysFromCivil. lia. Qed.

(** February's last day is followed by the first of March. *)
Lemma daysFromCivil_after_february (y : Z) :
  Ref.daysFromCivil y 2 (Ref.daysInMonth y 2 + 1) = Ref.daysFromCivil y 3 1.
Proof.
  unfold Ref.daysFromCivil, Ref.daysInMonth, Ref.isLeapYear.
  cbn -[Z.div Z.modulo Z.mul Z.add Z.sub].
  destruct (y mod 4 =? 0) eqn:H4; destruct (y mod 100 =? 0) eqn:H100;
    destruct (y mod 400 =? 0) eqn:H400; cbn [andb orb negb];
    rewrite ?Z.eqb_eq, ?Z.eqb_neq in *.
  all: Z.div_mod_to_equations; lia.
Qed.

(** The day after the last day of a month is the first of the next month. *)
Lemma daysFromCivil_next_month (y m : Z) :
  1 <= m <= 11 ->
  Ref.daysFromCivil y m (Ref.daysInMonth y m + 1) = Ref.daysFromCivil y (m + 1) 1.
Proof.
  intros Hm.
  assert (H : m = 1 \/ m = 2 \/ m = 3 \/ m = 4 \/ m = 5 \/ m = 6 \/ m = 7 \/ m = 8
              \/ m = 9 \/ m = 10 \/ m = 11) by lia.
  destruct H as [->|[->|[->|[->|[->|[->|[->|[->|[->|[->| ->]]]]]]]]]];
    match goal with
    | |- context [Ref.daysFromCivil _ (?a + 1) 1] =>
        let b := eval vm_compute in (a + 1) in change (a + 1) with b
    end;
    try apply daysFromCivil_after_february;
    unfold Ref.daysFromCivil, Ref.daysInMonth;
    cbn -[Z.div Z.modulo Z.mul Z.add Z.sub]; Z.div_mod_to_equations; lia.
Qed.

(** For a month of the year and a year from 100 on, [new Date] counts the
    day from the first of that month. *)
Lemma newDate_in_year {P : Platform} (y m d : Z) :
  100 <= y -> 1 <= m <= 12 ->
  newDate y (m - 1) d = UTC (Ref.daysFromCivil y m d * msPerDay).
Proof.
  intros Hy Hm. unfold newDate.
  replace ((0 <=? y) && (y <=? 99)) with false
    by (symmetry; apply andb_false_iff; right; apply Z.leb_gt; lia).
  replace ((m - 1) / 12) with 0 by (symmetry; apply Z.div_small; lia).
  replace ((m - 1) mod 12) with (m - 1) by (symmetry; apply Z.mod_small; lia).
  rewrite Z.add_0_r, Z.sub_add, daysFromCivil_day. reflexivity.
Qed.

Lemma yearMonthDay_shape (s : string) :
  yearMonthDay s <> None <->
  exists y1 y2 y3 y4 m1 m2 d1 d2,
    s = string_of_list_ascii [y1; y2; y3; y4; "-"%char; m1; m2; "-"%char; d1; d2]
    /\ Forall (fun c => isDigit c = true) [y1; y2; y3; y4; m1; m2; d1; d2].
Proof.
  unfold yearMonthDay. split.
  - intros H.
    rewrite <- (string_of_list_ascii_of_string s).
    destruct (list_ascii_of_string s)
      as [|y1 [|y2 [|y3 [|y4 [|h1 [|m1 [|m2 [|h2 [|d1 [|d2 [|x l]]]]]]]]]]];
      try congruence.
    destruct (isDigit y1) eqn:E1; cbn [andb] in H; [|congruence].
    destruct (isDigit y2) eqn:E2; cbn [andb] in H; [|congruence].
    destruct (isDigit y3) eqn:E3; cbn [andb] in H; [|congruence].
    destruct (isDigit y4) eqn:E4; cbn [andb] in H; [|congruence].
    destruct (Ascii.eqb_spec h1 "-"%char) as [->|]; cbn [andb] in H; [|congruence].
    destruct (isDigit m1) eqn:E5; cbn [andb] in H; [|congruence].
    destruct (isDigit m2) eqn:E6; cbn [andb] in H; [|congruence].
    destruct (Ascii.eqb_spec h2 "-"%char) as [->|]; cbn [andb] in H; [|congruence].
    destruct (isDigit d1) eqn:E7; cbn [andb] in H; [|congruence].
    destruct (isDigit d2) eqn:E8; cbn [andb] in H; [|congruence].
    exists y1, y2, y3, y4, m1, m2, d1, d2. split; [reflexivity|].
    repeat constructor; assumption.
  - intros (y1 & y2 & y3 & y4 & m1 & m2 & d1 & d2 & -> & Hd).
    rewrite list_ascii_of_string_of_list_ascii.
    repeat match goal with
           | H : Forall _ (_ :: _) |- _ => inversion H; subst; clear H
           end.
    repeat match goal with H : isDigit _ = true |- _ => rewrite H; clear H end.
    cbn. discriminate.
Qed.

Lemma digit_range (c : ascii) : isDigit c = true -> 0 <= digit c <= 9.
Proof.
  unfold isDigit, digit. intros H. apply andb_true_iff in H. destruct H as [H1 H2].
  apply Nat.leb_le in H1, H2. lia.
Qed.

Lemma yearMonthDay_year (s : string) (y m d : Z) :
  yearMonthDay s = Some (y, m, d) -> 0 <= y.
Proof.
  unfold yearMonthDay.
  destruct (list_ascii_of_string s)
    as [|y1 [|y2 [|y3 [|y4 [|h1 [|m1 [|m2 [|h2 [|d1 [|d2 [|x l]]]]]]]]]]];
    try discriminate.
  destruct (isDigit y1) eqn:E1; cbn [andb]; [|discriminate].
  destruct (isDigit y2) eqn:E2; cbn [andb]; [|discriminate].
  destruct (isDigit y3) eqn:E3; cbn [andb]; [|discriminate].
  destruct (isDigit y4) eqn:E4; cbn [andb]; [|discriminate].
  destruct (_ && _)%bool; [|discriminate].
  intros H.
  assert (Hy : y = 1000 * digit y1 + 100 * digit y2 + 10 * digit y3 + digit y4)
    by congruence.
  pose proof (digit_range y1 E1). pose proof (digit_range y2 E2).
  pose proof (digit_range y3 E3). pose proof (digit_range y4 E4). lia.
Qed.

(** X18: [formatDate] shows [N/A] for a missing date (a pending server
    timestamp among them) and for a text that is not four digits, a dash,
    two digits, a dash and two digits. A text of that shape is never
    refused: with a month from 01 to 12 it shows the day counted from the
    first of that month, at local midnight, so a real date shows as itself
    and a day past the end of the month shows as a day of the next month;
    and a year below 100 is shown as a year of the 1900s. A timestamp shows
    as the date it converts to. *)
Theorem formatDate_cases {P : Platform} (toLocaleDateString : option Z -> string) :
  (forall t : V1.Transaction,
     V1.date t = DateMissing ->
     formatDate toLocaleDateString (ofField (V1.date t)) = "N/A")
  /\ (forall s, yearMonthDay s = None -> formatDate toLocaleDateString (Text s) = "N/A")
  /\ (forall s,
        yearMonthDay s <> None <->
        exists y1 y2 y3 y4 m1 m2 d1 d2,
          s = string_of_list_ascii [y1; y2; y3; y4; "-"%char; m1; m2; "-"%char; d1; d2]
          /\ Forall (fun c => isDigit c = true) [y1; y2; y3; y4; m1; m2; d1; d2])
  /\ (forall s y m d,
        yearMonthDay s = Some (y, m, d) ->
        1 <= m <= 12 ->
        let year := if y <=? 99 then 1900 + y else y in
        formatDate toLocaleDateString (Text s)
        = toLocaleDateString (Some (UTC (Ref.daysFromCivil year m d * msPerDay)))
        /\ (m <= 11 ->
            forall k,
              d = Ref.daysInMonth year m + k ->
              formatDate toLocaleDateString (Text s)
              = toLocaleDateString
                  (Some (UTC (Ref.daysFromCivil year (m + 1) k * msPerDay)))))
  /\ (forall ts,
        formatDate toLocaleDateString (Timestamped ts)
        = toLocaleDateString (convertible (DateTimestamp ts))).
Proof.
  split; [intros t Ht; rewrite Ht; reflexivity|].
  split; [intros s Hs; cbn; rewrite Hs; reflexivity|].
  split; [exact yearMonthDay_shape|].
  split; [|reflexivity].
  intros s y m d Hs Hm year.
  pose proof (yearMonthDay_year s y m d Hs) as Hy.
  assert (Hfmt : formatDate toLocaleDateString (Text s)
                 = toLocaleDateString
                     (Some (UTC (Ref.daysFromCivil year m d * msPerDay)))).
  { cbn [formatDate]. rewrite Hs. f_equal. f_equal. subst year.
    destruct (y <=? 99) eqn:Hle.
    - apply Z.leb_le in Hle. unfold newDate.
      replace ((0 <=? y) && (y <=? 99)) with true
        by (symmetry; apply andb_true_iff; split; apply Z.leb_le; lia).
      pose proof (newDate_in_year (1900 + y) m d ltac:(lia) Hm) as H.
      unfold newDate in H.
      replace ((0 <=? 1900 + y) && (1900 + y <=? 99)) with false in H
        by (symmetry; apply andb_false_iff; right; apply Z.leb_gt; lia).
      exact H.
    - apply Z.leb_gt in Hle. apply newDate_in_year; lia. }
  split; [exact Hfmt|].
  intros Hm11 k Hk. rewrite Hfmt. f_equal. f_equal. f_equal. f_equal.
  rewrite Hk, <- (daysFromCivil_day year m (Ref.daysInMonth year m + k)).
  rewrite <- (daysFromCivil_day year (m + 1) k).
  rewrite <- (daysFromCivil_next_month year m ltac:(lia)).
  rewrite <- (daysFromCivil_day year m (Ref.daysInMonth year m + 1)). lia.
Qed.

(** With a formatter that shows the instant in milliseconds: the 30th of
    February 2025 is shown as the 2nd of March 2025, and the year 0025 as
    1925 (local time is UTC-5 on the reference platform). *)
Lemma formatDate_cases_witness :
  let show (ms : option Z) :=
    match ms with
    | Some t => Ref.decimalString t
    | None => "Invalid Date"
    end in
  formatDate (P := Ref.platform) show (Text "2025-02-30")
  = formatDate (P := Ref.platform) show (Text "2025-03-02")
  /\ formatDate (P := Ref.platform) show (Text "0025-03-02")
     = formatDate (P := Ref.platform) show (Text "1925-03-02")
  /\ formatDate (P := Ref.platform) show (Text "2025-3-2") = "N/A".
Proof.
  intros show.
  destruct (formatDate_cases (P := Ref.platform) show) as (_ & Hna & _ & Htext & _).
  assert (Hfeb : yearMonthDay "2025-02-30" = Some (2025, 2, 30)) by reflexivity.
  assert (Hmar : yearMonthDay "2025-03-02" = Some (2025, 3, 2)) by reflexivity.
  assert (Hold : yearMonthDay "0025-03-02" = Some (25, 3, 2)) by reflexivity.
  assert (H19 : yearMonthDay "1925-03-02" = Some (1925, 3, 2)) by reflexivity.
  assert (Hbad : yearMonthDay "2025-3-2" = None) by reflexivity.
  assert (H2 : 1 <= 2 <= 12) by lia.
  assert (H3 : 1 <= 3 <= 12) by lia.
  assert (H211 : 2 <= 11) by lia.
  split; [|split].
  - rewrite (proj2 (Htext _ _ _ _ Hfeb H2) H211 2 eq_refl).
    rewrite (proj1 (Htext _ _ _ _ Hmar H3)). reflexivity.
  - rewrite (proj1 (Htext _ _ _ _ Hold H3)), (proj1 (Htext _ _ _ _ H19 H3)). reflexivity.
  - exact (Hna _ Hbad).
Defined.

End Display.

(** ** Entries whose server timestamp is pending (variant 1) *)

Module Pending.

Import V1 Spec MetricsFacts.

(** X19: an actual entry whose date is still missing (the server timestamp
    of a transaction just added is pending) already counts in the totals,
    an income in totalIncome and an expense in totalExpenses, with its
    amount, but in neither 30-day cash flow. *)
Theorem pending_entry_in_totals_only {P : Platform} (t : Transaction) (a : float)
    (l1 l2 : list Transaction) (now t0 t1 : Z) :
  status t = "actual" ->
  date t = DateMissing ->
  amount t = Some a ->
  PrimFloat.ltb 0 a = true ->
  (type t = "income" ->
   totalIncome (l1 ++ t :: l2)
   = sumAmountsFrom (totalIncome l1 + a)%float (filter isActualIncome l2))
  /\ (type t = "expense" ->
      totalExpenses (l1 ++ t :: l2)
      = sumAmountsFrom (totalExpenses l1 + a)%float (filter isActualExpense l2))
  /\ getActualCashFlowForLast30Days now (l1 ++ t :: l2)
     = getActualCashFlowForLast30Days now (l1 ++ l2)
  /\ getForecastCashFlowForNext30Days t0 t1 (l1 ++ t :: l2)
     = getForecastCashFlowForNext30Days t0 t1 (l1 ++ l2).
Proof.
  intros Hst Hd Ha Hpos.
  pose proof (Metrics.amountOr0_positive t a Ha Hpos) as Ham.
  split; [|split; [|split]].
  - intros Hty. unfold totalIncome, sumAmounts.
    rewrite filter_app, sumAmountsFrom_app. cbn [filter].
    unfold isActualIncome at 2. rewrite Hty, Hst.
    rewrite !String.eqb_refl. cbn [andb].
    unfold sumAmountsFrom at 1. cbn [fold_left]. rewrite Ham. reflexivity.
  - intros Hty. unfold totalExpenses, sumAmounts.
    rewrite filter_app, sumAmountsFrom_app. cbn [filter].
    unfold isActualExpense at 2. rewrite Hty, Hst.
    rewrite !String.eqb_refl. cbn [andb].
    unfold sumAmountsFrom at 1. cbn [fold_left]. rewrite Ham. reflexivity.
  - rewrite !actual_refines. unfold actualCashFlow.
    rewrite (filter_app_cons_skip _ l1 l2 t); [reflexivity|].
    unfold inTrailingWindow. rewrite Hd. apply andb_false_r.
  - rewrite !forecast_refines. unfold forecastCashFlow.
    rewrite (filter_app_cons_skip _ l1 l2 t); [reflexivity|].
    unfold inForwardWindow. rewrite Hd. apply andb_false_r.
Qed.

(** A salary of 100 just added, before an expense of 40 dated yesterday. *)
Lemma pending_entry_in_totals_only_witness :
  let now := 1740787200000 in
  let salary := mkTransaction "new" (Some 100%float) "Salary" "income" "actual"
                  DateMissing DateMissing in
  let rent := mkTransaction "old" (Some 40%float) "Rent" "expense" "actual"
                (DateTimestamp (Timestamp_fromDate (now - msPerDay))) DateMissing in
  totalIncome ([] ++ salary :: [rent]) = 100%float
  /\ getActualCashFlowForLast30Days now ([] ++ salary :: [rent])
     = getActualCashFlowForLast30Days now ([] ++ [rent]).
Proof.
  intros now salary rent.
  assert (Hpos : PrimFloat.ltb 0 100 = true) by reflexivity.
  destruct (pending_entry_in_totals_only (P := Ref.platform) salary 100%float [] [rent]
              now now now eq_refl eq_refl eq_refl Hpos) as (Hinc & _ & Hflow & _).
  split; [exact (Hinc eq_refl) | exact Hflow].
Defined.

End Pending.
